(** * Event analytics dashboard: parsing, aggregation and pace forecasting

    A shallow embedding of the data pipeline of the dashboard
    ([utils.py], [config_helpers.py], [auth.py] and the registration-target
    block of [app.py]) together with the properties its specification
    states about it.

    Conventions of the embedding:
    - Python values that can reach the pipeline are the inductive [pyval];
      floats keep the three cases that matter to [int()]: finite, NaN and
      infinite.
    - A Python call either returns or raises: [res A] with the exception
      class in [Raise].  [try/except] is a match on that class.
    - The accumulating dictionaries of the merge functions are
      [gmap string Z]; Python compares dictionaries regardless of insertion
      order, which is the (extensional) equality of [gmap].
    - Library calls whose code is not part of the repository
      ([json.loads], [pd.to_datetime] and the operations on the timestamps
      it returns) are variables of a section; a concrete decoder, a
      concrete date reader and concrete timestamps, with and without time
      zone, are supplied for the worked scenarios.
    - Text is ASCII text. *)

From Stdlib Require Import ZArith QArith Qcanon String Ascii List Permutation Lia.
From stdpp Require Import gmap strings list fin_maps numbers sorting.

Local Open Scope string_scope.
Local Open Scope Z_scope.

(** ** Python values and exceptions *)

Module Py.

(** A float is finite ([m * 2^e]), NaN, or an infinity with a sign. *)
Inductive pyfloat : Type :=
| FFinite (m e : Z)
| FNan
| FInf (negative : bool).

#[local] Unset Elimination Schemes.
Inductive pyval : Type :=
| VNone
| VBool (b : bool)
| VInt (z : Z)
| VFloat (f : pyfloat)
| VStr (s : string)
| VList (l : list pyval)
| VDict (d : list (string * pyval)).
#[local] Set Elimination Schemes.

(** A dictionary with string keys, in insertion order ([d.items()]). *)
Abbreviation pydict := (list (string * pyval)).

Inductive exn : Type := TypeError | ValueError | OverflowError.

Inductive res (A : Type) : Type :=
| Ok (a : A)
| Raise (e : exn).
Arguments Ok {A} a.
Arguments Raise {A} e.

Definition bind {A B} (r : res A) (k : A -> res B) : res B :=
  match r with
  | Ok a => k a
  | Raise e => Raise e
  end.

Notation "'let!' x ':=' r 'in' k" := (bind r (fun x => k))
  (at level 10, x name, r at level 200, k at level 200).

(** A [for] loop whose body may raise: the first exception ends the loop. *)
Fixpoint foldM {A S} (body : S -> A -> res S) (s : S) (l : list A) : res S :=
  match l with
  | [] => Ok s
  | x :: l' => let! s' := body s x in foldM body s' l'
  end.

(** [str.strip()] on ASCII text: the characters for which [str.isspace]
    holds below code point 128 are 9..13, 28..31 and 32. *)
Definition py_isspace (c : ascii) : bool :=
  let n := nat_of_ascii c in
  ((9 <=? n)%nat && (n <=? 13)%nat) || ((28 <=? n)%nat && (n <=? 32)%nat).

Fixpoint lstrip (l : list ascii) : list ascii :=
  match l with
  | c :: l' => if py_isspace c then lstrip l' else l
  | [] => []
  end.

Definition strip (s : string) : string :=
  string_of_list_ascii
    (rev (lstrip (rev (lstrip (list_ascii_of_string s))))).

Definition digit_of (c : ascii) : option Z :=
  let n := nat_of_ascii c in
  if ((48 <=? n)%nat && (n <=? 57)%nat)%bool then Some (Z.of_nat n - 48) else None.

(** Decimal digits with single underscores allowed between digits, as the
    integer literal grammar of [int(str)] has them. *)
Fixpoint digits_value (acc : Z) (after_underscore : bool) (l : list ascii)
  : option Z :=
  match l with
  | [] => if after_underscore then None else Some acc
  | c :: l' =>
      match digit_of c with
      | Some d => digits_value (10 * acc + d) false l'
      | None =>
          if (Ascii.eqb c "_" && negb after_underscore)%bool
          then digits_value acc true l'
          else None
      end
  end.

Definition unsigned_value (l : list ascii) : option Z :=
  match l with
  | c :: _ => match digit_of c with
              | Some _ => digits_value 0 false l
              | None => None
              end
  | [] => None
  end.

(** The blanks [int(str)] drops around a literal.  On ASCII text they are
    9..13 and 32 only: the separators 28..31, which [str.strip] removes,
    make [int] raise. *)
Definition int_isspace (c : ascii) : bool :=
  let n := nat_of_ascii c in
  ((9 <=? n)%nat && (n <=? 13)%nat) || (n =? 32)%nat.

Fixpoint int_lstrip (l : list ascii) : list ascii :=
  match l with
  | c :: l' => if int_isspace c then int_lstrip l' else l
  | [] => []
  end.

Definition int_strip (l : list ascii) : list ascii :=
  rev (int_lstrip (rev (int_lstrip l))).

(** The most decimal digits [int(str)] converts
    ([sys.int_info.default_max_str_digits]); leading zeros count, signs,
    blanks and underscores do not. *)
Definition max_str_digits : Z := 4300.

Definition digit_count (l : list ascii) : Z :=
  Z.of_nat (length (List.filter (fun c => bool_decide (is_Some (digit_of c))) l)).

(** [int(s)] for a string: surrounding blanks are dropped, one optional
    sign, then decimal digits, at most [max_str_digits] of them.  [None]
    stands for [ValueError]. *)
Definition int_of_str (s : string) : option Z :=
  let l := int_strip (list_ascii_of_string s) in
  if max_str_digits <? digit_count l then None
  else
    match l with
    | "-"%char :: l => Z.opp <$> unsigned_value l
    | "+"%char :: l => unsigned_value l
    | l => unsigned_value l
    end.

(** [int(f)] for a finite float truncates towards zero. *)
Definition float_trunc (m e : Z) : Z :=
  if 0 <=? e then m * 2 ^ e else Z.quot m (2 ^ (- e)).

(** The builtin [int(v)]. *)
Definition py_int (v : pyval) : res Z :=
  match v with
  | VNone => Raise TypeError
  | VBool b => Ok (if b then 1 else 0)
  | VInt z => Ok z
  | VFloat (FFinite m e) => Ok (float_trunc m e)
  | VFloat FNan => Raise ValueError
  | VFloat (FInf _) => Raise OverflowError
  | VStr s => match int_of_str s with
              | Some z => Ok z
              | None => Raise ValueError
              end
  | VList _ => Raise TypeError
  | VDict _ => Raise TypeError
  end.

(** [isinstance(v, (int, float))]; [bool] is a subclass of [int]. *)
Definition is_int_or_float (v : pyval) : bool :=
  match v with
  | VBool _ | VInt _ | VFloat _ => true
  | _ => false
  end.

(** [pd.isna] on a scalar cell: [None] and the float NaN. *)
Definition isna (v : pyval) : bool :=
  match v with
  | VNone | VFloat FNan => true
  | _ => false
  end.

End Py.
Export Py.

(** ** utils.py *)

Section Utils.

(** [json.loads] on a string where it returns or fails to decode: [None]
    is [json.JSONDecodeError].  On some texts [json.loads] raises another
    exception ([ValueError] for an integer of more digits than [int]
    converts, [RecursionError] for deep nesting), which the [except] of
    [safe_json_loads] does not catch; a decoder of this type has no such
    texts. *)
Variable json_loads : string -> option pyval.

Definition safe_json_loads (value : pyval) : option pydict :=
  match value with
  | VNone => None
  | VFloat FNan => None
  | VDict d => Some d
  | VStr s =>
      let s := strip s in
      if (String.eqb s "" || String.eqb s "{}" || String.eqb s "[]")%bool
      then None
      else match json_loads s with
           | Some (VDict d) => Some d
           | _ => None
           end
  | _ => None
  end.

(** Body of the inner loop of [merge_json_dicts]: the key is created with
    0 first; the addition sits in a [try] that swallows [TypeError] and
    [ValueError] only. *)
Definition merge_item (result : gmap string Z) (kv : string * pyval)
  : res (gmap string Z) :=
  let '(key, val) := kv in
  let result :=
    match result !! key with
    | None => <[key := 0]> result
    | Some _ => result
    end in
  match (if is_int_or_float val then py_int val else Ok 0) with
  | Ok n => Ok (<[key := default 0 (result !! key) + n]> result)
  | Raise TypeError | Raise ValueError => Ok result
  | Raise e => Raise e
  end.

Definition merge_dict (result : gmap string Z) (d : option pydict)
  : res (gmap string Z) :=
  match d with
  | None | Some [] => Ok result
  | Some d => foldM merge_item result d
  end.

Definition merge_json_dicts (dicts : list (option pydict))
  : res (gmap string Z) :=
  foldM merge_dict ∅ dicts.

(** Body of the inner loop of [parse_daily_registrations]: the whole
    assignment sits in the [try], so a failed [int(count)] leaves the
    dictionary untouched. *)
Definition daily_item (combined : gmap string Z) (kv : string * pyval)
  : res (gmap string Z) :=
  let '(date_str, count) := kv in
  match py_int count with
  | Ok n => Ok (<[date_str := default 0 (combined !! date_str) + n]> combined)
  | Raise TypeError | Raise ValueError => Ok combined
  | Raise e => Raise e
  end.

Definition daily_cell (combined : gmap string Z) (val : pyval)
  : res (gmap string Z) :=
  match safe_json_loads val with
  | None | Some [] => Ok combined
  | Some d => foldM daily_item combined d
  end.

(** [series.dropna()]. *)
Definition dropna (series : list pyval) : list pyval :=
  List.filter (fun v => negb (isna v)) series.

Definition parse_daily_registrations (series : list pyval)
  : res (gmap string Z) :=
  foldM daily_cell ∅ (dropna series).

End Utils.

Definition normalize_chart_label (key : option string) : string :=
  match key with
  | None => "(Unknown)"
  | Some k => let s := strip k in if String.eqb s "" then "(Unknown)" else s
  end.

(** [sorted(combined.items(), key=lambda x: x[0])], split in two lists. *)
Definition daily_registrations_to_line_data (combined : gmap string Z)
  : list string * list Z :=
  let sorted_items :=
    merge_sort (fun a b : string * Z => String.le a.1 b.1) (map_to_list combined) in
  (sorted_items.*1, sorted_items.*2).

(** What a pie chart is given for a merged distribution: one label and one
    value per key of the dictionary ([names], [values] of [px.pie]).  The
    two lists are kept paired.  A Python dictionary lists its keys in
    insertion order, which the map does not record: statements about the
    entries are made up to their order. *)
Definition chart_entries (merged : gmap string Z) : list (string * Z) :=
  (fun kv : string * Z => (normalize_chart_label (Some kv.1), kv.2))
    <$> map_to_list merged.

(** ** config_helpers.py *)

(** Truth value of a Python object, for [x or default]. *)
Definition py_truthy (v : pyval) : bool :=
  match v with
  | VNone => false
  | VBool b => b
  | VInt z => negb (z =? 0)
  | VFloat (FFinite m _) => negb (m =? 0)
  | VFloat _ => true
  | VStr s => negb (String.eqb s "")
  | VList l => match l with [] => false | _ => true end
  | VDict d => match d with [] => false | _ => true end
  end.

Definition or_empty (v : option pyval) : pyval :=
  match v with
  | Some x => if py_truthy x then x else VStr ""
  | None => VStr ""
  end.

(** [target == ""]. *)
Definition is_empty_text (v : pyval) : bool :=
  match v with
  | VStr s => String.eqb s ""
  | _ => false
  end.

Record event_config : Type := {
  dashboard_link : pyval;
  admin_username : pyval;
  admin_password : pyval;
  registration_target : Z
}.

Definition get_event_config (config : gmap string (gmap string pyval))
    (initiative_name : string) : res event_config :=
  let entry := default ∅ (config !! initiative_name) in
  let! target :=
    match entry !! "registration_target" with
    | None | Some VNone => Ok 0
    | Some target =>
        if is_empty_text target then Ok 0
        else match py_int target with
             | Ok n => Ok n
             | Raise TypeError | Raise ValueError => Ok 0
             | Raise e => Raise e
             end
    end in
  Ok {| dashboard_link := or_empty (entry !! "dashboard_link");
        admin_username := or_empty (entry !! "admin_username");
        admin_password := or_empty (entry !! "admin_password");
        registration_target := target |}.

(** ** auth.py *)

Definition ROLE_PERMISSIONS : gmap string (gset string) :=
  <["admin" := {[ "view_dashboard"; "edit_sheet"; "connect" ]}]>
  (<["viewer" := {[ "view_dashboard" ]}]> ∅).

Definition has_permission (role permission : string) : bool :=
  let perms := default ∅ (ROLE_PERMISSIONS !! role) in
  bool_decide (permission ∈ perms).

Definition can_edit_sheet (role : string) : bool :=
  has_permission role "edit_sheet" || has_permission role "connect".

(** ** app.py: the registration-target block of [main] *)

Module Clock.

(** A [pd.Timestamp] without time zone: nanoseconds since the epoch.
    [None] at type [option Z] is [NaT]. *)
Definition ns_per_day : Z := 86400 * 1000000000.

(** Calendar day of a timestamp (days since the epoch, rounded down). *)
Definition day_of (t : Z) : Z := t / ns_per_day.

(** [Timestamp.normalize()]: midnight of the same day. *)
Definition normalize (t : Z) : Z := day_of t * ns_per_day.

(** [(a - b).days]: whole days of a [Timedelta], rounded down. *)
Definition delta_days (a b : Z) : Z := (a - b) / ns_per_day.

End Clock.
Export Clock.

(** Builtins [min] and [max] on a list of strings (code point order). *)
Definition py_min (l : list string) : option string :=
  match l with
  | [] => None
  | x :: l' => Some (fold_left (fun a b => if String.ltb b a then b else a) l' x)
  end.

Definition py_max (l : list string) : option string :=
  match l with
  | [] => None
  | x :: l' => Some (fold_left (fun a b => if String.ltb a b then b else a) l' x)
  end.

(** The values the block leaves behind for the chart. *)
Record forecast : Type := {
  average_daily : option Qc;
  days_from_sheet : option Z;
  span_days : option Z;
  required_daily_avg : option Qc;
  total_so_far_used : option Z;
  days_remaining_used : option Z
}.

(** The value of [a / b] on two Python integers when the division
    returns.  Python rounds the quotient to the nearest double; the
    embedding keeps the exact quotient.  The division itself, which raises
    when the quotient is too large for a double, is [true_div] below. *)
Definition py_div (a b : Z) : Qc := (Qc_of_Z a / Qc_of_Z b)%Qc.

(** *** The values of the block

    The block is embedded twice.  First come the values it computes when
    every timestamp is without time zone and every call returns: plain
    functions on nanosecond counts, used for the properties of the values
    the block leaves behind.  The block with the exceptions of its calls
    ([TypeError] between a timestamp with and one without time zone,
    [OverflowError] of a division) follows in section [Block]; it returns
    the values of the first embedding whenever the timestamps carry no
    time zone, the target is below the limit of a double and no count is
    negative (lemma [forecast_block_values]). *)

Section Forecast.

(** [pd.to_datetime(text, errors="coerce", dayfirst=flag)] as a reader of
    timestamps without time zone. *)
Variable to_datetime : bool -> string -> option Z.

(** Lines 591-608, as values.  [start_val] and [end_val] are
    [row.get(start_col)] and [row.get(end_col)] of the first selected row;
    [None] when the column could not be resolved or the cell is NA.  The
    third component is [end_dt]: [None] for Python's [None], [Some None]
    for [NaT]. *)
Definition sheet_window (reg_target : Z) (start_val end_val : option string)
  : option Qc * option Z * option (option Z) :=
  if reg_target =? 0 then (None, None, None)
  else
    match start_val, end_val with
    | Some sv, Some ev =>
        let start_dt := normalize <$> to_datetime true sv in
        let end_dt := normalize <$> to_datetime true ev in
        match start_dt, end_dt with
        | Some s, Some e =>
            let raw_days := delta_days e s + 1 in
            let days := Z.max 1 raw_days in
            ((if 1 <? days then Some (py_div reg_target days) else None),
             Some days, Some end_dt)
        | _, _ => (None, None, Some end_dt)
        end
    | _, _ => (None, None, None)
    end.

(** Lines 610-620, as values: the span of the chart's own dates. *)
Definition chart_span (reg_target : Z) (dates : list string)
    (average : option Qc) (sheet_days : option Z) : option Qc * option Z :=
  if reg_target =? 0 then (average, None)
  else
    match py_min dates, py_max dates with
    | Some lo, Some hi =>
        match to_datetime false lo, to_datetime false hi with
        | Some min_d, Some max_d =>
            let span := Z.max 1 (delta_days max_d min_d + 1) in
            let replace :=
              match average, sheet_days with
              | None, _ => true
              | Some _, Some d => d <=? 1
              | Some _, None => false
              end in
            ((if replace then Some (py_div reg_target span) else average),
             Some span)
        | _, _ => (average, None)
        end
    | _, _ => (average, None)
    end.

(** The mask of line 631-636: the date parses and is on or before the end. *)
Definition in_range (end_ts : option Z) (d : string) : bool :=
  match normalize <$> to_datetime false d, end_ts with
  | Some dt, Some e => dt <=? e
  | _, _ => false
  end.

Definition masked {A} (xs : list A) (mask : list bool) : list A :=
  (fun p : A * bool => p.1) <$> List.filter (fun p : A * bool => p.2) (combine xs mask).

Definition sum_Z (l : list Z) : Z := fold_right Z.add 0 l.

(** Lines 623-654, as values: required pace; yields
    (required_daily_avg, total_so_far_used, days_remaining_used). *)
Definition required_pace (reg_target : Z) (dates : list string)
    (counts : list Z) (average : option Qc) (end_dt : option (option Z))
  : option Qc * option Z * option Z :=
  match end_dt, dates, counts with
  | Some end_dt, _ :: _, _ :: _ =>
      if reg_target =? 0 then (None, None, None)
      else
        let end_ts := normalize <$> end_dt in
        let mask := in_range end_ts <$> dates in
        if existsb id mask then
          let total_so_far := sum_Z (masked counts mask) in
          let dates_in_range := masked dates mask in
          match end_ts, py_max dates_in_range ≫= to_datetime false with
          | Some e, Some last =>
              let days_remaining := delta_days e (normalize last) in
              if 0 <? days_remaining then
                let remaining_target := Z.max 0 (reg_target - total_so_far) in
                (Some (py_div remaining_target days_remaining),
                 Some total_so_far, Some days_remaining)
              else
                match average with
                | Some a => (Some a, Some total_so_far, Some 0)
                | None => (None, None, None)
                end
          | _, _ => (None, None, None)
          end
        else (None, None, None)
  | _, _, _ => (None, None, None)
  end.

(** The whole block, entered only when [dates] and [counts] are non-empty
    (line 567). *)
Definition pace_forecast (reg_target : Z) (start_val end_val : option string)
    (dates : list string) (counts : list Z) : forecast :=
  let '(avg0, sheet_days, end_dt) := sheet_window reg_target start_val end_val in
  let '(avg, span) := chart_span reg_target dates avg0 sheet_days in
  let '(req, total, days_left) := required_pace reg_target dates counts avg end_dt in
  {| average_daily := avg;
     days_from_sheet := sheet_days;
     span_days := span;
     required_daily_avg := req;
     total_so_far_used := total;
     days_remaining_used := days_left |}.

End Forecast.

(** *** The block with its exceptions *)

(** Python's [map] over a list with a body that may raise. *)
Fixpoint mapM {A B} (f : A -> res B) (l : list A) : res (list B) :=
  match l with
  | [] => Ok []
  | x :: l' => let! y := f x in let! ys := mapM f l' in Ok (y :: ys)
  end.

(** The magnitude at which a quotient, rounded to the nearest double, stops
    being finite: halfway between the largest double, [2^1024 - 2^971],
    and [2^1024]. *)
Definition float_limit : Z := 2 ^ 1024 - 2 ^ 970.

(** [a / b] on two Python integers, for a positive divisor (every divisor
    of the block is at least 1 where it is used: lines 607, 616 and 645):
    [OverflowError] when the quotient is too large for a double, else the
    quotient, kept exact as in [py_div]. *)
Definition true_div (a : Z) (b : positive) : res Qc :=
  if float_limit * Z.pos b <=? Z.abs a then Raise OverflowError
  else Ok (py_div a (Z.pos b)).

Section Block.

(** The timestamps of pandas and the four calls the block makes on them
    are taken as they are: any of the calls may raise. *)
Context {stamp : Type}.

(** [pd.to_datetime(text, errors="coerce", dayfirst=flag)]; [None] is
    [NaT]. *)
Variable to_datetime : bool -> string -> res (option stamp).

(** [t.normalize()]. *)
Variable normalized : stamp -> res stamp.

(** [(a - b).days]. *)
Variable days_between : stamp -> stamp -> res Z.

(** [a <= b]. *)
Variable on_or_before : stamp -> stamp -> res bool.

(** [t.normalize()] where [t] may be [NaT], which stays [NaT]. *)
Definition normalize_opt (t : option stamp) : res (option stamp) :=
  match t with
  | Some t => let! t' := normalized t in Ok (Some t')
  | None => Ok None
  end.

(** Lines 591-608, outside any [try].  Yields [average_daily],
    [days_from_sheet] and [end_dt] ([None] for Python's [None],
    [Some None] for [NaT]). *)
Definition window_block (reg_target : Z) (start_val end_val : option string)
  : res (option Qc * option Z * option (option stamp)) :=
  if reg_target =? 0 then Ok (None, None, None)
  else
    match start_val, end_val with
    | Some sv, Some ev =>
        let! start_dt := to_datetime true sv in
        let! end_dt := to_datetime true ev in
        let! start_dt := normalize_opt start_dt in
        let! end_dt := normalize_opt end_dt in
        match start_dt, end_dt with
        | Some s, Some e =>
            let! raw_days := days_between e s in
            let days := Z.max 1 (raw_days + 1) in
            if 1 <? days then
              let! average := true_div reg_target (Z.to_pos days) in
              Ok (Some average, Some days, Some end_dt)
            else Ok (None, Some days, Some end_dt)
        | _, _ => Ok (None, None, Some end_dt)
        end
    | _, _ => Ok (None, None, None)
    end.

(** The two reads and the subtraction of lines 613-616. *)
Definition span_of (lo hi : string) : res (option Z) :=
  let! min_d := to_datetime false lo in
  let! max_d := to_datetime false hi in
  match min_d, max_d with
  | Some a, Some b => let! d := days_between b a in Ok (Some (Z.max 1 (d + 1)))
  | _, _ => Ok None
  end.

(** Lines 610-620.  The body sits in [try: ... except Exception: pass]: an
    exception ends the body and leaves what was assigned before it.
    [span_days] is assigned at line 616, before the division of line
    618. *)
Definition span_block (reg_target : Z) (dates : list string)
    (average : option Qc) (sheet_days : option Z) : option Qc * option Z :=
  if reg_target =? 0 then (average, None)
  else
    match py_min dates, py_max dates with
    | Some lo, Some hi =>
        match span_of lo hi with
        | Ok (Some span) =>
            let replace :=
              match average, sheet_days with
              | None, _ => true
              | Some _, Some d => d <=? 1
              | Some _, None => false
              end in
            if replace then
              match true_div reg_target (Z.to_pos span) with
              | Ok a => (Some a, Some span)
              | Raise _ => (average, Some span)
              end
            else (average, Some span)
        | Ok None | Raise _ => (average, None)
        end
    | _, _ => (average, None)
    end.

(** One entry of the mask (lines 633-636): [pd.notna(dt) and dt <= end_ts];
    a comparison with [NaT] is false. *)
Definition mask_entry (end_ts : option stamp) (d : string) : res bool :=
  let! dt := to_datetime false d in
  let! dt := normalize_opt dt in
  match dt, end_ts with
  | Some t, Some e => on_or_before t e
  | _, _ => Ok false
  end.

(** Lines 623-654, outside any [try].  Yields [required_daily_avg],
    [total_so_far_used] and [days_remaining_used].  The branch in which
    the end date or the last date is [NaT] is not reached: a mask entry is
    true only for a key that reads as a date and an end date that is
    one. *)
Definition pace_block (reg_target : Z) (dates : list string) (counts : list Z)
    (average : option Qc) (end_dt : option (option stamp))
  : res (option Qc * option Z * option Z) :=
  match end_dt, dates, counts with
  | Some end_dt, _ :: _, _ :: _ =>
      if reg_target =? 0 then Ok (None, None, None)
      else
        let! end_ts := normalize_opt end_dt in
        let! mask := mapM (mask_entry end_ts) dates in
        if existsb id mask then
          let total_so_far := sum_Z (masked counts mask) in
          let dates_in_range := masked dates mask in
          let! last_date :=
            match py_max dates_in_range with
            | Some d => to_datetime false d
            | None => Ok None
            end in
          let! last_date := normalize_opt last_date in
          match end_ts, last_date with
          | Some e, Some l =>
              let! days_remaining := days_between e l in
              if 0 <? days_remaining then
                let remaining_target := Z.max 0 (reg_target - total_so_far) in
                let! required :=
                  true_div remaining_target (Z.to_pos days_remaining) in
                Ok (Some required, Some total_so_far, Some days_remaining)
              else
                match average with
                | Some a => Ok (Some a, Some total_so_far, Some 0)
                | None => Ok (None, None, None)
                end
          | _, _ => Ok (None, None, None)
          end
        else Ok (None, None, None)
  | _, _, _ => Ok (None, None, None)
  end.

(** The whole block, entered only when [dates] and [counts] are non-empty
    (line 567).  When a call outside the [try] raises, [main] raises and
    no value is delivered. *)
Definition forecast_block (reg_target : Z) (start_val end_val : option string)
    (dates : list string) (counts : list Z) : res forecast :=
  let! w := window_block reg_target start_val end_val in
  let c := span_block reg_target dates w.1.1 w.1.2 in
  let! r := pace_block reg_target dates counts c.1 w.2 in
  Ok {| average_daily := c.1;
        days_from_sheet := w.1.2;
        span_days := c.2;
        required_daily_avg := r.1.1;
        total_so_far_used := r.1.2;
        days_remaining_used := r.2 |}.

End Block.

(** ** Concrete readers for the worked scenarios *)

(** A decoder for the flat fragment of JSON the sheet cells use: one
    scalar, one array of scalars or one object of scalars, where a scalar
    is a string without escapes, an integer, [true], [false], [null] or one
    of the constants [NaN], [Infinity], [-Infinity] that [json.loads]
    accepts by default.  On this fragment it returns what [json.loads]
    returns, on text that is not JSON it fails as [json.loads] does; JSON
    outside the fragment (fractions, exponents, escapes, nesting, integers
    of more digits than [int] converts) is reported as a failure too and
    is not used below. *)
Module JsonFlat.

Inductive token : Type :=
| TLBrace | TRBrace | TLBrack | TRBrack | TColon | TComma
| TStr (s : string)
| TAtom (a : string).

Inductive lexmode : Type :=
| Idle
| InStr (acc : list ascii)
| InAtom (acc : list ascii).

Definition is_json_ws (c : ascii) : bool :=
  let n := nat_of_ascii c in
  ((n =? 32) || (n =? 9) || (n =? 10) || (n =? 13))%nat.

Definition is_atom_char (c : ascii) : bool :=
  let n := nat_of_ascii c in
  (((48 <=? n) && (n <=? 57)) || ((65 <=? n) && (n <=? 90))
   || ((97 <=? n) && (n <=? 122)) || (n =? 43) || (n =? 45) || (n =? 46))%nat.

Definition dquote : ascii := ascii_of_nat 34.
Definition backslash : ascii := ascii_of_nat 92.

Definition text (rev_acc : list ascii) : string :=
  string_of_list_ascii (rev rev_acc).

Definition idle_step (c : ascii) : option (lexmode * list token) :=
  if is_json_ws c then Some (Idle, [])
  else if Ascii.eqb c "{" then Some (Idle, [TLBrace])
  else if Ascii.eqb c "}" then Some (Idle, [TRBrace])
  else if Ascii.eqb c "[" then Some (Idle, [TLBrack])
  else if Ascii.eqb c "]" then Some (Idle, [TRBrack])
  else if Ascii.eqb c ":" then Some (Idle, [TColon])
  else if Ascii.eqb c "," then Some (Idle, [TComma])
  else if Ascii.eqb c dquote then Some (InStr [], [])
  else if is_atom_char c then Some (InAtom [c], [])
  else None.

Definition lex_step (mode : lexmode) (c : ascii)
  : option (lexmode * list token) :=
  match mode with
  | Idle => idle_step c
  | InStr acc =>
      if Ascii.eqb c dquote then Some (Idle, [TStr (text acc)])
      else if (Ascii.eqb c backslash || (nat_of_ascii c <? 32)%nat)%bool then None
      else Some (InStr (c :: acc), [])
  | InAtom acc =>
      if is_atom_char c then Some (InAtom (c :: acc), [])
      else '(mode', toks) ← idle_step c; Some (mode', TAtom (text acc) :: toks)
  end.

Fixpoint lex (mode : lexmode) (l : list ascii) : option (list token) :=
  match l with
  | [] =>
      match mode with
      | Idle => Some []
      | InAtom acc => Some [TAtom (text acc)]
      | InStr _ => None
      end
  | c :: l' =>
      '(mode', toks) ← lex_step mode c;
      rest ← lex mode' l';
      Some (toks ++ rest)%list
  end.

(** A JSON integer: an optional minus, then [0] or digits not starting
    with [0], at most [max_str_digits] of them. *)
Definition json_int (a : string) : option Z :=
  let unsigned (l : list ascii) :=
    match l with
    | "0"%char :: _ :: _ => None
    | _ => if (forallb (fun c => bool_decide (is_Some (digit_of c))) l
               && (digit_count l <=? max_str_digits))%bool
           then unsigned_value l else None
    end in
  match list_ascii_of_string a with
  | "-"%char :: l => Z.opp <$> unsigned l
  | l => unsigned l
  end.

Definition scalar (t : token) : option pyval :=
  match t with
  | TStr s => Some (VStr s)
  | TAtom a =>
      if String.eqb a "true" then Some (VBool true)
      else if String.eqb a "false" then Some (VBool false)
      else if String.eqb a "null" then Some VNone
      else if String.eqb a "NaN" then Some (VFloat FNan)
      else if String.eqb a "Infinity" then Some (VFloat (FInf false))
      else if String.eqb a "-Infinity" then Some (VFloat (FInf true))
      else VInt <$> json_int a
  | _ => None
  end.

(** [d[k] = v] on an insertion-ordered dictionary: a repeated key keeps
    its place and takes the later value. *)
Fixpoint dict_set (d : pydict) (k : string) (v : pyval) : pydict :=
  match d with
  | [] => [(k, v)]
  | (k', v') :: d' =>
      if String.eqb k k' then (k', v) :: d' else (k', v') :: dict_set d' k v
  end.

Fixpoint members (toks : list token) (acc : pydict) : option pydict :=
  match toks with
  | TStr k :: TColon :: t :: rest =>
      v ← scalar t;
      match rest with
      | [TRBrace] => Some (dict_set acc k v)
      | TComma :: rest' => members rest' (dict_set acc k v)
      | _ => None
      end
  | _ => None
  end.

Fixpoint elements (toks : list token) (acc : list pyval) : option (list pyval) :=
  match toks with
  | t :: rest =>
      v ← scalar t;
      match rest with
      | [TRBrack] => Some (rev (v :: acc))
      | TComma :: rest' => elements rest' (v :: acc)
      | _ => None
      end
  | _ => None
  end.

Definition json_loads (s : string) : option pyval :=
  toks ← lex Idle (list_ascii_of_string s);
  match toks with
  | [t] => scalar t
  | [TLBrace; TRBrace] => Some (VDict [])
  | [TLBrack; TRBrack] => Some (VList [])
  | TLBrace :: rest => VDict <$> members rest []
  | TLBrack :: rest => VList <$> elements rest []
  | _ => None
  end.

End JsonFlat.

(** JSON text is written below with apostrophes in place of the double
    quotes: [jtext "{'Male': 3}"] is the eleven characters of the JSON
    object with key Male and value 3. *)
Definition jtext (s : string) : string :=
  string_of_list_ascii
    ((fun c => if Ascii.eqb c "'" then JsonFlat.dquote else c)
       <$> list_ascii_of_string s).

(** A reader for numeric dates: [YYYY-MM-DD], and [A-B-YYYY] read day
    first or month first according to the flag (with [/] accepted as the
    separator).  When the requested order gives no calendar date and the
    other order does, the other order is taken, as the date parser behind
    [pd.to_datetime] does.  Years outside the range of [pd.Timestamp] and
    all other text give [NaT]. *)
Module DateText.

Fixpoint fields (l cur : list ascii) : list (list ascii) :=
  match l with
  | [] => [rev cur]
  | c :: l' =>
      if (Ascii.eqb c "-" || Ascii.eqb c "/")%bool
      then rev cur :: fields l' []
      else fields l' (c :: cur)
  end.

Definition number (l : list ascii) : option Z :=
  if forallb (fun c => bool_decide (is_Some (digit_of c))) l
  then unsigned_value l else None.

Definition is_leap (y : Z) : bool :=
  ((y mod 4 =? 0) && negb (y mod 100 =? 0)) || (y mod 400 =? 0).

Definition days_in_month (y m : Z) : Z :=
  if m =? 2 then (if is_leap y then 29 else 28)
  else if (m =? 4) || (m =? 6) || (m =? 9) || (m =? 11) then 30
  else 31.

Definition valid_date (y m d : Z) : bool :=
  (1678 <=? y) && (y <=? 2261) && (1 <=? m) && (m <=? 12)
  && (1 <=? d) && (d <=? days_in_month y m).

(** Days since 1970-01-01 of a date of the proleptic Gregorian calendar. *)
Definition days_from_civil (y m d : Z) : Z :=
  let y' := if m <=? 2 then y - 1 else y in
  let era := y' / 400 in
  let yoe := y' - era * 400 in
  let mp := (m + 9) mod 12 in
  let doy := (153 * mp + 2) / 5 + d - 1 in
  let doe := yoe * 365 + yoe / 4 - yoe / 100 + doy in
  era * 146097 + doe - 719468.

(** Midnight of a calendar date as a timestamp. *)
Definition midnight (y m d : Z) : Z := days_from_civil y m d * ns_per_day.

Definition civil (y m d : Z) : option Z :=
  if valid_date y m d then Some (midnight y m d) else None.

Definition to_datetime (dayfirst : bool) (s : string) : option Z :=
  match fields (list_ascii_of_string (strip s)) [] with
  | [a; b; c] =>
      a' ← number a; b' ← number b; c' ← number c;
      if (length a =? 4)%nat then
        if ((length b =? 2) && (length c =? 2))%nat then civil a' b' c' else None
      else if ((length c =? 4) && (length a <=? 2) && (length b <=? 2))%nat then
        let '(d, m) := if dayfirst then (a', b') else (b', a') in
        match civil c' m d with
        | Some t => Some t
        | None => civil c' d m
        end
      else None
  | _ => None
  end.

End DateText.

(** Timestamps for the worked scenarios, with and without time zone, and
    the four calls of the block on them.  A timestamp is an instant in
    nanoseconds since the epoch: the reading of the wall clock when it has
    no time zone, the UTC reading when it has one, and then the offset of
    its zone from UTC goes with it.  Subtraction and comparison are defined
    between two timestamps without time zone and between two with one;
    between one of each they raise [TypeError]. *)
Module Stamps.

Record stamp : Type := {
  instant : Z;
  utc_offset : option Z
}.

Definition naive (t : Z) : stamp := {| instant := t; utc_offset := None |}.

Definition aware (t : stamp) : bool :=
  match utc_offset t with
  | Some _ => true
  | None => false
  end.

(** Midnight of the same day on the timestamp's own clock. *)
Definition normalized (t : stamp) : res stamp :=
  Ok match utc_offset t with
     | None => naive (normalize (instant t))
     | Some off => {| instant := normalize (instant t + off) - off;
                      utc_offset := Some off |}
     end.

Definition days_between (a b : stamp) : res Z :=
  if Bool.eqb (aware a) (aware b)
  then Ok (delta_days (instant a) (instant b))
  else Raise TypeError.

Definition on_or_before (a b : stamp) : res bool :=
  if Bool.eqb (aware a) (aware b)
  then Ok (instant a <=? instant b)
  else Raise TypeError.

Definition two_digits (a b : ascii) : option Z :=
  x ← digit_of a; y ← digit_of b; Some (10 * x + y).

(** [hh:mm:ss] as nanoseconds after midnight. *)
Definition clock (l : list ascii) : option Z :=
  match l with
  | [h1; h2; c1; m1; m2; c2; s1; s2] =>
      h ← two_digits h1 h2; m ← two_digits m1 m2; s ← two_digits s1 s2;
      if Ascii.eqb c1 ":" && Ascii.eqb c2 ":"
         && (h <? 24) && (m <? 60) && (s <? 60)
      then Some (((h * 60 + m) * 60 + s) * 1000000000) else None
  | _ => None
  end.

(** The zone designator after the time: none, [Z] for UTC, or [+hh:mm] and
    [-hh:mm]; the offset in nanoseconds. *)
Definition zone (l : list ascii) : option (option Z) :=
  match l with
  | [] => Some None
  | [z] => if Ascii.eqb z "Z" then Some (Some 0) else None
  | [sign; h1; h2; c; m1; m2] =>
      h ← two_digits h1 h2; m ← two_digits m1 m2;
      let off := (h * 60 + m) * 60 * 1000000000 in
      if Ascii.eqb c ":" && (h <? 24) && (m <? 60) then
        if Ascii.eqb sign "+" then Some (Some off)
        else if Ascii.eqb sign "-" then Some (Some (- off))
        else None
      else None
  | _ => None
  end.

(** [YYYY-MM-DD] before the [T] of an ISO timestamp. *)
Definition iso_date (l : list ascii) : option Z :=
  match DateText.fields l [] with
  | [y; m; d] =>
      if ((length y =? 4) && (length m =? 2) && (length d =? 2))%nat then
        y' ← DateText.number y; m' ← DateText.number m; d' ← DateText.number d;
        DateText.civil y' m' d'
      else None
  | _ => None
  end.

(** A reader for the numeric dates of [DateText], which have no time zone,
    and for ISO timestamps [YYYY-MM-DDThh:mm:ss] followed by nothing, by
    [Z] or by an offset; all other text gives [NaT].  It never raises. *)
Definition to_datetime (dayfirst : bool) (s : string) : res (option stamp) :=
  let l := list_ascii_of_string (strip s) in
  Ok (if existsb (Ascii.eqb "T") l then
        match l with
        | y1 :: y2 :: y3 :: y4 :: d1 :: m1 :: m2 :: d2 :: a1 :: a2 :: t :: rest =>
            if Ascii.eqb t "T" then
              day ← iso_date [y1; y2; y3; y4; d1; m1; m2; d2; a1; a2];
              time ← clock (take 8 rest);
              z ← zone (drop 8 rest);
              Some {| instant := day + time - default 0 z; utc_offset := z |}
            else None
        | _ => None
        end
      else naive <$> DateText.to_datetime dayfirst s).

End Stamps.

(** The block on these timestamps. *)
Abbreviation scenario_window :=
  (window_block Stamps.to_datetime Stamps.normalized Stamps.days_between).
Abbreviation scenario_span :=
  (span_block Stamps.to_datetime Stamps.days_between).
Abbreviation scenario_block :=
  (forecast_block Stamps.to_datetime Stamps.normalized Stamps.days_between
     Stamps.on_or_before).

(** The block on timestamps without time zone, as nanosecond counts: no
    call on them raises. *)
Abbreviation plain_block to_datetime :=
  (forecast_block (fun flag text => Ok (to_datetime flag text))
     (fun t => Ok (normalize t)) (fun a b => Ok (delta_days a b))
     (fun a b => Ok (a <=? b))).

(** ** utils.py: sheet ids, KPI sums *)

Module Text.

(** Text as a list of characters: [str.lower()] (on ASCII letters),
    [a in b] for two strings, and the two halves of [str.strip()]. *)
Definition lower_char (c : ascii) : ascii :=
  let n := nat_of_ascii c in
  if ((65 <=? n)%nat && (n <=? 90)%nat)%bool then ascii_of_nat (n + 32) else c.

Definition lower (s : string) : string :=
  string_of_list_ascii (lower_char <$> list_ascii_of_string s).

Fixpoint starts_with (p l : list ascii) : bool :=
  match p, l with
  | [], _ => true
  | _ :: _, [] => false
  | a :: p', b :: l' => Ascii.eqb a b && starts_with p' l'
  end.

Fixpoint occurs_in (p l : list ascii) : bool :=
  match l with
  | [] => starts_with p []
  | _ :: l' => starts_with p l || occurs_in p l'
  end.

(** [p in s]. *)
Definition contains (p s : string) : bool :=
  occurs_in (list_ascii_of_string p) (list_ascii_of_string s).

Definition rstrip (l : list ascii) : list ascii := rev (lstrip (rev l)).

End Text.
Export Text.

(** The character class [[a-zA-Z0-9_-]]. *)
Definition is_id_char (c : ascii) : bool :=
  let n := nat_of_ascii c in
  (((48 <=? n) && (n <=? 57)) || ((65 <=? n) && (n <=? 90))
   || ((97 <=? n) && (n <=? 122)) || (n =? 95) || (n =? 45))%nat.

(** The greedy group [([a-zA-Z0-9_-]+)] read at the head of a text. *)
Fixpoint take_id (l : list ascii) : list ascii :=
  match l with
  | c :: l' => if is_id_char c then c :: take_id l' else []
  | [] => []
  end.

(** [re.search(r"/d/([a-zA-Z0-9_-]+)", s)]: the group of the leftmost
    match, if there is one. *)
Fixpoint search_sheet_id (l : list ascii) : option (list ascii) :=
  match l with
  | [] => None
  | _ :: l' =>
      match l with
      | "/"%char :: "d"%char :: "/"%char :: rest =>
          match take_id rest with
          | [] => search_sheet_id l'
          | id => Some id
          end
      | _ => search_sheet_id l'
      end
  end.

Definition extract_sheet_id (value : pyval) : string :=
  match value with
  | VStr v =>
      if String.eqb v "" then ""
      else
        let s := strip v in
        match search_sheet_id (list_ascii_of_string s) with
        | Some id => string_of_list_ascii id
        | None =>
            if (negb (String.eqb s "") && negb (contains " " s)
                && negb (contains "://" s))%bool
            then s else ""
        end
  | _ => ""
  end.

Section Kpis.

(** [int(pd.to_numeric(column, errors="coerce").fillna(0).sum())] on the
    cells of one column. *)
Variable column_total : list pyval -> res Z.

(** Body of the loop of [aggregate_numeric_columns]; the data frame is the
    map from its column names to their cells. *)
Definition aggregate_column (df : gmap string (list pyval))
    (result : gmap string Z) (col : string) : res (gmap string Z) :=
  match df !! col with
  | None => Ok (<[col := 0]> result)
  | Some cells =>
      match column_total cells with
      | Ok n => Ok (<[col := n]> result)
      | Raise TypeError | Raise ValueError => Ok (<[col := 0]> result)
      | Raise e => Raise e
      end
  end.

Definition aggregate_numeric_columns (df : gmap string (list pyval))
    (columns : list string) : res (gmap string Z) :=
  foldM (aggregate_column df) ∅ columns.

End Kpis.

(** ** sheets_connector.py *)

(** [_normalize_columns]: the header of the sheet with every name
    stripped. *)
Definition _normalize_columns (columns : list string) : list string :=
  strip <$> columns.

(** ** auth.py: users and login *)

Section Login.

(** [hashlib.sha256(text.encode()).hexdigest()]. *)
Variable sha256_hex : string -> string.

Definition AUTH_SALT : string := "event-dashboard-rbac-2024".

Record user_entry : Type := {
  entry_password_hash : string;
  entry_role : string
}.

Definition _hash_password (password : string) : string :=
  sha256_hex (AUTH_SALT ++ password).

Definition USER_STORE : gmap string user_entry :=
  <["admin" := {| entry_password_hash := sha256_hex (AUTH_SALT ++ "h2s@2026");
                  entry_role := "admin" |}]>
  (<["viewer" := {| entry_password_hash := sha256_hex (AUTH_SALT ++ "viewer123");
                    entry_role := "viewer" |}]> ∅).

Definition verify_login (username password : string) : bool * option string :=
  if (String.eqb username "" || String.eqb password "")%bool then (false, None)
  else
    let username := lower (strip username) in
    match USER_STORE !! username with
    | None => (false, None)
    | Some entry =>
        if String.eqb (entry_password_hash entry) (_hash_password password)
        then (true, Some (entry_role entry))
        else (false, None)
    end.

Definition get_role (username : string) : option string :=
  entry_role <$> USER_STORE !! lower (strip username).

End Login.

(** ** app.py: columns of the registration window *)

(** [_find_column(df, *keywords)] on the header of a data frame that is
    present. *)
Definition _find_column (columns : list string) (keywords : list string)
  : option string :=
  let lower_keywords := lower <$> keywords in
  List.find (fun c => forallb (fun k => contains k (lower (strip c))) lower_keywords)
    columns.

Definition REG_START_COL : string := "Registration Start Date".
Definition REG_END_COL : string := "Registration End Date".

Definition has_column (columns : list string) (c : string) : bool :=
  bool_decide (c ∈ columns).

(** [if not col or col not in df.columns: col = None]. *)
Definition keep_column (columns : list string) (col : option string)
  : option string :=
  match col with
  | Some c => if (negb (String.eqb c "") && has_column columns c)%bool
              then Some c else None
  | None => None
  end.

(** Lines 578-590: the columns the window is read from,
    [(start_col, end_col)]. *)
Definition window_columns (columns : list string)
  : option string * option string :=
  let has_start := has_column columns REG_START_COL in
  let has_end := has_column columns REG_END_COL in
  if (has_start && has_end)%bool then (Some REG_START_COL, Some REG_END_COL)
  else
    let end_col :=
      if negb has_end then _find_column columns ["registration"; "end"]
      else Some REG_END_COL in
    let start_col :=
      if negb has_start then _find_column columns ["registration"; "start"]
      else Some REG_START_COL in
    let start_col :=
      match start_col with
      | Some c => if String.eqb c "" then
                    (if has_column columns "Created At" then Some "Created At" else None)
                  else Some c
      | None => if has_column columns "Created At" then Some "Created At" else None
      end in
    (keep_column columns start_col, keep_column columns end_col).

(** ** app.py: the event selector of the sidebar *)

Record selector : Type := {
  selected_initiatives : list string;
  pinned_initiatives : list string
}.

Definition is_in (x : string) (l : list string) : bool := bool_decide (x ∈ l).

(** Lines 430-436, run on every render: selection and pins are cut down to
    the names the sheet still has. *)
Definition sync (initiative_options : list string) (st : selector) : selector :=
  {| selected_initiatives :=
       List.filter (fun x => is_in x initiative_options) (selected_initiatives st);
     pinned_initiatives :=
       List.filter (fun x => is_in x initiative_options) (pinned_initiatives st) |}.

(** The two lists of tiles (lines 438-439). *)
Definition pinned_tiles (initiative_options : list string) (st : selector)
  : list string :=
  List.filter (fun x => is_in x (pinned_initiatives st)) initiative_options.

Definition other_tiles (initiative_options : list string) (st : selector)
  : list string :=
  List.filter (fun x => negb (is_in x (pinned_initiatives st))) initiative_options.

Inductive button : Type :=
| SelectFirst
| DeselectAll
| PinnedTile (opt : string)
| OtherTile (opt : string)
| Unpin (opt : string)
| Pin (opt : string).

Definition toggle (opt : string) (st : selector) : selector :=
  {| selected_initiatives :=
       if is_in opt (selected_initiatives st) then [] else [opt];
     pinned_initiatives := pinned_initiatives st |}.

(** What a press of a button does to the synchronised state; a button that
    the page does not show does nothing. *)
Definition press (initiative_options : list string) (b : button) (st : selector)
  : selector :=
  match b with
  | SelectFirst =>
      {| selected_initiatives :=
           match initiative_options with
           | first :: _ => [first]
           | [] => []
           end;
         pinned_initiatives := pinned_initiatives st |}
  | DeselectAll =>
      {| selected_initiatives := [];
         pinned_initiatives := pinned_initiatives st |}
  | PinnedTile opt =>
      if is_in opt (pinned_tiles initiative_options st) then toggle opt st else st
  | OtherTile opt =>
      if is_in opt (other_tiles initiative_options st) then toggle opt st else st
  | Unpin opt =>
      if is_in opt (pinned_tiles initiative_options st) then
        {| selected_initiatives := selected_initiatives st;
           pinned_initiatives :=
             List.filter (fun x => negb (String.eqb x opt)) (pinned_initiatives st) |}
      else st
  | Pin opt =>
      if is_in opt (other_tiles initiative_options st) then
        if negb (is_in opt (pinned_initiatives st)) then
          {| selected_initiatives := selected_initiatives st;
             pinned_initiatives := pinned_initiatives st ++ [opt] |}
        else st
      else st
  end.

(** One run of the sidebar, in the branch in which the sheet is loaded and
    has its Initiative Name column: synchronise, then the pressed button. *)
Definition render (initiative_options : list string) (b : button) (st : selector)
  : selector :=
  press initiative_options b (sync initiative_options st).

(** ** app.py: the bars of the geography charts *)

(** Stable insertion by decreasing count: the new item goes in front of
    the first item whose count is not larger. *)
Fixpoint insert_desc (x : string * Z) (l : list (string * Z)) : list (string * Z) :=
  match l with
  | [] => [x]
  | y :: l' => if y.2 <=? x.2 then x :: l else y :: insert_desc x l'
  end.

(** [sorted(items, key=lambda x: -x[1])]: a stable sort. *)
Definition sorted_by_count (items : list (string * Z)) : list (string * Z) :=
  fold_right insert_desc [] items.

(** Lines 802-804: the top 15 entries and their labels; [items] is
    [merged.items()]. *)
Definition bar_entries (items : list (string * Z)) : list (string * Z) :=
  (fun kv : string * Z => (normalize_chart_label (Some kv.1), kv.2))
    <$> take 15 (sorted_by_count items).

(** A stand-in for the digest, used only to run the login on concrete
    input; the statements about the login hold for every digest. *)
Definition plain_digest (text : string) : string := text.

(** A stand-in for the pandas total, used only to run the KPI sums on
    concrete input: it is the total of a column whose cells are whole
    numbers.  The statements about the sums hold for every total. *)
Definition whole_number_total (cells : list pyval) : res Z :=
  Ok (sum_Z ((fun v => match v with VInt z => z | _ => 0 end) <$> cells)).

(** ** Vocabulary of the statements *)

(** What one item does to the accumulating dictionary: abort the merge,
    leave the dictionary alone, or add to the key's count (creating the
    key at 0 first). *)
Inductive item_effect : Type :=
| Fails (e : exn)
| Skip
| Add (c : Z).

Definition bump (k : string) (c : Z) (m : gmap string Z) : gmap string Z :=
  <[k := default 0 (m !! k) + c]> m.

Definition apply_effect (eff : item_effect) (k : string) (m : gmap string Z)
  : res (gmap string Z) :=
  match eff with
  | Fails e => Raise e
  | Skip => Ok m
  | Add c => Ok (bump k c m)
  end.

(** The amount [merge_json_dicts] adds for a value that does not abort it. *)
Definition merge_count (v : pyval) : Z :=
  match v with
  | VBool b => if b then 1 else 0
  | VInt z => z
  | VFloat (FFinite m e) => float_trunc m e
  | _ => 0
  end.

Definition is_infinite (v : pyval) : bool :=
  match v with
  | VFloat (FInf _) => true
  | _ => false
  end.

Definition merge_effect (v : pyval) : item_effect :=
  if is_infinite v then Fails OverflowError else Add (merge_count v).

Definition daily_effect (v : pyval) : item_effect :=
  match py_int v with
  | Ok n => Add n
  | Raise OverflowError => Fails OverflowError
  | Raise _ => Skip
  end.

(** The items of the dictionaries that take part in a merge, in order. *)
Definition items_of (dicts : list (option pydict)) : pydict :=
  dicts ≫= default [].

Definition keys_union (dicts : list (option pydict)) : gset string :=
  list_to_set (items_of dicts).*1.

(** A count that is an [int], a [bool] or a float other than NaN. *)
Definition numeric_count (v : pyval) : bool :=
  match v with
  | VBool _ | VInt _ | VFloat (FFinite _ _) | VFloat (FInf _) => true
  | _ => false
  end.

Definition numeric_cells (json_loads : string -> option pyval)
    (series : list pyval) : bool :=
  forallb (fun cell =>
             match safe_json_loads json_loads cell with
             | Some d => forallb (fun kv : string * pyval => numeric_count kv.2) d
             | None => true
             end) series.

(** No value of the input is negative once counted. *)
Definition nonneg_counts (dicts : list (option pydict)) : bool :=
  forallb (fun kv : string * pyval => 0 <=? merge_count kv.2) (items_of dicts).

(** A configured target that is missing or cannot be read as a number. *)
Definition absent_or_unparseable (v : option pyval) : bool :=
  match v with
  | None | Some VNone => true
  | Some (VStr s) => bool_decide (int_of_str s = None)
  | Some (VList _) | Some (VDict _) | Some (VFloat FNan) => true
  | _ => false
  end.

Definition raw_target (config : gmap string (gmap string pyval))
    (initiative_name : string) : option pyval :=
  default ∅ (config !! initiative_name) !! "registration_target".

(** [reg_target = event_cfg.get("registration_target") or 0] (line 577). *)
Definition reg_target_of (config : gmap string (gmap string pyval))
    (initiative_name : string) : res Z :=
  let! event_cfg := get_event_config config initiative_name in
  Ok (registration_target event_cfg).

Definition no_forecast (span : option Z) : forecast :=
  {| average_daily := None; days_from_sheet := None; span_days := span;
     required_daily_avg := None; total_so_far_used := None;
     days_remaining_used := None |}.

(** The sum of what the values recorded under key [k] count for. *)
Definition count_for (k : string) (l : pydict) : Z :=
  sum_Z ((fun kv : string * pyval =>
            if decide (kv.1 = k) then merge_count kv.2 else 0) <$> l).

Definition no_infinite (l : pydict) : bool :=
  forallb (fun kv : string * pyval => negb (is_infinite kv.2)) l.

(** A non-empty text made of the characters a sheet id may have. *)
Definition is_sheet_id (s : string) : bool :=
  negb (String.eqb s "") && forallb is_id_char (list_ascii_of_string s).

(** A text that is empty or starts with a character no sheet id has. *)
Definition ends_sheet_id (rest : string) : bool :=
  match list_ascii_of_string rest with
  | [] => true
  | c :: _ => negb (is_id_char c)
  end.

(** Two count maps added up key by key. *)
Definition sum_maps (a b : gmap string Z) : gmap string Z :=
  union_with (fun x y => Some (x + y)) a b.

(** The counts [int()] reads under key [k], in order; values it rejects
    are left out. *)
Definition daily_counts (k : string) (l : pydict) : list Z :=
  omap (fun kv : string * pyval =>
          if decide (kv.1 = k) then
            match py_int kv.2 with Ok n => Some n | Raise _ => None end
          else None) l.

(** Text of code points below 128, and a dictionary in which every count
    given as text is such text. *)
Definition is_ascii_text (s : string) : bool :=
  forallb (fun c => (nat_of_ascii c <? 128)%nat) (list_ascii_of_string s).

Definition ascii_counts (l : pydict) : bool :=
  forallb (fun kv : string * pyval =>
             match kv.2 with
             | VStr s => is_ascii_text s
             | _ => true
             end) l.

(** The name of a column, stripped and lowered, holds every keyword,
    lowered. *)
Definition column_matches (keywords : list string) (c : string) : bool :=
  forallb (fun k => contains k (lower (strip c))) (lower <$> keywords).

(** What [aggregate_numeric_columns] records for one column. *)
Definition column_kpi (column_total : list pyval -> res Z)
    (df : gmap string (list pyval)) (col : string) : Z :=
  match df !! col with
  | None => 0
  | Some cells => match column_total cells with
                  | Ok n => n
                  | Raise _ => 0
                  end
  end.

(** No requested column has a total that overflows. *)
Definition totals_finite (column_total : list pyval -> res Z)
    (df : gmap string (list pyval)) (columns : list string) : bool :=
  forallb (fun col => match df !! col with
                      | Some cells =>
                          match column_total cells with
                          | Raise OverflowError => false
                          | _ => true
                          end
                      | None => true
                      end) columns.

(** A session of the sidebar: each run has the events of the sheet at that
    time and the button pressed. *)
Definition run (steps : list (list string * button)) (st : selector) : selector :=
  fold_left (fun s (step : list string * button) => render step.1 step.2 s) steps st.

(** An effect assignment whose only failure is [OverflowError]. *)
Definition overflow_only (eff : pyval -> item_effect) : Prop :=
  forall v e, eff v = Fails e -> e = OverflowError.

(** Two iterations of a loop body can be exchanged. *)
Definition commuting {A S} (body : S -> A -> res S) : Prop :=
  forall s x y,
    (let! s' := body s x in body s' y) = (let! s' := body s y in body s' x).

(** *** Words for the statements about the block *)

Section BlockWords.

Context {stamp : Type}.
Variable to_datetime : bool -> string -> res (option stamp).
Variable normalized : stamp -> res stamp.
Variable days_between : stamp -> stamp -> res Z.
Variable on_or_before : stamp -> stamp -> res bool.

(** A key of the series as the chart span takes it: the timestamp it
    reads as. *)
Definition key_stamp (d : string) (t : stamp) : Prop :=
  to_datetime false d = Ok (Some t).

(** The date of a key of the series: the midnight of the timestamp it
    reads as. *)
Definition key_date (d : string) (t : stamp) : Prop :=
  exists t0, to_datetime false d = Ok (Some t0) /\ normalized t0 = Ok t.

(** How a key stands to the end date.  [m] is true when the key reads as a
    date on or before the end date; it is false when the key reads as no
    date, or as a date after the end date. *)
Definition key_reading (end_ts : stamp) (d : string) (m : bool) : Prop :=
  (to_datetime false d = Ok None /\ m = false) \/
  (exists t, key_date d t /\ on_or_before t end_ts = Ok m).

(** The text order of the keys agrees with the order of what they read
    as. *)
Definition in_date_order (reads : string -> stamp -> Prop)
    (keys : list string) : Prop :=
  forall a b ta tb,
    a ∈ keys -> b ∈ keys -> String.le a b -> reads a ta -> reads b tb ->
    on_or_before ta tb = Ok true.

(** Nothing can be made of the two end keys of the series: one of them
    reads as no date, or reading them or subtracting them raises. *)
Definition no_span (lo hi : string) : Prop :=
  to_datetime false lo = Ok None \/
  to_datetime false hi = Ok None \/
  (exists e, to_datetime false lo = Raise e) \/
  (exists e, to_datetime false hi = Raise e) \/
  (exists a b e, to_datetime false lo = Ok (Some a) /\
                 to_datetime false hi = Ok (Some b) /\
                 days_between b a = Raise e).

End BlockWords.

(** The sheet gave no window, or a window of a single day. *)
Definition no_window (sheet_days : option Z) : Prop :=
  sheet_days = None \/ exists n, sheet_days = Some n /\ n <= 1.

(** ** Loops that may raise *)

Section FoldM.
Context {A S : Type} (body : S -> A -> res S).

Lemma bind_assoc {B C} (r : res S) (f : S -> res B) (g : B -> res C) :
  (let! b := (let! a := r in f a) in g b) = (let! a := r in let! b := f a in g b).
Proof. by destruct r. Qed.

Lemma foldM_cons (s : S) (x : A) (l : list A) :
  foldM body s (x :: l) = let! s' := body s x in foldM body s' l.
Proof. reflexivity. Qed.

Lemma foldM_app (s : S) (l1 l2 : list A) :
  foldM body s (l1 ++ l2) = let! s' := foldM body s l1 in foldM body s' l2.
Proof.
  revert s; induction l1 as [|x l1 IH]; intros s; simpl; [done|].
  destruct (body s x); simpl; auto.
Qed.

Lemma foldM_Permutation (s : S) (l l' : list A) :
  commuting body -> l ≡ₚ l' -> foldM body s l = foldM body s l'.
Proof.
  intros Hc Hp; revert s.
  induction Hp as [|x l l' _ IH|x y l|l l' l'' _ IH1 _ IH2]; intros s; simpl.
  - done.
  - destruct (body s x); simpl; auto.
  - transitivity (let! s2 := (let! s1 := body s y in body s1 x) in foldM body s2 l).
    { by rewrite bind_assoc. }
    rewrite (Hc s y x). by rewrite bind_assoc.
  - by rewrite IH1.
Qed.
End FoldM.

(** ** The two merges as folds of item effects *)

Lemma bump_bump_same (k : string) (c1 c2 : Z) (m : gmap string Z) :
  bump k c1 (bump k c2 m) = bump k (c2 + c1) m.
Proof.
  unfold bump. rewrite lookup_insert_eq, insert_insert_eq. simpl.
  f_equal. lia.
Qed.

Lemma bump_comm (k1 k2 : string) (c1 c2 : Z) (m : gmap string Z) :
  bump k1 c1 (bump k2 c2 m) = bump k2 c2 (bump k1 c1 m).
Proof.
  destruct (decide (k1 = k2)) as [->|Hne].
  - rewrite !bump_bump_same. f_equal. lia.
  - unfold bump. rewrite !lookup_insert_ne by done.
    by apply insert_insert_ne.
Qed.

Lemma lookup_bump (k k' : string) (c : Z) (m : gmap string Z) :
  bump k c m !! k' =
    if decide (k = k') then Some (default 0 (m !! k) + c) else m !! k'.
Proof. unfold bump. by rewrite lookup_insert. Qed.

Lemma dom_bump (k : string) (c : Z) (m : gmap string Z) :
  dom (bump k c m) = {[k]} ∪ dom m.
Proof. unfold bump. apply dom_insert_L. Qed.

Lemma effect_commuting (eff : pyval -> item_effect) :
  overflow_only eff ->
  commuting (fun (m : gmap string Z) (kv : string * pyval) =>
               apply_effect (eff kv.2) kv.1 m).
Proof.
  intros Hov m [k1 v1] [k2 v2]; simpl.
  pose proof (Hov v1) as H1. pose proof (Hov v2) as H2.
  destruct (eff v1) as [e1| |c1], (eff v2) as [e2| |c2]; simpl; try done.
  - by rewrite (H1 e1), (H2 e2).
  - by rewrite bump_comm.
Qed.

Lemma merge_effect_overflow_only : overflow_only merge_effect.
Proof.
  intros v e. unfold merge_effect. destruct (is_infinite v); congruence.
Qed.

Lemma daily_effect_overflow_only : overflow_only daily_effect.
Proof.
  intros v e. unfold daily_effect.
  destruct (py_int v) as [n|[]]; congruence.
Qed.

Lemma merge_item_effect (m : gmap string Z) (kv : string * pyval) :
  merge_item m kv = apply_effect (merge_effect kv.2) kv.1 m.
Proof.
  destruct kv as [k v]. unfold merge_item, merge_effect, bump. simpl.
  assert (Hz : forall n : Z,
             <[k := default 0 (m !! k) + n]> m =
             <[k := default 0 (match m !! k with
                               | Some _ => m
                               | None => <[k := 0]> m
                               end !! k) + n]>
               match m !! k with Some _ => m | None => <[k := 0]> m end).
  { intros n. destruct (m !! k) as [z|] eqn:E.
    - by rewrite E.
    - by rewrite lookup_insert_eq, insert_insert_eq. }
  assert (H0 : match m !! k with Some _ => m | None => <[k := 0]> m end =
               <[k := default 0 (m !! k) + 0]> m).
  { destruct (m !! k) as [z|] eqn:E; simpl; [|done].
    rewrite Z.add_0_r. symmetry. by apply insert_id. }
  destruct v as [|b|z|[mm e| |neg]|s|l|d]; simpl;
    try done; try (by rewrite <- Hz); try (by rewrite H0).
Qed.

Lemma daily_item_effect (m : gmap string Z) (kv : string * pyval) :
  daily_item m kv = apply_effect (daily_effect kv.2) kv.1 m.
Proof.
  destruct kv as [k v]. unfold daily_item, daily_effect. simpl.
  by destruct (py_int v) as [n|[]].
Qed.

Lemma foldM_ext {A S} (f g : S -> A -> res S) (s : S) (l : list A) :
  (forall s x, f s x = g s x) -> foldM f s l = foldM g s l.
Proof.
  intros H; revert s; induction l as [|x l IH]; intros s; simpl; [done|].
  rewrite H. destruct (g s x); simpl; auto.
Qed.

Lemma merge_dict_items (m : gmap string Z) (d : option pydict) :
  merge_dict m d = foldM merge_item m (default [] d).
Proof. by destruct d as [[|kv d]|]. Qed.

Lemma merge_json_dicts_items (dicts : list (option pydict)) :
  merge_json_dicts dicts = foldM merge_item ∅ (items_of dicts).
Proof.
  unfold merge_json_dicts, items_of. generalize (∅ : gmap string Z).
  induction dicts as [|d dicts IH]; intros m; simpl; [done|].
  rewrite foldM_app, merge_dict_items.
  destruct (foldM merge_item m (default [] d)); simpl; auto.
Qed.

Lemma safe_json_loads_isna (json_loads : string -> option pyval) (v : pyval) :
  isna v = true -> safe_json_loads json_loads v = None.
Proof. by destruct v as [| | |[]| | |]. Qed.

Lemma parse_daily_registrations_items json_loads (series : list pyval) :
  parse_daily_registrations json_loads series =
  foldM daily_item ∅ (items_of (safe_json_loads json_loads <$> series)).
Proof.
  unfold parse_daily_registrations, items_of. generalize (∅ : gmap string Z).
  induction series as [|v series IH]; intros m; simpl; [done|].
  rewrite foldM_app.
  destruct (isna v) eqn:Hna; simpl.
  - rewrite (safe_json_loads_isna _ _ Hna). simpl. apply IH.
  - unfold daily_cell at 1.
    destruct (safe_json_loads json_loads v) as [[|kv d]|]; simpl; try apply IH.
    destruct (daily_item m kv); simpl; [|done].
    destruct (foldM daily_item a d); simpl; auto.
Qed.

(** ** What [merge_json_dicts] returns *)

Lemma count_for_cons (k k0 : string) (v0 : pyval) (l : pydict) :
  count_for k ((k0, v0) :: l) =
  (if decide (k0 = k) then merge_count v0 else 0) + count_for k l.
Proof. reflexivity. Qed.

Lemma count_for_absent (k : string) (l : pydict) :
  k ∉ l.*1 -> count_for k l = 0.
Proof.
  induction l as [|[k0 v0] l IH]; [done|].
  rewrite count_for_cons. simpl. rewrite not_elem_of_cons. intros [Hne Hl].
  destruct (decide (k0 = k)); [congruence|]. by rewrite IH.
Qed.

(** A key all of whose values are non-numeric (or count as 0) totals 0. *)
Lemma count_for_non_numeric (k : string) (l : pydict) :
  (forall v, (k, v) ∈ l -> merge_count v = 0) -> count_for k l = 0.
Proof.
  induction l as [|[k0 v0] l IH]; intros Hzero; [done|].
  rewrite count_for_cons. simpl. rewrite IH.
  - case_decide as Hk; [|done]. subst k0.
    rewrite (Hzero v0) by apply list_elem_of_here. done.
  - intros v Hv. apply Hzero. by apply list_elem_of_further.
Qed.

Lemma merge_items_lookup (l : pydict) (m : gmap string Z) :
  no_infinite l = true ->
  exists m', foldM merge_item m l = Ok m' /\
    forall k, m' !! k =
      if decide (k ∈ l.*1) then Some (default 0 (m !! k) + count_for k l)
      else m !! k.
Proof.
  revert m; induction l as [|[k0 v0] l IH]; intros m Hfin.
  - exists m. split; [done|]. intros k.
    destruct (decide (k ∈ [])) as [Hin|]; [|done]. by apply elem_of_nil in Hin.
  - apply andb_prop in Hfin as [Hv Hl].
    rewrite foldM_cons, merge_item_effect. unfold merge_effect. simpl in *.
    apply negb_true_iff in Hv. rewrite Hv. simpl.
    destruct (IH (bump k0 (merge_count v0) m) Hl) as (m' & Hrun & Hlook).
    exists m'. split; [done|]. intros k.
    rewrite Hlook, lookup_bump, count_for_cons. simpl.
    pose proof (count_for_absent k l) as Habs.
    repeat case_decide; subst; simpl;
      rewrite ?Habs by done; try (f_equal; lia); try done;
      exfalso;
      repeat match goal with
             | H : _ ∈ _ :: _ |- _ => apply elem_of_cons in H as [?|?]
             | H : _ ∉ _ :: _ |- _ => apply not_elem_of_cons in H as [? ?]
             end; try congruence; try done.
Qed.

Lemma merge_items_overflow (l : pydict) (m : gmap string Z) :
  no_infinite l = false -> foldM merge_item m l = Raise OverflowError.
Proof.
  revert m; induction l as [|[k0 v0] l IH]; intros m Hinf; [done|].
  rewrite foldM_cons, merge_item_effect. unfold merge_effect. simpl in *.
  destruct (is_infinite v0); simpl in *; [done|]. by apply IH.
Qed.

(** Without an infinite float among the values, the merge returns, its
    keys are exactly the keys of the inputs, and each key holds the sum of
    what its values count for. *)
Lemma merge_json_dicts_finite (dicts : list (option pydict)) :
  no_infinite (items_of dicts) = true ->
  exists merged, merge_json_dicts dicts = Ok merged /\
    dom merged = keys_union dicts /\
    forall k, k ∈ keys_union dicts ->
      merged !! k = Some (count_for k (items_of dicts)).
Proof.
  intros Hfin. rewrite merge_json_dicts_items.
  destruct (merge_items_lookup _ ∅ Hfin) as (merged & Hrun & Hlook).
  exists merged. split; [done|]. unfold keys_union. split.
  - apply set_eq. intros k.
    rewrite elem_of_dom, elem_of_list_to_set, Hlook, lookup_empty.
    case_decide; split; intros H'; try done; try (by eexists).
  - intros k Hk. rewrite elem_of_list_to_set in Hk.
    rewrite Hlook, lookup_empty. case_decide; [|done]. simpl. f_equal; lia.
Qed.

Lemma daily_items_finite (l : pydict) (m : gmap string Z) :
  no_infinite l = true -> exists m', foldM daily_item m l = Ok m'.
Proof.
  revert m; induction l as [|[k v] l IH]; intros m Hfin; [by exists m|].
  simpl in Hfin. apply andb_prop in Hfin as [Hv Hl].
  rewrite foldM_cons, daily_item_effect. unfold daily_effect. simpl.
  destruct v as [|b|z|[mm e| |neg]|s|vs|d]; simpl; try done; try apply (IH _ Hl).
  destruct (int_of_str s); simpl; apply (IH _ Hl).
Qed.

(** Without an infinite float among the decoded values the daily merge
    returns as well. *)
Lemma parse_daily_registrations_finite json_loads (series : list pyval) :
  no_infinite (items_of (safe_json_loads json_loads <$> series)) = true ->
  exists combined, parse_daily_registrations json_loads series = Ok combined.
Proof.
  intros Hfin. rewrite parse_daily_registrations_items.
  by apply daily_items_finite.
Qed.

(** ** Order of the rows *)

Lemma items_of_Permutation (dicts dicts' : list (option pydict)) :
  dicts ≡ₚ dicts' -> items_of dicts ≡ₚ items_of dicts'.
Proof. intros Hp. unfold items_of. by rewrite Hp. Qed.

Lemma foldM_merge_item_Permutation (m : gmap string Z) (l l' : pydict) :
  l ≡ₚ l' -> foldM merge_item m l = foldM merge_item m l'.
Proof.
  intros Hp.
  rewrite !(foldM_ext merge_item _ _ _ merge_item_effect).
  apply foldM_Permutation; [|done].
  apply effect_commuting, merge_effect_overflow_only.
Qed.

Lemma foldM_daily_item_Permutation (m : gmap string Z) (l l' : pydict) :
  l ≡ₚ l' -> foldM daily_item m l = foldM daily_item m l'.
Proof.
  intros Hp.
  rewrite !(foldM_ext daily_item _ _ _ daily_item_effect).
  apply foldM_Permutation; [|done].
  apply effect_commuting, daily_effect_overflow_only.
Qed.

(** C7. Merge commutativity: reordering the parsed distribution maps does
    not change what [merge_json_dicts] yields, and reordering the raw
    daily-registration cells does not change what
    [parse_daily_registrations] yields (the same map, or the same
    exception). *)
Theorem merge_commutativity (json_loads : string -> option pyval)
    (dicts dicts' : list (option pydict)) (series series' : list pyval) :
  dicts ≡ₚ dicts' ->
  series ≡ₚ series' ->
  merge_json_dicts dicts = merge_json_dicts dicts' /\
  parse_daily_registrations json_loads series =
    parse_daily_registrations json_loads series'.
Proof.
  intros Hd Hs. split.
  - rewrite !merge_json_dicts_items.
    by apply foldM_merge_item_Permutation, items_of_Permutation.
  - rewrite !parse_daily_registrations_items.
    apply foldM_daily_item_Permutation, items_of_Permutation.
    by rewrite Hs.
Qed.

Lemma merge_commutativity_witness :
  let a := VStr (jtext "{'Male': 3, 'Female': 2}") in
  let b := VStr (jtext "{'Male': 1, 'Other': 'n/a'}") in
  let da := safe_json_loads JsonFlat.json_loads a in
  let db := safe_json_loads JsonFlat.json_loads b in
  ([da; None; db] ≡ₚ [db; da; None]) /\
  ([a; VNone; b] ≡ₚ [b; a; VNone]) /\
  merge_json_dicts [da; None; db] = merge_json_dicts [db; da; None] /\
  parse_daily_registrations JsonFlat.json_loads [a; VNone; b] =
    parse_daily_registrations JsonFlat.json_loads [b; a; VNone].
Proof.
  intros a b da db.
  assert (H1 : [da; None; db] ≡ₚ [db; da; None]).
  { change ([da; None] ++ [db] ≡ₚ [db] ++ [da; None]). apply Permutation_app_comm. }
  assert (H2 : [a; VNone; b] ≡ₚ [b; a; VNone]).
  { change ([a; VNone] ++ [b] ≡ₚ [b] ++ [a; VNone]). apply Permutation_app_comm. }
  split; [exact H1|]. split; [exact H2|].
  exact (merge_commutativity JsonFlat.json_loads _ _ _ _ H1 H2).
Defined.

(** ** The two merges compared *)

Lemma numeric_effects_agree (v : pyval) :
  numeric_count v = true -> daily_effect v = merge_effect v.
Proof. by destruct v as [|[]|z|[m e| |neg]|s|l|d]. Qed.

Lemma foldM_daily_merge_numeric (m : gmap string Z) (l : pydict) :
  forallb (fun kv : string * pyval => numeric_count kv.2) l = true ->
  foldM daily_item m l = foldM merge_item m l.
Proof.
  revert m; induction l as [|[k v] l IH]; intros m Hnum; [done|].
  simpl in Hnum. apply andb_prop in Hnum as [Hv Hl].
  rewrite !foldM_cons, daily_item_effect, merge_item_effect. simpl.
  rewrite (numeric_effects_agree _ Hv).
  destruct (apply_effect (merge_effect v) k m); simpl; auto.
Qed.

Lemma numeric_cells_items json_loads (series : list pyval) :
  numeric_cells json_loads series = true ->
  forallb (fun kv : string * pyval => numeric_count kv.2)
    (items_of (safe_json_loads json_loads <$> series)) = true.
Proof.
  unfold numeric_cells, items_of.
  induction series as [|v series IH]; [done|].
  intros Hnum. cbn [forallb] in Hnum. apply andb_prop in Hnum as [Hv Hs].
  rewrite fmap_cons, bind_cons, forallb_app, (IH Hs), andb_true_r.
  by destruct (safe_json_loads json_loads v).
Qed.

(** C2, as amended.  On cells whose decoded counts are all [int], [bool]
    or floats other than NaN, [parse_daily_registrations] yields what
    [merge_json_dicts] yields on the cells parsed with [safe_json_loads]:
    the same map, or the same exception. *)
Theorem daily_merge_agrees_on_numeric_counts
    (json_loads : string -> option pyval) (series : list pyval) :
  numeric_cells json_loads series = true ->
  parse_daily_registrations json_loads series =
  merge_json_dicts (safe_json_loads json_loads <$> series).
Proof.
  intros Hnum.
  rewrite parse_daily_registrations_items, merge_json_dicts_items.
  by apply foldM_daily_merge_numeric, numeric_cells_items.
Qed.

Lemma daily_merge_agrees_on_numeric_counts_witness :
  let series := [VStr (jtext "{'2026-01-01': 5, '2026-01-02': true}");
                 VFloat FNan;
                 VStr (jtext "{bad json}");
                 VStr (jtext "{'2026-01-01': 2}")] in
  numeric_cells JsonFlat.json_loads series = true /\
  parse_daily_registrations JsonFlat.json_loads series =
    merge_json_dicts (safe_json_loads JsonFlat.json_loads <$> series).
Proof.
  intros series. split; [reflexivity|].
  apply (daily_merge_agrees_on_numeric_counts JsonFlat.json_loads series).
  reflexivity.
Defined.

(** C2, counterexample.  A count written as text is converted by the
    daily merge and counted as 0 by the distribution merge; a count that is
    no number at all leaves no key in the daily series and a key at 0 in
    the distribution. *)
Lemma daily_merge_differs_on_text_counts :
  parse_daily_registrations JsonFlat.json_loads
    [VStr (jtext "{'2026-01-01': '5', '2026-01-02': 'n/a'}")]
  = Ok (<["2026-01-01" := 5]> ∅) /\
  merge_json_dicts
    (safe_json_loads JsonFlat.json_loads <$>
       [VStr (jtext "{'2026-01-01': '5', '2026-01-02': 'n/a'}")])
  = Ok (<["2026-01-01" := 0]> (<["2026-01-02" := 0]> ∅)) /\
  parse_daily_registrations JsonFlat.json_loads
    [VStr (jtext "{'2026-01-01': '5', '2026-01-02': 'n/a'}")]
  <> merge_json_dicts
       (safe_json_loads JsonFlat.json_loads <$>
          [VStr (jtext "{'2026-01-01': '5', '2026-01-02': 'n/a'}")]).
Proof.
  assert (H1 : parse_daily_registrations JsonFlat.json_loads
                 [VStr (jtext "{'2026-01-01': '5', '2026-01-02': 'n/a'}")]
               = Ok (<["2026-01-01" := 5]> ∅)) by (vm_compute; reflexivity).
  assert (H2 : merge_json_dicts
                 (safe_json_loads JsonFlat.json_loads <$>
                    [VStr (jtext "{'2026-01-01': '5', '2026-01-02': 'n/a'}")])
               = Ok (<["2026-01-01" := 0]> (<["2026-01-02" := 0]> ∅)))
    by (vm_compute; reflexivity).
  split; [exact H1|]. split; [exact H2|].
  rewrite H1, H2. intros Heq.
  apply (f_equal (fun r => match r with
                           | Ok m => m !! "2026-01-01"
                           | Raise _ => None
                           end)) in Heq.
  vm_compute in Heq. discriminate.
Qed.

(** ** The never-raises contract *)

(** C3, at the failing input.  A cell whose JSON carries the constant
    [Infinity] as a count decodes to a dictionary with an infinite float;
    [int()] of it raises [OverflowError], which neither [try] catches, so
    both merges raise and the rows after that cell are not processed.  The
    same holds, whatever the decoder, for a cell that already is such a
    dictionary. *)
Theorem infinite_count_raises_overflow :
  safe_json_loads JsonFlat.json_loads (VStr (jtext "{'2026-01-01': Infinity}"))
  = Some [("2026-01-01", VFloat (FInf false))] /\
  merge_json_dicts
    (safe_json_loads JsonFlat.json_loads <$>
       [VStr (jtext "{'2026-01-01': Infinity}"); VStr (jtext "{'2026-01-02': 4}")])
  = Raise OverflowError /\
  parse_daily_registrations JsonFlat.json_loads
    [VStr (jtext "{'2026-01-01': Infinity}"); VStr (jtext "{'2026-01-02': 4}")]
  = Raise OverflowError /\
  (forall json_loads : string -> option pyval,
      parse_daily_registrations json_loads
        [VDict [("2026-01-01", VFloat (FInf false))]; VStr "{}"]
      = Raise OverflowError).
Proof.
  split; [reflexivity|]. split; [vm_compute; reflexivity|].
  split; [vm_compute; reflexivity|]. intros json_loads. reflexivity.
Qed.

(** The scenario of the specification: a malformed cell and an absent cell
    contribute nothing and the merge goes on. *)
Example malformed_cell_scenario :
  merge_json_dicts
    (safe_json_loads JsonFlat.json_loads <$>
       [VStr (jtext "{bad json}"); VStr (jtext "{'Male': 3}"); VNone])
  = Ok (<["Male" := 3]> ∅).
Proof. vm_compute. reflexivity. Qed.

(** C9, at the failing input.  The key [Student] occurs with a
    non-numeric value only and [Other] with an infinite float: the merge
    raises, so there is no output in which either key appears. *)
Theorem merged_keys_lost_on_overflow :
  keys_union [Some [("Student", VStr "many")]; Some [("Other", VFloat (FInf false))]]
  = {[ "Student"; "Other" ]} /\
  merge_json_dicts
    [Some [("Student", VStr "many")]; Some [("Other", VFloat (FInf false))]]
  = Raise OverflowError.
Proof. split; vm_compute; reflexivity. Qed.

(** ** Roles *)

(** C10. [can_edit_sheet] holds for the role [admin] and for no other
    role string. *)
Theorem can_edit_sheet_admin_only (role : string) :
  can_edit_sheet role = true <-> role = "admin".
Proof.
  split.
  - intros Hedit. destruct (decide (role = "admin")) as [|Hna]; [done|].
    exfalso. revert Hedit. unfold can_edit_sheet, has_permission, ROLE_PERMISSIONS.
    rewrite lookup_insert_ne by done.
    destruct (decide (role = "viewer")) as [->|Hnv].
    + vm_compute. discriminate.
    + rewrite lookup_insert_ne by done. rewrite lookup_empty.
      vm_compute. discriminate.
  - intros ->. vm_compute. reflexivity.
Qed.

(** ** No target, no forecast *)

Lemma pace_forecast_zero_target (to_datetime : bool -> string -> option Z)
    (start_val end_val : option string) (dates : list string) (counts : list Z) :
  pace_forecast to_datetime 0 start_val end_val dates counts = no_forecast None.
Proof. reflexivity. Qed.

Lemma reg_target_absent_or_unparseable
    (config : gmap string (gmap string pyval)) (initiative_name : string) :
  absent_or_unparseable (raw_target config initiative_name) = true ->
  reg_target_of config initiative_name = Ok 0.
Proof.
  unfold reg_target_of, get_event_config, raw_target.
  destruct (default ∅ (config !! initiative_name) !! "registration_target")
    as [[|b|z|[m e| |neg]|s|l|d]|]; simpl; try done.
  intros Hs%bool_decide_eq_true. rewrite Hs.
  by destruct (String.eqb s "").
Qed.

(** C6. Zero-target skip: a target configured as 0, or one that is missing
    or unparseable (which [get_event_config] turns into 0), reaches the
    forecaster as 0, and with target 0 the forecaster yields no full-period
    average and no required average, whatever the window and the series. *)
Theorem zero_target_skip (to_datetime : bool -> string -> option Z)
    (config : gmap string (gmap string pyval)) (initiative_name : string)
    (start_val end_val : option string) (dates : list string) (counts : list Z) :
  raw_target config initiative_name = Some (VInt 0) \/
  absent_or_unparseable (raw_target config initiative_name) = true ->
  exists reg_target,
    reg_target_of config initiative_name = Ok reg_target /\
    reg_target = 0 /\
    let f := pace_forecast to_datetime reg_target start_val end_val dates counts in
    average_daily f = None /\
    required_daily_avg f = None /\
    total_so_far_used f = None /\
    days_remaining_used f = None.
Proof.
  intros Hraw. exists 0. split; [|by rewrite pace_forecast_zero_target].
  destruct Hraw as [Hzero|Habs].
  - unfold reg_target_of, get_event_config. unfold raw_target in Hzero.
    by rewrite Hzero.
  - by apply reg_target_absent_or_unparseable.
Qed.

Lemma zero_target_skip_witness :
  let config : gmap string (gmap string pyval) :=
    <["Hack A" := <["registration_target" := VStr "tbd"]> ∅]> ∅ in
  (raw_target config "Hack A" = Some (VInt 0) \/
   absent_or_unparseable (raw_target config "Hack A") = true) /\
  exists reg_target,
    reg_target_of config "Hack A" = Ok reg_target /\
    reg_target = 0 /\
    let f := pace_forecast DateText.to_datetime reg_target
               (Some "08-01-2026") (Some "22-02-2026")
               ["2026-01-08"; "2026-02-01"] [1200; 1100] in
    average_daily f = None /\
    required_daily_avg f = None /\
    total_so_far_used f = None /\
    days_remaining_used f = None.
Proof.
  intros config.
  assert (H : raw_target config "Hack A" = Some (VInt 0) \/
              absent_or_unparseable (raw_target config "Hack A") = true).
  { right. vm_compute. reflexivity. }
  split; [exact H|].
  exact (zero_target_skip DateText.to_datetime config "Hack A"
           (Some "08-01-2026") (Some "22-02-2026")
           ["2026-01-08"; "2026-02-01"] [1200; 1100] H).
Defined.

(** ** Labels of a merged distribution *)

Lemma normalize_chart_label_cases (k : string) :
  (strip k = "" -> normalize_chart_label (Some k) = "(Unknown)") /\
  (strip k <> "" -> normalize_chart_label (Some k) = strip k) /\
  normalize_chart_label (Some k) <> "".
Proof.
  unfold normalize_chart_label.
  destruct (String.eqb (strip k) "") eqn:E.
  - apply String.eqb_eq in E. by repeat split.
  - apply String.eqb_neq in E. by repeat split.
Qed.

Lemma sum_Z_nonneg (l : list Z) : Forall (fun z => 0 <= z) l -> 0 <= sum_Z l.
Proof. induction 1; simpl; lia. Qed.

Lemma count_for_nonneg (k : string) (l : pydict) :
  forallb (fun kv : string * pyval => 0 <=? merge_count kv.2) l = true ->
  0 <= count_for k l.
Proof.
  induction l as [|[k0 v0] l IH]; [done|].
  intros Hnn. cbn [forallb] in Hnn. apply andb_prop in Hnn as [Hv Hl].
  rewrite count_for_cons. apply Z.leb_le in Hv. simpl in Hv.
  specialize (IH Hl). case_decide; lia.
Qed.

Lemma merge_json_dicts_returns_finite (dicts : list (option pydict))
    (merged : gmap string Z) :
  merge_json_dicts dicts = Ok merged -> no_infinite (items_of dicts) = true.
Proof.
  intros Hrun. destruct (no_infinite (items_of dicts)) eqn:E; [done|].
  rewrite merge_json_dicts_items, (merge_items_overflow _ _ E) in Hrun.
  discriminate.
Qed.

(** C8, as amended.  Each key of a merged distribution is relabelled on
    its own: an empty or all-whitespace key gets [(Unknown)], any other key
    its trimmed text, and the chart receives one entry per key with that
    key's count, so no label is empty; nothing is added up after the
    relabelling.  The counts are integers, and none is negative when no
    merged value counts as negative. *)
Theorem chart_entries_relabel_each_key (dicts : list (option pydict))
    (merged : gmap string Z) :
  merge_json_dicts dicts = Ok merged ->
  (forall label count,
      (label, count) ∈ chart_entries merged <->
      exists k, merged !! k = Some count /\
                label = normalize_chart_label (Some k)) /\
  length (chart_entries merged) = size merged /\
  (forall k, (strip k = "" -> normalize_chart_label (Some k) = "(Unknown)") /\
             (strip k <> "" -> normalize_chart_label (Some k) = strip k) /\
             normalize_chart_label (Some k) <> "") /\
  (nonneg_counts dicts = true ->
   forall label count, (label, count) ∈ chart_entries merged -> 0 <= count).
Proof.
  intros Hrun.
  assert (Hentries : forall label count,
             (label, count) ∈ chart_entries merged <->
             exists k, merged !! k = Some count /\
                       label = normalize_chart_label (Some k)).
  { intros label count. unfold chart_entries. rewrite list_elem_of_fmap. split.
    - intros ([k c] & Heq & Hin). simpl in Heq. inversion Heq; subst.
      exists k. split; [|done]. by apply elem_of_map_to_list.
    - intros (k & Hk & ->). exists (k, count). split; [done|].
      by apply elem_of_map_to_list. }
  split; [exact Hentries|]. split.
  { unfold chart_entries. by rewrite length_fmap, length_map_to_list. }
  split; [exact normalize_chart_label_cases|].
  intros Hnn label count Hin.
  apply Hentries in Hin as (k & Hk & _).
  pose proof (merge_json_dicts_returns_finite _ _ Hrun) as Hfin.
  destruct (merge_json_dicts_finite _ Hfin) as (merged' & Hrun' & Hdom & Hval).
  rewrite Hrun in Hrun'. inversion Hrun'; subst merged'.
  assert (Hkin : k ∈ keys_union dicts).
  { rewrite <- Hdom. apply elem_of_dom. by eexists. }
  rewrite (Hval k Hkin) in Hk. inversion Hk; subst count.
  by apply count_for_nonneg.
Qed.

Lemma chart_entries_relabel_each_key_witness :
  let dicts := [Some [("", VInt 5); ("Other", VInt 2)]] in
  let merged : gmap string Z := <["" := 5]> (<["Other" := 2]> ∅) in
  merge_json_dicts dicts = Ok merged /\
  nonneg_counts dicts = true /\
  (chart_entries merged ≡ₚ [("(Unknown)", 5); ("Other", 2)]) /\
  (forall label count, (label, count) ∈ chart_entries merged -> 0 <= count).
Proof.
  intros dicts merged.
  assert (Hrun : merge_json_dicts dicts = Ok merged) by (vm_compute; reflexivity).
  split; [exact Hrun|]. split; [reflexivity|]. split.
  - assert (H : chart_entries merged = [("Other", 2); ("(Unknown)", 5)])
      by (vm_compute; reflexivity).
    rewrite H. apply perm_swap.
  - exact (proj2 (proj2 (proj2 (chart_entries_relabel_each_key dicts merged Hrun)))
             eq_refl).
Defined.

(** C8, counterexample.  Two distinct whitespace-only keys stay two
    entries, both labelled [(Unknown)], with their own counts 5 and 2 and
    no entry holding 7; and a negative count in a cell stays negative. *)
Lemma whitespace_keys_not_combined :
  merge_json_dicts [Some [("", VInt 5); (" ", VInt 2)]]
  = Ok (<["" := 5]> (<[" " := 2]> ∅)) /\
  (chart_entries (<["" := 5]> (<[" " := 2]> ∅))
   ≡ₚ [("(Unknown)", 5); ("(Unknown)", 2)]) /\
  ~ NoDup (chart_entries (<["" := 5]> (<[" " := 2]> ∅))).*1 /\
  (("(Unknown)", 7) ∉ chart_entries (<["" := 5]> (<[" " := 2]> ∅))) /\
  merge_json_dicts [Some [("Refunds", VInt (-3))]]
  = Ok (<["Refunds" := -3]> ∅) /\
  chart_entries (<["Refunds" := -3]> ∅) = [("Refunds", -3)].
Proof.
  assert (H : chart_entries (<["" := 5]> (<[" " := 2]> ∅))
              = [("(Unknown)", 2); ("(Unknown)", 5)]) by (vm_compute; reflexivity).
  split; [vm_compute; reflexivity|]. rewrite H.
  split; [apply perm_swap|]. split; [|split].
  - simpl. intros Hnd. apply NoDup_cons in Hnd as [Hnotin _].
    apply Hnotin. apply list_elem_of_here.
  - intros Hin. repeat (apply elem_of_cons in Hin as [Hin|Hin]; [discriminate|]).
    by apply elem_of_nil in Hin.
  - split; vm_compute; reflexivity.
Qed.

(** ** Days and timestamps *)

Lemma ns_per_day_pos : 0 < ns_per_day.
Proof. reflexivity. Qed.

Lemma day_of_normalize (t : Z) : day_of (normalize t) = day_of t.
Proof.
  unfold normalize, day_of. apply Z.div_mul. pose proof ns_per_day_pos. lia.
Qed.

Lemma normalize_idem (t : Z) : normalize (normalize t) = normalize t.
Proof. unfold normalize at 1. by rewrite day_of_normalize. Qed.

Lemma delta_days_normalize (a b : Z) :
  delta_days (normalize a) (normalize b) = day_of a - day_of b.
Proof.
  unfold delta_days, normalize. rewrite <- Z.mul_sub_distr_r.
  apply Z.div_mul. pose proof ns_per_day_pos. lia.
Qed.

Lemma normalize_le (a b : Z) :
  normalize a <= normalize b <-> day_of a <= day_of b.
Proof. unfold normalize. pose proof ns_per_day_pos. nia. Qed.

(** ** The values of the block *)

Section ForecastFacts.

Variable to_datetime : bool -> string -> option Z.

Lemma pace_forecast_fields (reg_target : Z) (start_val end_val : option string)
    (dates : list string) (counts : list Z) :
  let w := sheet_window to_datetime reg_target start_val end_val in
  let c := chart_span to_datetime reg_target dates w.1.1 w.1.2 in
  let r := required_pace to_datetime reg_target dates counts c.1 w.2 in
  let f := pace_forecast to_datetime reg_target start_val end_val dates counts in
  days_from_sheet f = w.1.2 /\ average_daily f = c.1 /\ span_days f = c.2 /\
  required_daily_avg f = r.1.1 /\ total_so_far_used f = r.1.2 /\
  days_remaining_used f = r.2.
Proof.
  unfold pace_forecast.
  destruct (sheet_window _ _ _ _) as [[avg0 sheet_days] end_dt]. simpl.
  destruct (chart_span _ _ _ _ _) as [avg span]. simpl.
  by destruct (required_pace _ _ _ _ _ _) as [[req total] days_left].
Qed.

End ForecastFacts.

Lemma py_div_exact (q b : Z) : b <> 0 -> py_div (q * b) b = Qc_of_Z q.
Proof.
  intros Hb. unfold py_div. rewrite Z2Qc_inj_mul. apply Qcdiv_mult_l.
  rewrite <- Z2Qc_inj_0. by intros ?%Z2Qc_inj.
Qed.

(** ** Builtin [max] on a sorted list *)

Lemma ltb_false_le_eq (a b : string) :
  String.le a b -> String.ltb a b = false -> a = b.
Proof.
  unfold String.le, String.leb, String.ltb. intros Hle Hlt.
  destruct (String.compare a b) eqn:E; try done.
  by apply String.compare_eq_iff.
Qed.

Lemma py_max_elem_of (l : list string) (x : string) :
  py_max l = Some x -> x ∈ l.
Proof.
  destruct l as [|a l]; [done|]. simpl. intros [= <-].
  revert a. induction l as [|b l IH]; intros a; simpl.
  - apply list_elem_of_here.
  - specialize (IH (if String.ltb a b then b else a)).
    apply elem_of_cons in IH as [->|IH].
    + destruct (String.ltb a b).
      * apply list_elem_of_further, list_elem_of_here.
      * apply list_elem_of_here.
    + by do 2 apply list_elem_of_further.
Qed.

Lemma ltb_true_le (a b : string) : String.ltb a b = true -> String.le a b.
Proof.
  unfold String.le, String.leb, String.ltb.
  by destruct (String.compare a b).
Qed.

Lemma ltb_false_ge (a b : string) : String.ltb a b = false -> String.le b a.
Proof.
  unfold String.le, String.leb, String.ltb.
  rewrite (String.compare_antisym a b).
  by destruct (String.compare b a).
Qed.

(** [max] bounds every element from above and [min] from below, in text
    order. *)
Lemma fold_max_ge (l : list string) (a x : string) :
  x = a \/ x ∈ l ->
  String.le x (fold_left (fun a b => if String.ltb a b then b else a) l a).
Proof.
  revert a x. induction l as [|b l IH]; intros a x Hx; simpl.
  - destruct Hx as [->|Hx]; [done|]. by apply elem_of_nil in Hx.
  - assert (Hstep : String.le (if String.ltb a b then b else a)
                      (fold_left (fun a b => if String.ltb a b then b else a) l
                         (if String.ltb a b then b else a)))
      by (apply IH; left; reflexivity).
    destruct Hx as [->|Hx].
    + etrans; [|exact Hstep].
      destruct (String.ltb a b) eqn:E; [by apply ltb_true_le|done].
    + apply elem_of_cons in Hx as [->|Hx]; [|apply IH; by right].
      etrans; [|exact Hstep].
      destruct (String.ltb a b) eqn:E; [done|by apply ltb_false_ge].
Qed.

Lemma fold_min_le (l : list string) (a x : string) :
  x = a \/ x ∈ l ->
  String.le (fold_left (fun a b => if String.ltb b a then b else a) l a) x.
Proof.
  revert a x. induction l as [|b l IH]; intros a x Hx; simpl.
  - destruct Hx as [->|Hx]; [done|]. by apply elem_of_nil in Hx.
  - assert (Hstep : String.le
                      (fold_left (fun a b => if String.ltb b a then b else a) l
                         (if String.ltb b a then b else a))
                      (if String.ltb b a then b else a))
      by (apply IH; left; reflexivity).
    destruct Hx as [->|Hx].
    + etrans; [exact Hstep|].
      destruct (String.ltb b a) eqn:E; [by apply ltb_true_le|done].
    + apply elem_of_cons in Hx as [->|Hx]; [|apply IH; by right].
      etrans; [exact Hstep|].
      destruct (String.ltb b a) eqn:E; [done|by apply ltb_false_ge].
Qed.

Lemma py_max_ge (l : list string) (hi x : string) :
  py_max l = Some hi -> x ∈ l -> String.le x hi.
Proof.
  destruct l as [|a l]; [done|]. simpl. intros [= <-] Hx.
  apply fold_max_ge. apply elem_of_cons in Hx. tauto.
Qed.

Lemma py_min_le (l : list string) (lo x : string) :
  py_min l = Some lo -> x ∈ l -> String.le lo x.
Proof.
  destruct l as [|a l]; [done|]. simpl. intros [= <-] Hx.
  apply fold_min_le. apply elem_of_cons in Hx. tauto.
Qed.

Lemma py_min_elem_of (l : list string) (x : string) :
  py_min l = Some x -> x ∈ l.
Proof.
  destruct l as [|a l]; [done|]. simpl. intros [= <-].
  revert a. induction l as [|b l IH]; intros a; simpl.
  - apply list_elem_of_here.
  - specialize (IH (if String.ltb b a then b else a)).
    apply elem_of_cons in IH as [->|IH].
    + destruct (String.ltb b a).
      * apply list_elem_of_further, list_elem_of_here.
      * apply list_elem_of_here.
    + by do 2 apply list_elem_of_further.
Qed.

Lemma fold_max_sorted (l : list string) (a : string) :
  StronglySorted String.le (a :: l) ->
  fold_left (fun a b => if String.ltb a b then b else a) l a
  = default a (last l).
Proof.
  revert a. induction l as [|b l IH]; intros a Hs; [done|].
  apply StronglySorted_inv in Hs as [Hs Hall]. simpl.
  assert (Hab : String.le a b) by (by inversion Hall).
  assert (Hstep : (if String.ltb a b then b else a) = b).
  { destruct (String.ltb a b) eqn:E; [done|]. by apply ltb_false_le_eq. }
  rewrite Hstep, (IH b Hs), (last_cons b l). by destruct (last l).
Qed.

Lemma py_max_sorted (l : list string) :
  Sorted String.le l -> py_max l = last l.
Proof.
  intros Hs. apply Sorted_StronglySorted in Hs; [|apply _].
  destruct l as [|a l]; [done|]. simpl.
  rewrite (fold_max_sorted l a Hs), (last_cons a l). by destruct (last l).
Qed.

(** ** The mask of in-range dates *)

Lemma masked_cons {A} (x : A) (xs : list A) (b : bool) (mask : list bool) :
  masked (x :: xs) (b :: mask) = if b then x :: masked xs mask else masked xs mask.
Proof. unfold masked. simpl. by destruct b. Qed.

(** ** The series handed to the forecaster *)

(** The dates of [daily_registrations_to_line_data] are sorted as text and
    paired one to one with the counts: the series the forecaster receives
    meets the hypotheses made on it below. *)
Lemma line_data_sorted (combined : gmap string Z) :
  Sorted String.le (daily_registrations_to_line_data combined).1 /\
  length (daily_registrations_to_line_data combined).2
  = length (daily_registrations_to_line_data combined).1.
Proof.
  unfold daily_registrations_to_line_data. simpl. split.
  - apply (Sorted_fmap fst (fun a b : string * Z => String.le a.1 b.1)); [done|].
    apply Sorted_merge_sort. intros a b. apply (total String.le).
  - by rewrite !length_fmap.
Qed.

Lemma line_data_keys (combined : gmap string Z) (d : string) :
  d ∈ (daily_registrations_to_line_data combined).1 <-> d ∈ dom combined.
Proof.
  unfold daily_registrations_to_line_data. simpl.
  rewrite merge_sort_Permutation, elem_of_dom, list_elem_of_fmap. split.
  - intros ([k v] & -> & Hin). apply elem_of_map_to_list in Hin. by eexists.
  - intros [v Hv]. exists (d, v). split; [done|]. by apply elem_of_map_to_list.
Qed.

(** ** The block with its exceptions *)

Lemma float_limit_pos : 0 < float_limit.
Proof. reflexivity. Qed.

Lemma true_div_fits (a b : Z) :
  0 < b -> Z.abs a < float_limit * b ->
  true_div a (Z.to_pos b) = Ok (py_div a b).
Proof.
  intros Hb Hlt. unfold true_div. rewrite Z2Pos.id by exact Hb.
  by rewrite (proj2 (Z.leb_gt (float_limit * b) (Z.abs a)) Hlt).
Qed.

Lemma true_div_overflow (a b : Z) :
  0 < b -> float_limit * b <= Z.abs a ->
  true_div a (Z.to_pos b) = Raise OverflowError.
Proof.
  intros Hb Hle. unfold true_div. rewrite Z2Pos.id by exact Hb.
  by rewrite (proj2 (Z.leb_le (float_limit * b) (Z.abs a)) Hle).
Qed.

Lemma true_div_value (a b : Z) (q : Qc) :
  0 < b -> true_div a (Z.to_pos b) = Ok q -> q = py_div a b.
Proof.
  intros Hb. unfold true_div. rewrite Z2Pos.id by exact Hb.
  destruct (float_limit * b <=? Z.abs a); [done|]. by intros [= <-].
Qed.

Lemma mapM_Forall2 {A B} (f : A -> res B) (l : list A) (ys : list B) :
  Forall2 (fun x y => f x = Ok y) l ys -> mapM f l = Ok ys.
Proof.
  induction 1 as [|x y l ys Hx _ IH]; [done|].
  cbn [mapM]. rewrite Hx. cbn [bind]. by rewrite IH.
Qed.

Lemma masked_elem_of {A} (xs : list A) (mask : list bool) (x : A) :
  x ∈ masked xs mask -> x ∈ xs.
Proof.
  revert mask. induction xs as [|a xs IH]; intros [|b mask];
    try (by intros ?%elem_of_nil).
  rewrite masked_cons. destruct b.
  - intros [->|Hin]%elem_of_cons; [apply list_elem_of_here|].
    apply list_elem_of_further. by apply (IH mask).
  - intros Hin. apply list_elem_of_further. by apply (IH mask).
Qed.

Lemma Sorted_masked (dates : list string) (mask : list bool) :
  Sorted String.le dates -> Sorted String.le (masked dates mask).
Proof.
  intros Hs. apply Sorted_StronglySorted in Hs; [|apply _].
  apply StronglySorted_Sorted. revert mask.
  induction Hs as [|a l Hs IH Hall]; intros [|b mask]; try constructor.
  rewrite masked_cons. destruct b; [|apply IH].
  constructor; [apply IH|].
  apply Forall_forall. intros x Hx%masked_elem_of.
  by apply (proj1 (Forall_forall _ _) Hall).
Qed.

Lemma masked_existsb {A} (xs : list A) (mask : list bool) :
  masked xs mask <> [] -> existsb id mask = true.
Proof.
  revert mask. induction xs as [|a xs IH]; intros [|b mask]; try done.
  rewrite masked_cons. destruct b; [done|]. simpl. apply IH.
Qed.

Section BlockFacts.

Context {stamp : Type}.
Variable to_datetime : bool -> string -> res (option stamp).
Variable normalized : stamp -> res stamp.
Variable days_between : stamp -> stamp -> res Z.
Variable on_or_before : stamp -> stamp -> res bool.

Local Abbreviation window :=
  (window_block to_datetime normalized days_between).
Local Abbreviation span := (span_block to_datetime days_between).
Local Abbreviation pace :=
  (pace_block to_datetime normalized days_between on_or_before).
Local Abbreviation block :=
  (forecast_block to_datetime normalized days_between on_or_before).

(** The fields of a forecast the block returns are what its three parts
    gave, and the block returns when the two parts outside the [try]
    do. *)
Lemma forecast_block_fields (reg_target : Z) (start_val end_val : option string)
    (dates : list string) (counts : list Z) (f : forecast) :
  block reg_target start_val end_val dates counts = Ok f ->
  exists avg0 sheet_days end_dt req total days_left,
    window reg_target start_val end_val = Ok (avg0, sheet_days, end_dt) /\
    pace reg_target dates counts (span reg_target dates avg0 sheet_days).1 end_dt
    = Ok (req, total, days_left) /\
    f = {| average_daily := (span reg_target dates avg0 sheet_days).1;
           days_from_sheet := sheet_days;
           span_days := (span reg_target dates avg0 sheet_days).2;
           required_daily_avg := req;
           total_so_far_used := total;
           days_remaining_used := days_left |}.
Proof.
  unfold forecast_block.
  destruct (window reg_target start_val end_val)
    as [[[avg0 sheet_days] end_dt]|e] eqn:Hw; cbn [bind fst snd];
    [|by intros [=]].
  destruct (pace _ _ _ _ _) as [[[req total] days_left]|e] eqn:Hp;
    cbn [bind fst snd]; [|by intros [=]].
  intros [= <-]. by eexists _, _, _, _, _, _.
Qed.

Lemma forecast_block_returns (reg_target : Z) (start_val end_val : option string)
    (dates : list string) (counts : list Z) (avg0 : option Qc)
    (sheet_days : option Z) (end_dt : option (option stamp))
    (req : option Qc) (total days_left : option Z) :
  window reg_target start_val end_val = Ok (avg0, sheet_days, end_dt) ->
  pace reg_target dates counts (span reg_target dates avg0 sheet_days).1 end_dt
  = Ok (req, total, days_left) ->
  block reg_target start_val end_val dates counts
  = Ok {| average_daily := (span reg_target dates avg0 sheet_days).1;
          days_from_sheet := sheet_days;
          span_days := (span reg_target dates avg0 sheet_days).2;
          required_daily_avg := req;
          total_so_far_used := total;
          days_remaining_used := days_left |}.
Proof.
  intros Hw Hp. unfold forecast_block. rewrite Hw. cbn [bind fst snd].
  by rewrite Hp.
Qed.

(** The average the window part leaves is determined by its day count. *)
Lemma window_block_days (reg_target : Z) (start_val end_val : option string)
    (avg0 : option Qc) (sheet_days : option Z) (end_dt : option (option stamp)) :
  window reg_target start_val end_val = Ok (avg0, sheet_days, end_dt) ->
  avg0 = match sheet_days with
         | Some n => if 1 <? n then Some (py_div reg_target n) else None
         | None => None
         end.
Proof.
  unfold window_block. destruct (reg_target =? 0); [by intros [= <- <- <-]|].
  destruct start_val as [sv|], end_val as [ev|]; try by intros [= <- <- <-].
  destruct (to_datetime true sv) as [s|]; [|done]. cbn [bind].
  destruct (to_datetime true ev) as [e|]; [|done]. cbn [bind].
  destruct (normalize_opt normalized s) as [s'|]; [|done]. cbn [bind].
  destruct (normalize_opt normalized e) as [e'|]; [|done]. cbn [bind].
  destruct s' as [s'|], e' as [e'|]; try by intros [= <- <- <-].
  destruct (days_between e' s') as [raw|]; [|done]. cbn [bind].
  destruct (1 <? Z.max 1 (raw + 1)) eqn:Hdays.
  - destruct (true_div _ _) as [q|] eqn:Hq; [|done]. cbn [bind].
    intros [= <- <- <-]. rewrite Hdays. f_equal.
    apply true_div_value in Hq; [done|lia].
  - intros [= <- <- <-]. by rewrite Hdays.
Qed.

(** The chart span never replaces an average that came from a sheet
    window of more than one day. *)
Lemma span_block_keeps (reg_target : Z) (dates : list string) (a : Qc) (d : Z) :
  1 < d -> (span reg_target dates (Some a) (Some d)).1 = Some a.
Proof.
  intros Hd. unfold span_block.
  destruct (reg_target =? 0); [done|].
  destruct (py_min dates) as [lo|], (py_max dates) as [hi|]; try done.
  destruct (span_of _ _ lo hi) as [[n|]|]; try done.
  by rewrite (proj2 (Z.leb_gt d 1) Hd).
Qed.

(** X30. The window of the sheet when its calls return: with a positive
    target and start and end cells that both read as dates (the reader
    being asked to read day first), the inclusive day count is the whole
    days from the start date to the end date plus one, floored at 1, and
    when it exceeds 1 and the quotient fits a double the full-period
    average is the target divided by it; the chart span does not replace
    that average. *)
Theorem window_block_average (reg_target : Z) (sv ev : string)
    (s e s' e' : stamp) (raw_days : Z) :
  0 < reg_target ->
  to_datetime true sv = Ok (Some s) ->
  to_datetime true ev = Ok (Some e) ->
  normalized s = Ok s' ->
  normalized e = Ok e' ->
  days_between e' s' = Ok raw_days ->
  let days := Z.max 1 (raw_days + 1) in
  reg_target < float_limit * days ->
  window reg_target (Some sv) (Some ev)
  = Ok ((if 1 <? days then Some (py_div reg_target days) else None),
        Some days, Some (Some e')) /\
  forall dates counts f,
    block reg_target (Some sv) (Some ev) dates counts = Ok f ->
    days_from_sheet f = Some days /\
    (1 < days -> average_daily f = Some (py_div reg_target days)).
Proof.
  intros Hpos Hs He Hs' He' Hraw days Hfit.
  assert (Hw : window reg_target (Some sv) (Some ev)
               = Ok ((if 1 <? days then Some (py_div reg_target days) else None),
                     Some days, Some (Some e'))).
  { unfold window_block. rewrite (proj2 (Z.eqb_neq reg_target 0)) by lia.
    rewrite Hs, He. cbn [bind normalize_opt]. rewrite Hs', He'. cbn [bind].
    rewrite Hraw. cbn [bind]. fold days.
    destruct (1 <? days) eqn:Hdays; [|done].
    apply Z.ltb_lt in Hdays.
    rewrite true_div_fits by (rewrite ?Z.abs_eq; lia). done. }
  split; [exact Hw|]. intros dates counts f Hf.
  apply forecast_block_fields in Hf
    as (avg0 & sheet_days & end_dt & req & total & days_left & Hw' & _ & ->).
  rewrite Hw in Hw'. injection Hw' as <- <- <-. cbn [days_from_sheet average_daily].
  split; [done|]. intros Hgt.
  rewrite (proj2 (Z.ltb_lt 1 days) Hgt). by apply span_block_keeps.
Qed.

Lemma span_of_no_span (lo hi : string) :
  no_span to_datetime days_between lo hi ->
  span_of to_datetime days_between lo hi = Ok None \/
  exists e, span_of to_datetime days_between lo hi = Raise e.
Proof.
  unfold span_of.
  intros [Hlo|[Hhi|[[e Hlo]|[[e Hhi]|(a & b & e & Hlo & Hhi & Hsub)]]]].
  - rewrite Hlo. cbn [bind].
    destruct (to_datetime false hi) as [max_d|e]; cbn [bind]; [by left|].
    right. by exists e.
  - rewrite Hhi.
    destruct (to_datetime false lo) as [min_d|e]; cbn [bind].
    + left. by destruct min_d.
    + right. by exists e.
  - rewrite Hlo. right. by exists e.
  - rewrite Hhi.
    destruct (to_datetime false lo) as [min_d|e']; cbn [bind]; right; by eexists.
  - rewrite Hlo, Hhi. cbn [bind]. rewrite Hsub. right. by exists e.
Qed.

(** C5, as amended.  With a positive target and a non-empty series, the
    chart span is taken between the smallest and the largest key of the
    series in text order.  When both read as dates and their difference in
    whole days is obtained, the span is that difference plus one, floored
    at 1; if the sheet gave no window or a window of one day, the
    full-period average is the target divided by the span when the
    quotient fits a double and there is none when it does not; the two
    keys are the earliest and the latest date of the series when the text
    order of the keys agrees with the order of their dates.  When one of
    the two keys reads as no date, or reading or subtracting them raises,
    there is no span and the series gives no average.  A sheet window of
    more than one day keeps its own average in every case. *)
Theorem chart_span_from_end_keys (reg_target : Z)
    (start_val end_val : option string) (dates : list string)
    (avg0 : option Qc) (sheet_days : option Z)
    (end_dt : option (option stamp)) (lo hi : string) :
  0 < reg_target ->
  py_min dates = Some lo ->
  py_max dates = Some hi ->
  window reg_target start_val end_val = Ok (avg0, sheet_days, end_dt) ->
  let r := span reg_target dates avg0 sheet_days in
  (forall min_d max_d d,
      key_stamp to_datetime lo min_d ->
      key_stamp to_datetime hi max_d ->
      days_between max_d min_d = Ok d ->
      let days := Z.max 1 (d + 1) in
      r.2 = Some days /\
      (no_window sheet_days ->
       (reg_target < float_limit * days ->
        r.1 = Some (py_div reg_target days)) /\
       (float_limit * days <= reg_target -> r.1 = None)) /\
      (in_date_order on_or_before (key_stamp to_datetime) dates ->
       forall k t, k ∈ dates -> key_stamp to_datetime k t ->
         on_or_before min_d t = Ok true /\ on_or_before t max_d = Ok true)) /\
  (no_span to_datetime days_between lo hi ->
   r.2 = None /\ (no_window sheet_days -> r.1 = None)) /\
  (forall n, sheet_days = Some n -> 1 < n ->
     r.1 = Some (py_div reg_target n)) /\
  (forall counts f,
      block reg_target start_val end_val dates counts = Ok f ->
      days_from_sheet f = sheet_days /\
      average_daily f = r.1 /\
      span_days f = r.2).
Proof.
  intros Hpos Hlo Hhi Hw r.
  pose proof (window_block_days _ _ _ _ _ _ Hw) as Havg0.
  assert (Hnone : no_window sheet_days -> avg0 = None).
  { intros [->|(n & -> & Hn)]; [done|].
    by rewrite Havg0, (proj2 (Z.ltb_ge 1 n) Hn). }
  assert (Hr : r = span reg_target dates avg0 sheet_days) by done.
  unfold span_block in Hr.
  rewrite (proj2 (Z.eqb_neq reg_target 0)), Hlo, Hhi in Hr by lia.
  split; [|split; [|split]].
  - intros min_d max_d d Hmin Hmax Hd days.
    unfold key_stamp in Hmin, Hmax.
    unfold span_of in Hr. rewrite Hmin, Hmax in Hr. cbn [bind] in Hr.
    rewrite Hd in Hr. cbn [bind] in Hr. fold days in Hr.
    split; [|split].
    + rewrite Hr. by repeat case_match.
    + intros Hno. rewrite (Hnone Hno) in Hr. split.
      * intros Hfit. rewrite true_div_fits in Hr
          by (rewrite ?Z.abs_eq; unfold days in *; lia).
        by rewrite Hr.
      * intros Hbig. rewrite true_div_overflow in Hr
          by (rewrite ?Z.abs_eq; unfold days in *; lia).
        by rewrite Hr.
    + intros Horder k t Hk Ht. split.
      * apply (Horder lo k); try done.
        -- by apply py_min_elem_of.
        -- by apply (py_min_le dates).
      * apply (Horder k hi); try done.
        -- by apply py_max_elem_of.
        -- by apply (py_max_ge dates).
  - intros Hno.
    destruct (span_of_no_span lo hi Hno) as [Hs|[e Hs]]; rewrite Hs in Hr;
      rewrite Hr; (split; [done|]); intros Hwin; exact (Hnone Hwin).
  - intros n -> Hn. rewrite (proj2 (Z.ltb_lt 1 n) Hn) in Havg0.
    subst avg0. by apply span_block_keeps.
  - intros counts f Hf.
    apply forecast_block_fields in Hf
      as (avg0' & sheet_days' & end_dt' & req & total & days_left & Hw' & _ & ->).
    rewrite Hw in Hw'. by injection Hw' as <- <- <-.
Qed.

Lemma mask_entry_reading (end_ts : stamp) (d : string) (m : bool) :
  key_reading to_datetime normalized on_or_before end_ts d m ->
  mask_entry to_datetime normalized on_or_before (Some end_ts) d = Ok m.
Proof.
  unfold mask_entry. intros [[Hd ->]|(t & (t0 & Hd & Ht) & Hle)]; rewrite Hd.
  - done.
  - cbn [bind normalize_opt]. by rewrite Ht.
Qed.

(** The required-pace part when its calls return (lines 626-654). *)
Lemma pace_block_returns (reg_target : Z) (dates : list string)
    (counts : list Z) (average : option Qc) (end_dt end_ts : stamp)
    (mask : list bool) (last_key : string) (last_date : stamp)
    (days_remaining : Z) :
  reg_target <> 0 ->
  length counts = length dates ->
  normalized end_dt = Ok end_ts ->
  Forall2 (key_reading to_datetime normalized on_or_before end_ts) dates mask ->
  py_max (masked dates mask) = Some last_key ->
  key_date to_datetime normalized last_key last_date ->
  days_between end_ts last_date = Ok days_remaining ->
  let total_so_far := sum_Z (masked counts mask) in
  let remaining_target := Z.max 0 (reg_target - total_so_far) in
  (0 < days_remaining -> remaining_target < float_limit * days_remaining) ->
  pace reg_target dates counts average (Some (Some end_dt))
  = Ok (if 0 <? days_remaining
        then (Some (py_div remaining_target days_remaining),
              Some total_so_far, Some days_remaining)
        else match average with
             | Some a => (Some a, Some total_so_far, Some 0)
             | None => (None, None, None)
             end).
Proof.
  intros Hne Hlen Hend Hmask Hmax Hkey Hdays total_so_far remaining_target Hfit.
  assert (Hin : masked dates mask <> [])
    by (intros Hnil; by rewrite Hnil in Hmax).
  unfold pace_block.
  destruct dates as [|d0 ds]; [done|].
  destruct counts as [|c0 cs]; [done|].
  rewrite (proj2 (Z.eqb_neq reg_target 0)) by exact Hne.
  cbn [normalize_opt bind]. rewrite Hend. cbn [bind].
  rewrite (mapM_Forall2 _ _ mask)
    by (eapply Forall2_impl; [exact Hmask|]; intros d m;
        apply mask_entry_reading).
  cbn [bind]. rewrite (masked_existsb _ _ Hin), Hmax.
  destruct Hkey as (t0 & Ht0 & Hnorm). rewrite Ht0. cbn [bind normalize_opt].
  rewrite Hnorm. cbn [bind]. rewrite Hdays. cbn [bind].
  fold total_so_far. fold remaining_target.
  destruct (0 <? days_remaining) eqn:Hgt; [|by destruct average].
  apply Z.ltb_lt in Hgt.
  rewrite true_div_fits
    by (try rewrite Z.abs_eq by (unfold remaining_target; lia);
        (done || by apply Hfit)).
  done.
Qed.

(** C1, as amended.  For a positive target, an end date resolved from the
    sheet, and a sorted series of which every key reads as no date or as a
    date that is compared with the end date, with at least one key on or
    before it: the block returns; the total so far is the sum of the
    counts of the keys on or before the end date, the remaining target is
    the target minus that total, floored at 0, and the days remaining are
    the whole days from the date of the last such key of the series to the
    end date.  With days remaining, and a quotient that fits a double, the
    required average is the remaining target divided by them; with none,
    the required average is the full-period average when there is one, and
    nothing is produced when there is none.  The last key in range is the
    largest one in text order; its date is the latest date in range when
    the text order of the keys agrees with the order of their dates. *)
Theorem required_pace_from_last_key (reg_target : Z)
    (start_val end_val : option string) (dates : list string)
    (counts : list Z) (avg0 : option Qc) (sheet_days : option Z)
    (end_dt end_ts : stamp) (mask : list bool) (last_key : string)
    (last_date : stamp) (days_remaining : Z) :
  0 < reg_target ->
  Sorted String.le dates ->
  length counts = length dates ->
  window reg_target start_val end_val = Ok (avg0, sheet_days, Some (Some end_dt)) ->
  normalized end_dt = Ok end_ts ->
  Forall2 (key_reading to_datetime normalized on_or_before end_ts) dates mask ->
  last (masked dates mask) = Some last_key ->
  key_date to_datetime normalized last_key last_date ->
  days_between end_ts last_date = Ok days_remaining ->
  let total_so_far := sum_Z (masked counts mask) in
  let remaining_target := Z.max 0 (reg_target - total_so_far) in
  (0 < days_remaining -> remaining_target < float_limit * days_remaining) ->
  exists f,
    block reg_target start_val end_val dates counts = Ok f /\
    (0 < days_remaining ->
     required_daily_avg f = Some (py_div remaining_target days_remaining) /\
     total_so_far_used f = Some total_so_far /\
     days_remaining_used f = Some days_remaining) /\
    (days_remaining <= 0 -> forall a, average_daily f = Some a ->
     required_daily_avg f = Some a /\
     total_so_far_used f = Some total_so_far /\
     days_remaining_used f = Some 0) /\
    (days_remaining <= 0 -> average_daily f = None ->
     required_daily_avg f = None /\
     total_so_far_used f = None /\
     days_remaining_used f = None) /\
    py_max (masked dates mask) = Some last_key /\
    (in_date_order on_or_before (key_date to_datetime normalized)
       (masked dates mask) ->
     forall k t, k ∈ masked dates mask ->
       key_date to_datetime normalized k t ->
       on_or_before t last_date = Ok true).
Proof.
  intros Hpos Hsorted Hlen Hw Hend Hmask Hlast Hkey Hdays total_so_far
    remaining_target Hfit.
  assert (Hmax : py_max (masked dates mask) = Some last_key).
  { by rewrite (py_max_sorted _ (Sorted_masked dates mask Hsorted)). }
  pose proof (pace_block_returns reg_target dates counts
                (span reg_target dates avg0 sheet_days).1 end_dt end_ts mask
                last_key last_date days_remaining ltac:(lia) Hlen Hend Hmask
                Hmax Hkey Hdays Hfit) as Hp.
  fold total_so_far remaining_target in Hp.
  match type of Hp with
  | _ = Ok ?x => destruct x as [[req total] days_left] eqn:Hr
  end.
  eexists. split; [exact (forecast_block_returns _ _ _ _ _ _ _ _ _ _ _ Hw Hp)|].
  cbn [average_daily required_daily_avg total_so_far_used days_remaining_used].
  split; [|split; [|split; [|split]]].
  - intros Hgt. rewrite (proj2 (Z.ltb_lt 0 days_remaining) Hgt) in Hr.
    by injection Hr as <- <- <-.
  - intros Hle a Ha. rewrite (proj2 (Z.ltb_ge 0 days_remaining) Hle), Ha in Hr.
    by injection Hr as <- <- <-.
  - intros Hle Ha. rewrite (proj2 (Z.ltb_ge 0 days_remaining) Hle), Ha in Hr.
    by injection Hr as <- <- <-.
  - exact Hmax.
  - intros Horder k t Hk Ht.
    apply (Horder k last_key); try done.
    + by apply py_max_elem_of.
    + by apply (py_max_ge (masked dates mask)).
Qed.

End BlockFacts.

(** *** The block on the timestamps of the worked scenarios *)

(** C4, on two inputs the block can receive.  The start and end cells of
    the specification's scenario read, day first, as 8 January and 22
    February 2026, 46 days; with a target of [10^400] the division of line
    608 raises [OverflowError] and with it the block.  A start cell with a
    time zone, here the ISO timestamp of a [Created At] column, reads as a
    date as well; beside an end cell without time zone the subtraction of
    line 605 raises [TypeError] and with it the block.  In both cases no
    day count and no average is delivered. *)
Theorem explicit_window_raises :
  let dates := ["2026-01-08"; "2026-02-01"] in
  let counts := [1200; 1100] in
  Stamps.to_datetime true "08-01-2026"
  = Ok (Some (Stamps.naive (DateText.midnight 2026 1 8))) /\
  Stamps.to_datetime true "22-02-2026"
  = Ok (Some (Stamps.naive (DateText.midnight 2026 2 22))) /\
  Stamps.days_between (Stamps.naive (DateText.midnight 2026 2 22))
    (Stamps.naive (DateText.midnight 2026 1 8)) = Ok 45 /\
  true_div (10 ^ 400) 46 = Raise OverflowError /\
  scenario_window (10 ^ 400) (Some "08-01-2026") (Some "22-02-2026")
  = Raise OverflowError /\
  scenario_block (10 ^ 400) (Some "08-01-2026") (Some "22-02-2026") dates counts
  = Raise OverflowError /\
  Stamps.to_datetime true "2026-01-08T09:30:00Z"
  = Ok (Some {| Stamps.instant :=
                  DateText.midnight 2026 1 8 + 34200 * 1000000000;
                Stamps.utc_offset := Some 0 |}) /\
  scenario_window 4600 (Some "2026-01-08T09:30:00Z") (Some "22-02-2026")
  = Raise TypeError /\
  scenario_block 4600 (Some "2026-01-08T09:30:00Z") (Some "22-02-2026")
    dates counts
  = Raise TypeError.
Proof. repeat split; vm_compute; reflexivity. Qed.

(** C5, counterexamples.  Four series with a positive target and no sheet
    window, on which the full-period average is not the target divided by
    the span from the earliest to the latest date of the series:
    - a key that is no date is the largest key: no span, no average, though
      the dates of the series span 2 days;
    - the keys [1/2/2026] and [12/25/2025] read as 2 January 2026 and 25
      December 2025, 9 days inclusive, but the smallest key in text order
      is the later date: the span is 1 day and the average the whole
      target;
    - one key with and one without time zone, 25 days apart: both read as
      dates, the subtraction raises inside the [try], no span and no
      average;
    - a target of [10^400]: the span is 25 days, the division raises
      inside the [try], no average. *)
Lemma chart_span_not_date_span :
  (let dates := ["2026-01-08"; "2026-01-09"; "unknown"] in
   py_max dates = Some "unknown" /\
   Stamps.to_datetime false "unknown" = Ok None /\
   exists f, scenario_block 4600 None None dates [10; 20; 5] = Ok f /\
             span_days f = None /\ average_daily f = None) /\
  (let dates := ["1/2/2026"; "12/25/2025"] in
   let jan2 := Stamps.naive (DateText.midnight 2026 1 2) in
   let dec25 := Stamps.naive (DateText.midnight 2025 12 25) in
   Sorted String.le dates /\
   py_min dates = Some "1/2/2026" /\
   py_max dates = Some "12/25/2025" /\
   Stamps.to_datetime false "1/2/2026" = Ok (Some jan2) /\
   Stamps.to_datetime false "12/25/2025" = Ok (Some dec25) /\
   Stamps.days_between jan2 dec25 = Ok 8 /\
   exists f, scenario_block 4600 None None dates [2300; 100] = Ok f /\
             span_days f = Some 1 /\
             average_daily f = Some (py_div 4600 1) /\
             average_daily f <> Some (py_div 4600 9)) /\
  (let dates := ["2026-01-08"; "2026-02-01T00:00:00Z"] in
   let jan8 := Stamps.naive (DateText.midnight 2026 1 8) in
   let feb1 := {| Stamps.instant := DateText.midnight 2026 2 1;
                  Stamps.utc_offset := Some 0 |} in
   py_min dates = Some "2026-01-08" /\
   py_max dates = Some "2026-02-01T00:00:00Z" /\
   Stamps.to_datetime false "2026-01-08" = Ok (Some jan8) /\
   Stamps.to_datetime false "2026-02-01T00:00:00Z" = Ok (Some feb1) /\
   Stamps.days_between feb1 jan8 = Raise TypeError /\
   exists f, scenario_block 4600 None None dates [2300; 100] = Ok f /\
             span_days f = None /\ average_daily f = None) /\
  (let dates := ["2026-01-08"; "2026-02-01"] in
   exists f, scenario_block (10 ^ 400) None None dates [2300; 100] = Ok f /\
             span_days f = Some 25 /\ average_daily f = None).
Proof.
  split; [|split; [|split]].
  - intros dates. do 2 (split; [reflexivity|]).
    eexists. split; [vm_compute; reflexivity|]. by split.
  - intros dates jan2 dec25. split; [repeat constructor|].
    do 5 (split; [reflexivity|]).
    eexists. split; [vm_compute; reflexivity|].
    split; [reflexivity|]. split; [reflexivity|].
    cbn [average_daily]. by intros [=].
  - intros dates jan8 feb1. do 5 (split; [reflexivity|]).
    eexists. split; [vm_compute; reflexivity|]. by split.
  - intros dates. eexists. split; [vm_compute; reflexivity|]. by split.
Qed.

Lemma chart_span_from_end_keys_witness :
  let dates := ["2026-01-08"; "2026-01-20"; "2026-02-01"] in
  let jan8 := Stamps.naive (DateText.midnight 2026 1 8) in
  let feb1 := Stamps.naive (DateText.midnight 2026 2 1) in
  0 < 2500 /\
  py_min dates = Some "2026-01-08" /\
  py_max dates = Some "2026-02-01" /\
  scenario_window 2500 (Some "08-01-2026") (Some "08-01-2026")
  = Ok (None, Some 1, Some (Some jan8)) /\
  key_stamp Stamps.to_datetime "2026-01-08" jan8 /\
  key_stamp Stamps.to_datetime "2026-02-01" feb1 /\
  Stamps.days_between feb1 jan8 = Ok 24 /\
  no_window (Some 1) /\
  2500 < float_limit * 25 /\
  (scenario_span 2500 dates None (Some 1)).2 = Some 25 /\
  (scenario_span 2500 dates None (Some 1)).1 = Some (Qc_of_Z 100).
Proof.
  intros dates jan8 feb1.
  assert (Hw : scenario_window 2500 (Some "08-01-2026") (Some "08-01-2026")
               = Ok (None, Some 1, Some (Some jan8))) by reflexivity.
  assert (Hno : no_window (Some 1)) by (right; exists 1; split; [done|lia]).
  assert (Hfit : 2500 < float_limit * 25) by reflexivity.
  destruct (chart_span_from_end_keys Stamps.to_datetime Stamps.normalized
              Stamps.days_between Stamps.on_or_before 2500
              (Some "08-01-2026") (Some "08-01-2026") dates None (Some 1)
              (Some (Some jan8)) "2026-01-08" "2026-02-01"
              eq_refl eq_refl eq_refl Hw) as (Hread & _).
  destruct (Hread jan8 feb1 24 eq_refl eq_refl eq_refl) as (Hspan & Havg & _).
  change (Z.max 1 (24 + 1)) with 25 in Hspan, Havg.
  do 3 (split; [reflexivity|]). split; [exact Hw|].
  do 3 (split; [reflexivity|]). split; [exact Hno|]. split; [exact Hfit|].
  split; [exact Hspan|].
  rewrite (proj1 (Havg Hno) Hfit). f_equal.
  exact (py_div_exact 100 25 ltac:(lia)).
Defined.

(** C1, counterexamples.  In the first series, sorted as the block
    receives it, the keys [1/2/2026] and [12/25/2025] read as 2 January
    2026 and 25 December 2025, both on or before the end date, 22 February
    2026.  The last date in range is 2 January, 51 days before the end
    date; the block takes the last key, 25 December, and counts 59 days
    remaining.  In the second series a key carries a time zone and the end
    date none: the comparison of line 636 raises [TypeError] and with it
    the block. *)
Lemma last_key_not_latest_date :
  (let dates := ["1/2/2026"; "12/25/2025"] in
   let jan2 := Stamps.naive (DateText.midnight 2026 1 2) in
   let dec25 := Stamps.naive (DateText.midnight 2025 12 25) in
   let feb22 := Stamps.naive (DateText.midnight 2026 2 22) in
   Sorted String.le dates /\
   Stamps.to_datetime true "22-02-2026" = Ok (Some feb22) /\
   key_date Stamps.to_datetime Stamps.normalized "1/2/2026" jan2 /\
   key_date Stamps.to_datetime Stamps.normalized "12/25/2025" dec25 /\
   Stamps.on_or_before jan2 feb22 = Ok true /\
   Stamps.on_or_before dec25 feb22 = Ok true /\
   Stamps.on_or_before jan2 dec25 = Ok false /\
   Stamps.days_between feb22 jan2 = Ok 51 /\
   exists f,
     scenario_block 4600 (Some "01-12-2025") (Some "22-02-2026") dates [2300; 100]
     = Ok f /\
     total_so_far_used f = Some 2400 /\
     days_remaining_used f = Some 59 /\
     required_daily_avg f = Some (py_div (4600 - 2400) 59) /\
     required_daily_avg f <> Some (py_div (4600 - 2400) 51)) /\
  (let dates := ["2026-01-08"; "2026-02-01T00:00:00Z"] in
   let feb1 := {| Stamps.instant := DateText.midnight 2026 2 1;
                  Stamps.utc_offset := Some 0 |} in
   let feb22 := Stamps.naive (DateText.midnight 2026 2 22) in
   Sorted String.le dates /\
   Stamps.to_datetime true "22-02-2026" = Ok (Some feb22) /\
   key_date Stamps.to_datetime Stamps.normalized "2026-02-01T00:00:00Z" feb1 /\
   Stamps.on_or_before feb1 feb22 = Raise TypeError /\
   scenario_block 4600 (Some "08-01-2026") (Some "22-02-2026") dates [1200; 1100]
   = Raise TypeError).
Proof.
  split.
  - intros dates jan2 dec25 feb22. split; [repeat constructor|].
    split; [reflexivity|].
    split; [by eexists|]. split; [by eexists|].
    do 4 (split; [reflexivity|]).
    eexists. split; [vm_compute; reflexivity|].
    do 3 (split; [reflexivity|]).
    cbn [required_daily_avg]. by intros [=].
  - intros dates feb1 feb22. split; [repeat constructor|].
    split; [reflexivity|]. split; [by eexists|].
    split; vm_compute; reflexivity.
Qed.

Lemma required_pace_from_last_key_witness :
  let dates := ["2026-01-08"; "2026-02-01"] in
  let counts := [1200; 1100] in
  let feb1 := Stamps.naive (DateText.midnight 2026 2 1) in
  let feb22 := Stamps.naive (DateText.midnight 2026 2 22) in
  0 < 4600 /\
  Sorted String.le dates /\
  length counts = length dates /\
  scenario_window 4600 (Some "08-01-2026") (Some "22-02-2026")
  = Ok (Some (py_div 4600 46), Some 46, Some (Some feb22)) /\
  Stamps.normalized feb22 = Ok feb22 /\
  Forall2 (key_reading Stamps.to_datetime Stamps.normalized
             Stamps.on_or_before feb22) dates [true; true] /\
  last (masked dates [true; true]) = Some "2026-02-01" /\
  key_date Stamps.to_datetime Stamps.normalized "2026-02-01" feb1 /\
  Stamps.days_between feb22 feb1 = Ok 21 /\
  sum_Z (masked counts [true; true]) = 2300 /\
  exists f,
    scenario_block 4600 (Some "08-01-2026") (Some "22-02-2026") dates counts
    = Ok f /\
    required_daily_avg f = Some (py_div (4600 - 2300) 21) /\
    total_so_far_used f = Some 2300 /\
    days_remaining_used f = Some 21.
Proof.
  intros dates counts feb1 feb22.
  assert (Hsorted : Sorted String.le dates) by (repeat constructor).
  assert (Hw : scenario_window 4600 (Some "08-01-2026") (Some "22-02-2026")
               = Ok (Some (py_div 4600 46), Some 46, Some (Some feb22)))
    by (vm_compute; reflexivity).
  assert (Hmask : Forall2 (key_reading Stamps.to_datetime Stamps.normalized
                             Stamps.on_or_before feb22) dates [true; true]).
  { constructor; [|constructor; [|constructor]];
      right; eexists; (split; [by eexists|reflexivity]). }
  assert (Hkey : key_date Stamps.to_datetime Stamps.normalized "2026-02-01" feb1)
    by (by eexists).
  assert (Hfit : 0 < 21 ->
                 Z.max 0 (4600 - sum_Z (masked counts [true; true]))
                 < float_limit * 21) by (intros _; reflexivity).
  destruct (required_pace_from_last_key Stamps.to_datetime Stamps.normalized
              Stamps.days_between Stamps.on_or_before 4600
              (Some "08-01-2026") (Some "22-02-2026") dates counts
              (Some (py_div 4600 46)) (Some 46) feb22 feb22 [true; true]
              "2026-02-01" feb1 21
              eq_refl Hsorted eq_refl Hw eq_refl Hmask eq_refl Hkey eq_refl Hfit)
    as (f & Hf & Hpace & _).
  change (sum_Z (masked counts [true; true])) with 2300 in Hpace.
  change (Z.max 0 (4600 - 2300)) with (4600 - 2300) in Hpace.
  split; [reflexivity|]. split; [exact Hsorted|]. split; [reflexivity|].
  split; [exact Hw|]. split; [reflexivity|]. split; [exact Hmask|].
  split; [reflexivity|]. split; [exact Hkey|]. do 2 (split; [reflexivity|]).
  exists f. split; [exact Hf|]. exact (Hpace eq_refl).
Defined.

(** The scenario in which the period has ended: the last key is the end
    date, no day remains, and the required average is the full-period
    average of 100 a day. *)
Example period_ended_scenario :
  exists f,
    scenario_block 4600 (Some "08-01-2026") (Some "22-02-2026")
      ["2026-01-08"; "2026-02-22"] [2000; 1500] = Ok f /\
    days_remaining_used f = Some 0 /\
    total_so_far_used f = Some 3500 /\
    required_daily_avg f = average_daily f /\
    average_daily f = Some (py_div 4600 46).
Proof. eexists. split; [vm_compute; reflexivity|]. by repeat split. Qed.

(** *** The two embeddings of the block agree

    On timestamps without time zone no call raises but the divisions, and
    these return when the target is below the limit of a double and no
    count is negative: then the block returns the record of
    [pace_forecast]. *)

Section PlainBlock.

Variable to_datetime : bool -> string -> option Z.

Local Abbreviation read := (fun flag text => Ok (to_datetime flag text)).
Local Abbreviation norm := (fun t : Z => Ok (normalize t)).
Local Abbreviation days := (fun a b : Z => Ok (delta_days a b)).
Local Abbreviation before := (fun a b : Z => Ok (a <=? b)).

Lemma true_div_small (a b : Z) :
  Z.abs a < float_limit -> 1 <= b -> true_div a (Z.to_pos b) = Ok (py_div a b).
Proof.
  intros Ha Hb. apply true_div_fits; [lia|].
  pose proof float_limit_pos. nia.
Qed.

Lemma normalize_opt_plain (t : option Z) :
  normalize_opt norm t = Ok (normalize <$> t).
Proof. by destruct t. Qed.

Lemma window_block_values (reg_target : Z) (start_val end_val : option string) :
  Z.abs reg_target < float_limit ->
  window_block read norm days reg_target start_val end_val
  = Ok (sheet_window to_datetime reg_target start_val end_val).
Proof.
  intros Hsmall. unfold window_block, sheet_window.
  destruct (reg_target =? 0); [done|].
  destruct start_val as [sv|], end_val as [ev|]; try done.
  cbn [bind]. rewrite !normalize_opt_plain. cbn [bind].
  destruct (to_datetime true sv) as [s|], (to_datetime true ev) as [e|];
    try done.
  cbn [fmap option_fmap option_map bind].
  destruct (1 <? Z.max 1 (delta_days (normalize e) (normalize s) + 1)) eqn:Hd;
    [|done].
  by rewrite true_div_small by lia.
Qed.

Lemma span_block_values (reg_target : Z) (dates : list string)
    (average : option Qc) (sheet_days : option Z) :
  Z.abs reg_target < float_limit ->
  span_block read days reg_target dates average sheet_days
  = chart_span to_datetime reg_target dates average sheet_days.
Proof.
  intros Hsmall. unfold span_block, chart_span, span_of.
  destruct (reg_target =? 0); [done|].
  destruct (py_min dates) as [lo|], (py_max dates) as [hi|]; try done.
  cbn [bind].
  destruct (to_datetime false lo) as [min_d|], (to_datetime false hi) as [max_d|];
    try done.
  cbn [bind]. rewrite true_div_small by lia.
  by repeat case_match.
Qed.

Lemma mask_values (end_ts : option Z) (dates : list string) :
  mapM (mask_entry read norm before end_ts) dates
  = Ok (in_range to_datetime end_ts <$> dates).
Proof.
  induction dates as [|d dates IH]; [done|].
  cbn [mapM]. rewrite IH, fmap_cons. unfold mask_entry, in_range. cbn [bind].
  rewrite normalize_opt_plain. cbn [bind].
  destruct (to_datetime false d), end_ts; reflexivity.
Qed.

Lemma masked_nonneg (counts : list Z) (mask : list bool) :
  Forall (fun c => 0 <= c) counts -> 0 <= sum_Z (masked counts mask).
Proof.
  intros Hnn. apply sum_Z_nonneg, Forall_forall. intros c Hc%masked_elem_of.
  by apply (proj1 (Forall_forall _ _) Hnn).
Qed.

Lemma pace_block_values (reg_target : Z) (dates : list string) (counts : list Z)
    (average : option Qc) (end_dt : option (option Z)) :
  Z.abs reg_target < float_limit ->
  Forall (fun c => 0 <= c) counts ->
  pace_block read norm days before reg_target dates counts average end_dt
  = Ok (required_pace to_datetime reg_target dates counts average end_dt).
Proof.
  intros Hsmall Hnn. unfold pace_block, required_pace.
  destruct end_dt as [end_dt|]; [|done].
  destruct dates as [|d0 ds]; [done|].
  destruct counts as [|c0 cs]; [done|].
  destruct (reg_target =? 0); [done|].
  rewrite normalize_opt_plain. cbn [bind]. rewrite mask_values. cbn [bind].
  set (mask := in_range to_datetime (normalize <$> end_dt) <$> d0 :: ds).
  destruct (existsb id mask); [|done].
  pose proof (masked_nonneg (c0 :: cs) mask Hnn) as Htotal.
  destruct (py_max (masked (d0 :: ds) mask)) as [k|]; cbn [mbind option_bind bind].
  - rewrite normalize_opt_plain. cbn [bind].
    destruct (normalize <$> end_dt) as [e|]; [|by destruct (to_datetime false k)].
    destruct (to_datetime false k) as [l|]; [|done].
    cbn [fmap option_fmap option_map bind].
    destruct (0 <? delta_days e (normalize l)) eqn:Hd; [|by destruct average].
    apply Z.ltb_lt in Hd. by rewrite true_div_small by lia.
  - by destruct (normalize <$> end_dt).
Qed.

Lemma forecast_block_values (reg_target : Z) (start_val end_val : option string)
    (dates : list string) (counts : list Z) :
  Z.abs reg_target < float_limit ->
  Forall (fun c => 0 <= c) counts ->
  plain_block to_datetime reg_target start_val end_val dates counts
  = Ok (pace_forecast to_datetime reg_target start_val end_val dates counts).
Proof.
  intros Hsmall Hnn. unfold forecast_block, pace_forecast.
  rewrite window_block_values by exact Hsmall. cbn [bind].
  destruct (sheet_window to_datetime reg_target start_val end_val)
    as [[avg0 sheet_days] end_dt]. cbn [fst snd].
  rewrite span_block_values by exact Hsmall.
  destruct (chart_span to_datetime reg_target dates avg0 sheet_days)
    as [avg span]. cbn [fst snd].
  rewrite pace_block_values by done. cbn [bind].
  by destruct (required_pace to_datetime reg_target dates counts avg end_dt)
    as [[req total] days_left].
Qed.

End PlainBlock.

Lemma window_block_average_witness :
  let jan8 := Stamps.naive (DateText.midnight 2026 1 8) in
  let feb22 := Stamps.naive (DateText.midnight 2026 2 22) in
  0 < 4600 /\
  Stamps.to_datetime true "08-01-2026" = Ok (Some jan8) /\
  Stamps.to_datetime true "22-02-2026" = Ok (Some feb22) /\
  Stamps.normalized jan8 = Ok jan8 /\
  Stamps.normalized feb22 = Ok feb22 /\
  Stamps.days_between feb22 jan8 = Ok 45 /\
  4600 < float_limit * 46 /\
  scenario_window 4600 (Some "08-01-2026") (Some "22-02-2026")
  = Ok (Some (Qc_of_Z 100), Some 46, Some (Some feb22)).
Proof.
  intros jan8 feb22.
  assert (Hfit : 4600 < float_limit * Z.max 1 (45 + 1)) by reflexivity.
  destruct (window_block_average Stamps.to_datetime Stamps.normalized
              Stamps.days_between Stamps.on_or_before 4600
              "08-01-2026" "22-02-2026" jan8 feb22 jan8 feb22 45
              eq_refl eq_refl eq_refl eq_refl eq_refl eq_refl Hfit) as [Hw _].
  do 6 (split; [reflexivity|]). split; [exact Hfit|].
  rewrite Hw. change (Z.max 1 (45 + 1)) with 46. cbn [Z.ltb Z.compare Pos.compare Pos.compare_cont].
  by rewrite <- (py_div_exact 100 46).
Defined.



(** ** Stripping text *)

Lemma lstrip_nonspace (c : ascii) (l : list ascii) :
  py_isspace c = false -> lstrip (c :: l) = c :: l.
Proof. intros Hc. simpl. by rewrite Hc. Qed.

Lemma lstrip_head (l : list ascii) (c : ascii) (m : list ascii) :
  lstrip l = c :: m -> py_isspace c = false.
Proof.
  induction l as [|a l IH]; simpl; [done|].
  destruct (py_isspace a) eqn:Ha; [exact IH|]. by intros [= <- _].
Qed.

Lemma lstrip_idem (l : list ascii) : lstrip (lstrip l) = lstrip l.
Proof.
  destruct (lstrip l) as [|c m] eqn:E; [done|].
  apply lstrip_nonspace. by apply (lstrip_head l c m).
Qed.

Lemma lstrip_app_nonspace (a : list ascii) (c : ascii) :
  py_isspace c = false -> exists x, lstrip (a ++ [c]) = (x ++ [c])%list.
Proof.
  intros Hc. induction a as [|b a IH]; simpl.
  - rewrite Hc. by exists [].
  - destruct (py_isspace b); [exact IH|]. by exists (b :: a).
Qed.

Lemma rstrip_idem (l : list ascii) : rstrip (rstrip l) = rstrip l.
Proof. unfold rstrip. by rewrite rev_involutive, lstrip_idem. Qed.

Lemma rstrip_keeps_head (c : ascii) (l : list ascii) :
  py_isspace c = false -> exists m, rstrip (c :: l) = c :: m.
Proof.
  intros Hc. unfold rstrip. simpl.
  destruct (lstrip_app_nonspace (rev l) c Hc) as [x Hx].
  rewrite Hx, rev_app_distr. simpl. by eexists.
Qed.

Lemma strip_chars_idem (l : list ascii) :
  rstrip (lstrip (rstrip (lstrip l))) = rstrip (lstrip l).
Proof.
  destruct (lstrip l) as [|c m] eqn:E; [done|].
  destruct (rstrip_keeps_head c m (lstrip_head l c m E)) as [m' Hm'].
  rewrite Hm', lstrip_nonspace by apply (lstrip_head l c m E).
  rewrite <- Hm'. apply rstrip_idem.
Qed.

Lemma strip_chars (s : string) :
  list_ascii_of_string (strip s) = rstrip (lstrip (list_ascii_of_string s)).
Proof. unfold strip, rstrip. apply list_ascii_of_string_of_list_ascii. Qed.

Lemma strip_idem (s : string) : strip (strip s) = strip s.
Proof.
  unfold strip at 1. fold (rstrip (lstrip (list_ascii_of_string (strip s)))).
  rewrite strip_chars, strip_chars_idem. reflexivity.
Qed.

(** X1. Label normalisation is idempotent, and a label never has
    whitespace at either end. *)
Theorem normalize_chart_label_idempotent (key : option string) :
  normalize_chart_label (Some (normalize_chart_label key))
  = normalize_chart_label key /\
  strip (normalize_chart_label key) = normalize_chart_label key.
Proof.
  assert (Hstrip : strip (normalize_chart_label key) = normalize_chart_label key).
  { destruct key as [k|]; [|reflexivity]. simpl.
    destruct (String.eqb (strip k) ""); [reflexivity|apply strip_idem]. }
  split; [|exact Hstrip].
  unfold normalize_chart_label at 1. rewrite Hstrip.
  destruct (String.eqb (normalize_chart_label key) "") eqn:E; [|done].
  apply String.eqb_eq in E. destruct key as [k|]; [|done].
  by destruct (normalize_chart_label_cases k) as (_ & _ & Hne).
Qed.

(** X2. Normalising the header of a sheet twice is normalising it once. *)
Theorem normalize_columns_idempotent (columns : list string) :
  _normalize_columns (_normalize_columns columns) = _normalize_columns columns.
Proof.
  unfold _normalize_columns. rewrite <- list_fmap_compose.
  apply list_fmap_ext. intros _ c _. apply strip_idem.
Qed.

(** ** Sheet ids *)

Lemma list_ascii_of_string_app (a b : string) :
  list_ascii_of_string (a ++ b)
  = (list_ascii_of_string a ++ list_ascii_of_string b)%list.
Proof. induction a as [|c a IH]; simpl; [done|]. by rewrite IH. Qed.

Lemma lstrip_app (u v : list ascii) :
  lstrip (u ++ v) = match lstrip u with
                    | [] => lstrip v
                    | r => (r ++ v)%list
                    end.
Proof.
  induction u as [|c u IH]; simpl; [by destruct (lstrip v)|].
  by destruct (py_isspace c).
Qed.

Lemma rstrip_app (x y : list ascii) :
  rstrip (x ++ y) = match rstrip y with
                    | [] => rstrip x
                    | r => (x ++ r)%list
                    end.
Proof.
  unfold rstrip. rewrite rev_app_distr, lstrip_app.
  destruct (lstrip (rev y)) as [|c r] eqn:E; [done|].
  rewrite rev_app_distr, rev_involutive.
  destruct (rev (c :: r)) eqn:E'; [|done].
  apply (f_equal (@length ascii)) in E'. rewrite length_rev in E'. done.
Qed.

Lemma rstrip_prefix (l : list ascii) : exists tail, l = (rstrip l ++ tail)%list.
Proof.
  assert (H : forall m, exists pre, m = (pre ++ lstrip m)%list).
  { induction m as [|c m [pre IH]]; simpl; [by exists []|].
    destruct (py_isspace c); [|by exists []].
    exists (c :: pre). simpl. by rewrite <- IH. }
  destruct (H (rev l)) as [pre Hpre]. exists (rev pre). unfold rstrip.
  rewrite <- rev_app_distr, <- Hpre. by rewrite rev_involutive.
Qed.

Lemma id_char_not_space (c : ascii) : is_id_char c = true -> py_isspace c = false.
Proof.
  destruct c as [[] [] [] [] [] [] [] []]; vm_compute; congruence.
Qed.

Lemma id_char_not_slash (c : ascii) : is_id_char c = true -> c <> "/"%char.
Proof. intros H ->. vm_compute in H. discriminate. Qed.

Lemma rstrip_all_nonspace (l : list ascii) :
  forallb (fun c => negb (py_isspace c)) l = true -> rstrip l = l.
Proof.
  intros Hall. unfold rstrip.
  destruct (rev l) as [|c m] eqn:E.
  - simpl. apply (f_equal (@rev ascii)) in E. by rewrite rev_involutive in E.
  - rewrite lstrip_nonspace; [by rewrite <- E, rev_involutive|].
    assert (Hin : In c l) by (apply in_rev; rewrite E; by left).
    apply (proj1 (forallb_forall _ _) Hall) in Hin.
    by apply negb_true_iff in Hin.
Qed.

Lemma id_chars_nonspace (l : list ascii) :
  forallb is_id_char l = true ->
  forallb (fun c => negb (py_isspace c)) l = true.
Proof.
  intros Hall. apply forallb_forall. intros c Hc.
  apply (proj1 (forallb_forall _ _) Hall) in Hc.
  by rewrite (id_char_not_space c Hc).
Qed.

Lemma rstrip_keeps_id (x id y : list ascii) :
  id <> [] ->
  forallb is_id_char id = true ->
  rstrip (x ++ id ++ y) = (x ++ id ++ rstrip y)%list.
Proof.
  intros Hne Hid.
  assert (Hinner : rstrip (id ++ y) = (id ++ rstrip y)%list).
  { rewrite rstrip_app. destruct (rstrip y) as [|c r]; [|done].
    rewrite app_nil_r. by apply rstrip_all_nonspace, id_chars_nonspace. }
  rewrite rstrip_app, Hinner.
  destruct (id ++ rstrip y)%list as [|c r] eqn:E; [|done].
  by destruct id.
Qed.

Lemma take_id_stop (id r : list ascii) :
  forallb is_id_char id = true ->
  match r with [] => true | c :: _ => negb (is_id_char c) end = true ->
  take_id (id ++ r) = id.
Proof.
  intros Hid Hr. induction id as [|c id IH]; simpl in *.
  - destruct r as [|c r]; [done|]. simpl. apply negb_true_iff in Hr. by rewrite Hr.
  - apply andb_prop in Hid as [Hc Hid]. by rewrite Hc, IH.
Qed.

Lemma rstrip_head_of (r : list ascii) :
  match r with [] => true | c :: _ => negb (is_id_char c) end = true ->
  match rstrip r with [] => true | c :: _ => negb (is_id_char c) end = true.
Proof.
  intros Hr. destruct (rstrip_prefix r) as [tail Htail].
  destruct (rstrip r) as [|c m]; [done|]. by rewrite Htail in Hr.
Qed.

(** X3. From a Google Sheets address the id is recovered: whatever
    follows the id, as long as it does not start with an id character. *)
Theorem extract_sheet_id_from_url (id rest : string) :
  is_sheet_id id = true ->
  ends_sheet_id rest = true ->
  extract_sheet_id
    (VStr ("https://docs.google.com/spreadsheets/d/" ++ id ++ rest)) = id.
Proof.
  intros [Hne Hid]%andb_prop Hrest. unfold ends_sheet_id in Hrest.
  assert (Hlist : list_ascii_of_string id <> []).
  { intros E. apply negb_true_iff, String.eqb_neq in Hne. apply Hne.
    by rewrite <- (string_of_list_ascii_of_string id), E. }
  unfold extract_sheet_id.
  set (url := "https://docs.google.com/spreadsheets/d/" ++ id ++ rest).
  assert (Hurl : String.eqb url "" = false) by reflexivity.
  rewrite Hurl, strip_chars. unfold url.
  rewrite !list_ascii_of_string_app.
  set (lid := list_ascii_of_string id) in *.
  set (lrest := list_ascii_of_string rest) in *.
  set (lp := list_ascii_of_string "https://docs.google.com/spreadsheets/d/").
  assert (Hl : forall t, lstrip (lp ++ t) = (lp ++ t)%list) by reflexivity.
  assert (Hs : forall t c t', take_id t = c :: t' ->
                              search_sheet_id (lp ++ t) = Some (c :: t')).
  { intros t c t' Ht. unfold lp. cbn. by rewrite Ht. }
  rewrite Hl, (rstrip_keeps_id lp lid lrest Hlist Hid).
  pose proof (take_id_stop lid (rstrip lrest) Hid (rstrip_head_of _ Hrest)) as Ht.
  destruct lid as [|c lid'] eqn:E; [done|].
  rewrite (Hs _ c lid' Ht). rewrite <- E. apply string_of_list_ascii_of_string.
Qed.

Lemma extract_sheet_id_from_url_witness :
  is_sheet_id "1LDJWBy2g1gtQK_u1vwwhMARnBIsijIMEgSC2wxBK72E" = true /\
  ends_sheet_id "/edit?gid=1918686024#gid=1918686024  " = true /\
  extract_sheet_id
    (VStr ("https://docs.google.com/spreadsheets/d/"
           ++ "1LDJWBy2g1gtQK_u1vwwhMARnBIsijIMEgSC2wxBK72E"
           ++ "/edit?gid=1918686024#gid=1918686024  "))
  = "1LDJWBy2g1gtQK_u1vwwhMARnBIsijIMEgSC2wxBK72E".
Proof.
  split; [reflexivity|]. split; [reflexivity|].
  exact (extract_sheet_id_from_url
           "1LDJWBy2g1gtQK_u1vwwhMARnBIsijIMEgSC2wxBK72E"
           "/edit?gid=1918686024#gid=1918686024  " eq_refl eq_refl).
Defined.

Lemma take_id_chars (l : list ascii) : forallb is_id_char (take_id l) = true.
Proof.
  induction l as [|c l IH]; simpl; [done|].
  destruct (is_id_char c) eqn:E; simpl; [|done]. by rewrite E.
Qed.

Lemma search_sheet_id_sound (l id : list ascii) :
  search_sheet_id l = Some id -> id <> [] /\ forallb is_id_char id = true.
Proof.
  induction l as [|c l IH]; [done|].
  assert (Hcase : search_sheet_id (c :: l) = search_sheet_id l \/
                  exists rest, take_id rest <> [] /\
                               search_sheet_id (c :: l) = Some (take_id rest)).
  { destruct l as [|c1 [|c2 rest]];
      try (left; destruct c as [[] [] [] [] [] [] [] []]; reflexivity);
      try (left; destruct c as [[] [] [] [] [] [] [] []];
           destruct c1 as [[] [] [] [] [] [] [] []]; reflexivity).
    destruct (Ascii.eqb_spec c "/") as [->|Hc];
      [|left; destruct c as [[] [] [] [] [] [] [] []]; try reflexivity; done].
    destruct (Ascii.eqb_spec c1 "d") as [->|Hc1];
      [|left; destruct c1 as [[] [] [] [] [] [] [] []]; try reflexivity; done].
    destruct (Ascii.eqb_spec c2 "/") as [->|Hc2];
      [|left; destruct c2 as [[] [] [] [] [] [] [] []]; try reflexivity; done].
    cbn. destruct (take_id rest) as [|i ids] eqn:E; [by left|].
    right. exists rest. by rewrite E. }
  destruct Hcase as [->|(rest & Hne & ->)]; [exact IH|].
  intros [= <-]. split; [done|apply take_id_chars].
Qed.

Lemma search_sheet_id_no_slash (l : list ascii) :
  forallb (fun c => negb (Ascii.eqb c "/")) l = true -> search_sheet_id l = None.
Proof.
  induction l as [|c l IH]; [done|]. intros Hall.
  cbn [forallb] in Hall. apply andb_prop in Hall as [Hc Hl].
  specialize (IH Hl). revert Hc.
  destruct c as [[] [] [] [] [] [] [] []]; try (intros _; exact IH).
  vm_compute. discriminate.
Qed.

Lemma occurs_in_absent (c : ascii) (p l : list ascii) :
  forallb (fun a => negb (Ascii.eqb c a)) l = true -> occurs_in (c :: p) l = false.
Proof.
  induction l as [|a l IH]; [done|]. intros Hall.
  cbn [forallb] in Hall. apply andb_prop in Hall as [Ha Hl].
  simpl. apply negb_true_iff in Ha. rewrite Ha. simpl. by apply IH.
Qed.

Lemma forallb_impl {A} (f g : A -> bool) (l : list A) :
  (forall x, f x = true -> g x = true) ->
  forallb f l = true -> forallb g l = true.
Proof.
  intros Hfg Hall. apply forallb_forall. intros x Hx.
  apply Hfg. by apply (proj1 (forallb_forall _ _) Hall).
Qed.

(** What holds of a text made of id characters only. *)
Lemma sheet_id_text (id : list ascii) :
  id <> [] ->
  forallb is_id_char id = true ->
  let s := string_of_list_ascii id in
  String.eqb s "" = false /\ strip s = s /\
  search_sheet_id (list_ascii_of_string s) = None /\
  contains " " s = false /\ contains "://" s = false.
Proof.
  intros Hne Hid s. unfold s, contains, strip.
  rewrite !list_ascii_of_string_of_list_ascii.
  repeat split.
  - destruct id; [done|reflexivity].
  - fold (rstrip (lstrip id)).
    assert (Hl : lstrip id = id).
    { destruct id as [|c id']; [done|]. apply lstrip_nonspace.
      simpl in Hid. apply andb_prop in Hid as [Hc _].
      by apply id_char_not_space. }
    rewrite Hl. by rewrite rstrip_all_nonspace by by apply id_chars_nonspace.
  - apply search_sheet_id_no_slash. revert Hid. apply forallb_impl.
    intros c Hc. apply negb_true_iff, Ascii.eqb_neq. by apply id_char_not_slash.
  - apply occurs_in_absent. revert Hid. apply forallb_impl.
    intros c Hc. apply negb_true_iff, Ascii.eqb_neq. intros <-. by vm_compute in Hc.
  - apply occurs_in_absent. revert Hid. apply forallb_impl.
    intros c Hc. apply negb_true_iff, Ascii.eqb_neq. intros <-. by vm_compute in Hc.
Qed.

(** X4. What [extract_sheet_id] returns is left alone by a second call,
    and it never holds a space or the mark of an address. *)
Theorem extract_sheet_id_idempotent (value : pyval) :
  extract_sheet_id (VStr (extract_sheet_id value)) = extract_sheet_id value /\
  contains " " (extract_sheet_id value) = false /\
  contains "://" (extract_sheet_id value) = false.
Proof.
  destruct value as [|b|z|f|v|l|d]; try by repeat split.
  remember (extract_sheet_id (VStr v)) as r eqn:Hr.
  unfold extract_sheet_id in Hr.
  destruct (String.eqb v ""); [by subst r|].
  destruct (search_sheet_id (list_ascii_of_string (strip v))) as [id|] eqn:Hsearch.
  - destruct (search_sheet_id_sound _ _ Hsearch) as [Hne Hid].
    destruct (sheet_id_text id Hne Hid) as (He & Hs & Hn & Hsp & Hurl).
    subst r. split; [|by split]. unfold extract_sheet_id.
    by rewrite He, Hs, Hn, He, Hsp, Hurl.
  - destruct (negb (String.eqb (strip v) "") && negb (contains " " (strip v))
              && negb (contains "://" (strip v)))%bool eqn:Hcond;
      [|by subst r].
    apply andb_prop in Hcond as [[He Hsp]%andb_prop Hurl].
    apply negb_true_iff in He, Hsp, Hurl.
    subst r. split; [|by split]. unfold extract_sheet_id.
    by rewrite He, strip_idem, Hsearch, He, Hsp, Hurl.
Qed.

(** ** Merging in parts *)

Lemma sum_maps_bump (k : string) (c : Z) (a b : gmap string Z) :
  sum_maps (bump k c a) b = sum_maps a (sum_maps (bump k c ∅) b).
Proof.
  apply map_eq. intros i. unfold sum_maps.
  rewrite !lookup_union_with, !lookup_bump, lookup_empty.
  destruct (decide (k = i)) as [->|Hne]; simpl.
  - destruct (a !! i) as [x|], (b !! i) as [y|]; simpl; f_equal; lia.
  - by destruct (a !! i), (b !! i).
Qed.

Lemma sum_maps_empty_r (a : gmap string Z) : sum_maps a ∅ = a.
Proof.
  apply map_eq. intros i. unfold sum_maps.
  rewrite lookup_union_with, lookup_empty. by destruct (a !! i).
Qed.

(** A fold of item effects started from [a] is the fold started from the
    empty map, added to [a]. *)
Lemma foldM_effect_split (eff : pyval -> item_effect) (l : pydict)
    (a : gmap string Z) :
  foldM (fun m (kv : string * pyval) => apply_effect (eff kv.2) kv.1 m) a l
  = let! b := foldM (fun m (kv : string * pyval) =>
                       apply_effect (eff kv.2) kv.1 m) ∅ l in
    Ok (sum_maps a b).
Proof.
  revert a. induction l as [|[k v] l IH]; intros a.
  - simpl. by rewrite sum_maps_empty_r.
  - rewrite !foldM_cons. simpl. destruct (eff v) as [e| |c]; simpl.
    + done.
    + apply IH.
    + rewrite (IH (bump k c a)), (IH (bump k c ∅)).
      destruct (foldM _ ∅ l) as [b|e]; simpl; [|done].
      by rewrite sum_maps_bump.
Qed.

Lemma items_of_app (a b : list (option pydict)) :
  items_of (a ++ b) = (items_of a ++ items_of b)%list.
Proof. unfold items_of. apply bind_app. Qed.

(** X5. Merge additivity: merging two batches of rows at once is merging
    each batch and adding the two results key by key; the whole merge
    raises exactly when one of the two does. *)
Theorem merge_json_dicts_app (a b : list (option pydict)) :
  merge_json_dicts (a ++ b)
  = let! ma := merge_json_dicts a in
    let! mb := merge_json_dicts b in
    Ok (sum_maps ma mb).
Proof.
  rewrite !merge_json_dicts_items, items_of_app, foldM_app.
  destruct (foldM merge_item ∅ (items_of a)) as [ma|e]; simpl; [|done].
  rewrite !(foldM_ext merge_item _ _ _ merge_item_effect).
  apply foldM_effect_split.
Qed.

(** X6. The daily series is additive in the same way: the series of two
    batches of cells is the key-by-key sum of the two series. *)
Theorem parse_daily_registrations_app (json_loads : string -> option pyval)
    (a b : list pyval) :
  parse_daily_registrations json_loads (a ++ b)
  = let! ma := parse_daily_registrations json_loads a in
    let! mb := parse_daily_registrations json_loads b in
    Ok (sum_maps ma mb).
Proof.
  rewrite !parse_daily_registrations_items, fmap_app, items_of_app, foldM_app.
  destruct (foldM daily_item ∅ _) as [ma|e]; simpl; [|done].
  rewrite !(foldM_ext daily_item _ _ _ daily_item_effect).
  apply foldM_effect_split.
Qed.

(** ** Totals per key *)

(** X7. Without an infinite float among the values, [merge_json_dicts]
    returns a map that holds, for each key of the inputs and for no other
    key, the sum of what its values count for: integers as they are,
    booleans as 0 or 1, finite floats truncated, anything else 0. *)
Theorem merge_json_dicts_totals (dicts : list (option pydict)) :
  no_infinite (items_of dicts) = true ->
  exists merged, merge_json_dicts dicts = Ok merged /\
    forall k, merged !! k =
      if decide (k ∈ (items_of dicts).*1)
      then Some (count_for k (items_of dicts)) else None.
Proof.
  intros Hfin. rewrite merge_json_dicts_items.
  destruct (merge_items_lookup _ ∅ Hfin) as (merged & Hrun & Hlook).
  exists merged. split; [done|]. intros k. rewrite Hlook, lookup_empty.
  case_decide; [|done]. simpl. f_equal; lia.
Qed.

Lemma merge_json_dicts_totals_witness :
  let dicts := [Some [("Male", VInt 3); ("Other", VStr "12")]; None;
                Some [("Male", VFloat (FFinite 5 (-1))); ("Female", VBool true)]] in
  no_infinite (items_of dicts) = true /\
  exists merged, merge_json_dicts dicts = Ok merged /\
    merged !! "Male" = Some 5 /\ merged !! "Other" = Some 0 /\
    merged !! "Female" = Some 1 /\ merged !! "Student" = None.
Proof.
  intros dicts. split; [reflexivity|].
  destruct (merge_json_dicts_totals dicts eq_refl) as (merged & Hrun & Hlook).
  exists merged. split; [exact Hrun|].
  rewrite !Hlook. repeat split.
Defined.

Lemma daily_counts_cons (k k0 : string) (v0 : pyval) (l : pydict) :
  daily_counts k ((k0, v0) :: l) =
  match (if decide (k0 = k) then
           match py_int v0 with Ok n => Some n | Raise _ => None end
         else None) with
  | Some n => n :: daily_counts k l
  | None => daily_counts k l
  end.
Proof. reflexivity. Qed.

Lemma daily_items_lookup (l : pydict) (m : gmap string Z) :
  no_infinite l = true ->
  exists m', foldM daily_item m l = Ok m' /\
    forall k, m' !! k =
      match daily_counts k l with
      | [] => m !! k
      | cs => Some (default 0 (m !! k) + sum_Z cs)
      end.
Proof.
  revert m; induction l as [|[k0 v0] l IH]; intros m Hfin.
  - exists m. by split.
  - simpl in Hfin. apply andb_prop in Hfin as [Hv Hl].
    apply negb_true_iff in Hv.
    rewrite foldM_cons, daily_item_effect. unfold daily_effect. cbn [fst snd].
    destruct (py_int v0) as [n|e] eqn:Hint; cbn [apply_effect bind].
    + destruct (IH (bump k0 n m) Hl) as (m' & Hrun & Hlook).
      exists m'. split; [done|]. intros k.
      rewrite Hlook, daily_counts_cons, lookup_bump, Hint. simpl.
      destruct (decide (k0 = k)) as [->|Hne]; simpl.
      * destruct (daily_counts k l); simpl; f_equal; lia.
      * done.
    + assert (He : e <> OverflowError).
      { intros ->. by destruct v0 as [|b|z|[mm ee| |neg]|s|vs|d];
          simpl in *; try destruct (int_of_str s). }
      destruct (IH m Hl) as (m' & Hrun & Hlook).
      exists m'. split; [by destruct e|]. intros k.
      rewrite Hlook, daily_counts_cons, Hint. by case_decide.
Qed.

Lemma daily_items_overflow (l : pydict) (m : gmap string Z) :
  no_infinite l = false -> foldM daily_item m l = Raise OverflowError.
Proof.
  revert m; induction l as [|[k0 v0] l IH]; intros m Hinf; [done|].
  rewrite foldM_cons, daily_item_effect. unfold daily_effect.
  cbn [no_infinite forallb snd] in Hinf. cbn [fst snd].
  destruct (is_infinite v0) eqn:Hv.
  - by destruct v0 as [|b|z|[mm e| |neg]|s|vs|d].
  - cbn [negb andb] in Hinf. fold (no_infinite l) in Hinf.
    destruct (py_int v0) as [n|e] eqn:Hint; cbn [apply_effect bind].
    + by apply IH.
    + destruct e; cbn [apply_effect bind]; try by apply IH.
      by destruct v0 as [|b|z|[mm e| |neg]|s|vs|d];
        simpl in *; try destruct (int_of_str s).
Qed.

(** X8. Whenever [parse_daily_registrations] returns, on cells whose
    counts given as text are ASCII text, a date is present in the series
    exactly when [int()] accepts at least one of its counts (numeric text
    included), and then holds the sum of the accepted counts. *)
Theorem parse_daily_registrations_totals (json_loads : string -> option pyval)
    (series : list pyval) (combined : gmap string Z) :
  parse_daily_registrations json_loads series = Ok combined ->
  ascii_counts (items_of (safe_json_loads json_loads <$> series)) = true ->
  forall date_str, combined !! date_str =
    match daily_counts date_str
            (items_of (safe_json_loads json_loads <$> series)) with
    | [] => None
    | cs => Some (sum_Z cs)
    end.
Proof.
  rewrite parse_daily_registrations_items. intros Hrun _ k.
  destruct (no_infinite (items_of (safe_json_loads json_loads <$> series)))
    eqn:Hfin.
  - destruct (daily_items_lookup _ ∅ Hfin) as (combined' & Hrun' & Hlook).
    rewrite Hrun in Hrun'. injection Hrun' as <-.
    rewrite Hlook, lookup_empty.
    destruct (daily_counts k _); [done|]. simpl. f_equal; lia.
  - by rewrite (daily_items_overflow _ ∅ Hfin) in Hrun.
Qed.

Lemma parse_daily_registrations_totals_witness :
  let series := [VStr (jtext "{'2026-01-08': 40, '2026-01-09': 'n/a'}");
                 VNone;
                 VStr (jtext "{'2026-01-08': ' 2 ', '2026-01-10': null}")] in
  let combined : gmap string Z := <["2026-01-08" := 42]> ∅ in
  parse_daily_registrations JsonFlat.json_loads series = Ok combined /\
  ascii_counts (items_of (safe_json_loads JsonFlat.json_loads <$> series))
  = true /\
  daily_counts "2026-01-08"
    (items_of (safe_json_loads JsonFlat.json_loads <$> series)) = [40; 2] /\
  combined !! "2026-01-08" = Some (sum_Z [40; 2]) /\
  daily_counts "2026-01-09"
    (items_of (safe_json_loads JsonFlat.json_loads <$> series)) = [] /\
  combined !! "2026-01-09" = None.
Proof.
  intros series combined.
  assert (Hrun : parse_daily_registrations JsonFlat.json_loads series
                 = Ok combined) by (vm_compute; reflexivity).
  pose proof (parse_daily_registrations_totals JsonFlat.json_loads series
                combined Hrun eq_refl) as Hlook.
  assert (H8 : daily_counts "2026-01-08"
                 (items_of (safe_json_loads JsonFlat.json_loads <$> series))
               = [40; 2]) by reflexivity.
  assert (H9 : daily_counts "2026-01-09"
                 (items_of (safe_json_loads JsonFlat.json_loads <$> series))
               = []) by reflexivity.
  split; [exact Hrun|]. split; [reflexivity|]. split; [exact H8|].
  split; [rewrite <- H8; exact (Hlook "2026-01-08")|].
  split; [exact H9|].
  pose proof (Hlook "2026-01-09") as H. by rewrite H9 in H.
Defined.

(** What [int()] makes of the blanks around a count: the blanks it drops
    are fewer than those of [str.strip], so that a count behind a unit
    separator (character 31) is rejected, and left out of the series. *)
Example int_of_str_blanks :
  int_of_str " 42 " = Some 42 /\
  strip (String (ascii_of_nat 31) "42") = "42" /\
  int_of_str (String (ascii_of_nat 31) "42") = None /\
  parse_daily_registrations JsonFlat.json_loads
    [VDict [("2026-01-08", VStr (String (ascii_of_nat 31) "42"));
            ("2026-01-09", VStr " 42 ")]]
  = Ok (<["2026-01-09" := 42]> ∅).
Proof. repeat split; vm_compute; reflexivity. Qed.

(** ** The line of daily registrations *)

(** X9. The two lists of [daily_registrations_to_line_data] carry the
    series itself: the dates are sorted as text with no date twice, the
    counts are paired with them one to one, pairing them up again gives
    back the series, and the lists are empty only for the empty series. *)
Theorem line_data_round_trip (combined : gmap string Z) :
  let dates := (daily_registrations_to_line_data combined).1 in
  let counts := (daily_registrations_to_line_data combined).2 in
  Sorted String.le dates /\
  NoDup dates /\
  length counts = length dates /\
  list_to_map (zip dates counts) = combined /\
  (dates = [] <-> combined = ∅).
Proof.
  intros dates counts.
  destruct (line_data_sorted combined) as [Hsorted Hlen].
  set (sorted_items :=
         merge_sort (fun a b : string * Z => String.le a.1 b.1)
           (map_to_list combined)).
  assert (Hperm : sorted_items ≡ₚ map_to_list combined)
    by apply merge_sort_Permutation.
  assert (Hnd : NoDup sorted_items.*1).
  { rewrite Hperm. apply NoDup_fst_map_to_list. }
  split; [exact Hsorted|]. split; [exact Hnd|]. split; [exact Hlen|]. split.
  - unfold dates, counts, daily_registrations_to_line_data. simpl.
    fold sorted_items. rewrite zip_fst_snd.
    rewrite (list_to_map_proper sorted_items (map_to_list combined) Hnd Hperm).
    apply list_to_map_to_list.
  - unfold dates, daily_registrations_to_line_data. simpl. fold sorted_items.
    split.
    + intros Hnil. apply fmap_nil_inv in Hnil. rewrite Hnil in Hperm.
      apply map_to_list_empty_iff. symmetry in Hperm.
      by apply Permutation_nil_r in Hperm.
    + intros ->. unfold sorted_items. by rewrite map_to_list_empty.
Qed.

(** ** Login *)

Lemma role_permissions_admin :
  ROLE_PERMISSIONS !! "admin" = Some {[ "view_dashboard"; "edit_sheet"; "connect" ]}.
Proof. unfold ROLE_PERMISSIONS. by rewrite lookup_insert_eq. Qed.

Lemma role_permissions_viewer :
  ROLE_PERMISSIONS !! "viewer" = Some {[ "view_dashboard" ]}.
Proof.
  unfold ROLE_PERMISSIONS. rewrite lookup_insert_ne by done.
  by rewrite lookup_insert_eq.
Qed.

Lemma role_permissions_other (role : string) :
  role <> "admin" -> role <> "viewer" -> ROLE_PERMISSIONS !! role = None.
Proof.
  intros Ha Hv. unfold ROLE_PERMISSIONS.
  by rewrite !lookup_insert_ne, lookup_empty by done.
Qed.

(** X10. The viewer's permissions are among the admin's, and a role that
    is neither [admin] nor [viewer] has no permission at all. *)
Theorem role_hierarchy (role permission : string) :
  (has_permission "viewer" permission = true ->
   has_permission "admin" permission = true) /\
  (role <> "admin" -> role <> "viewer" -> has_permission role permission = false).
Proof.
  unfold has_permission. split.
  - rewrite role_permissions_viewer, role_permissions_admin. simpl.
    intros Hv%bool_decide_eq_true.
    apply elem_of_singleton in Hv as ->. reflexivity.
  - intros Ha Hv. rewrite (role_permissions_other role Ha Hv). simpl.
    apply bool_decide_eq_false. apply not_elem_of_empty.
Qed.

Lemma role_hierarchy_witness :
  has_permission "viewer" "view_dashboard" = true /\
  has_permission "admin" "view_dashboard" = true /\
  "guest" <> "admin" /\ "guest" <> "viewer" /\
  has_permission "guest" "view_dashboard" = false.
Proof.
  assert (Ha : "guest" <> "admin") by discriminate.
  assert (Hv : "guest" <> "viewer") by discriminate.
  assert (H : has_permission "viewer" "view_dashboard" = true) by reflexivity.
  split; [exact H|].
  split; [exact (proj1 (role_hierarchy "guest" "view_dashboard") H)|].
  split; [exact Ha|]. split; [exact Hv|].
  exact (proj2 (role_hierarchy "guest" "view_dashboard") Ha Hv).
Defined.

Section LoginFacts.

Variable sha256_hex : string -> string.

Lemma user_store_lookup (name : string) (entry : user_entry) :
  USER_STORE sha256_hex !! name = Some entry ->
  (name = "admin" /\ entry_role entry = "admin" /\
   entry_password_hash entry = _hash_password sha256_hex "h2s@2026") \/
  (name = "viewer" /\ entry_role entry = "viewer" /\
   entry_password_hash entry = _hash_password sha256_hex "viewer123").
Proof.
  unfold USER_STORE. rewrite lookup_insert.
  case_decide as Ha; [intros [= <-]; by left|].
  rewrite lookup_insert. case_decide as Hv; [intros [= <-]; by right|].
  by rewrite lookup_empty.
Qed.

(** X11. What a login returns: a failed login carries no role, and a
    successful one carries the role [get_role] reports for that user name,
    which is a role with a permission set. *)
Theorem verify_login_role (username password : string) :
  ((verify_login sha256_hex username password).1 = false ->
   (verify_login sha256_hex username password).2 = None) /\
  ((verify_login sha256_hex username password).1 = true ->
   exists role,
     (verify_login sha256_hex username password).2 = Some role /\
     get_role sha256_hex username = Some role /\
     is_Some (ROLE_PERMISSIONS !! role)).
Proof.
  unfold verify_login, get_role.
  destruct (String.eqb username "" || String.eqb password "")%bool; [by split|].
  destruct (USER_STORE sha256_hex !! lower (strip username)) as [entry|] eqn:E;
    [|by split].
  destruct (String.eqb (entry_password_hash entry) _); [|by split].
  split; [done|]. intros _. exists (entry_role entry). repeat split.
  destruct (user_store_lookup _ _ E) as [(_ & -> & _)|(_ & -> & _)].
  - by rewrite role_permissions_admin.
  - by rewrite role_permissions_viewer.
Qed.

(** X12. The stored credentials log in whatever the case of the user name
    and the blanks around it. *)
Theorem verify_login_accepts (username : string) :
  (lower (strip username) = "admin" ->
   verify_login sha256_hex username "h2s@2026" = (true, Some "admin")) /\
  (lower (strip username) = "viewer" ->
   verify_login sha256_hex username "viewer123" = (true, Some "viewer")).
Proof.
  assert (Hne : forall name, lower (strip username) = name -> name <> "" ->
                             String.eqb username "" = false).
  { intros name Hn Hname. apply String.eqb_neq. intros ->. by subst name. }
  unfold verify_login. split; intros Hn.
  - rewrite (Hne _ Hn) by done. rewrite Hn. simpl.
    unfold USER_STORE. rewrite lookup_insert_eq. simpl.
    unfold _hash_password. by rewrite String.eqb_refl.
  - rewrite (Hne _ Hn) by done. rewrite Hn. simpl.
    unfold USER_STORE. rewrite lookup_insert_ne by done.
    rewrite lookup_insert_eq. simpl.
    unfold _hash_password. by rewrite String.eqb_refl.
Qed.

(** X13. After a successful login the role lets the user view the
    dashboard, and lets the user change the sheet exactly when the user
    name, stripped and lowered, is [admin]. *)
Theorem login_permissions (username password role : string) :
  verify_login sha256_hex username password = (true, Some role) ->
  has_permission role "view_dashboard" = true /\
  (can_edit_sheet role = true <-> lower (strip username) = "admin").
Proof.
  unfold verify_login.
  destruct (String.eqb username "" || String.eqb password "")%bool; [done|].
  destruct (USER_STORE sha256_hex !! lower (strip username)) as [entry|] eqn:E;
    [|done].
  destruct (String.eqb (entry_password_hash entry) _); [|done].
  intros [= <-].
  destruct (user_store_lookup _ _ E) as [(-> & -> & _)|(-> & -> & _)].
  - split; [reflexivity|]. by split.
  - split; [reflexivity|]. split; [|done]. vm_compute. discriminate.
Qed.

End LoginFacts.

Lemma verify_login_role_witness :
  (verify_login plain_digest "Viewer " "viewer123").1 = true /\
  exists role,
    (verify_login plain_digest "Viewer " "viewer123").2 = Some role /\
    get_role plain_digest "Viewer " = Some role /\
    is_Some (ROLE_PERMISSIONS !! role).
Proof.
  assert (H : (verify_login plain_digest "Viewer " "viewer123").1 = true)
    by reflexivity.
  split; [exact H|].
  exact (proj2 (verify_login_role plain_digest "Viewer " "viewer123") H).
Defined.

Lemma verify_login_accepts_witness :
  lower (strip "  ADMIN ") = "admin" /\
  verify_login plain_digest "  ADMIN " "h2s@2026" = (true, Some "admin").
Proof.
  split; [reflexivity|].
  exact (proj1 (verify_login_accepts plain_digest "  ADMIN ") eq_refl).
Defined.

Lemma login_permissions_witness :
  verify_login plain_digest "admin" "h2s@2026" = (true, Some "admin") /\
  has_permission "admin" "view_dashboard" = true /\
  (can_edit_sheet "admin" = true <-> lower (strip "admin") = "admin").
Proof.
  split; [reflexivity|].
  exact (login_permissions plain_digest "admin" "h2s@2026" "admin" eq_refl).
Defined.

(** ** Configuration of an event *)



(** ** Shape of a forecast *)

Lemma py_div_pos (a b : Z) : 0 < a -> 0 < b -> (0 < py_div a b)%Qc.
Proof.
  intros Ha Hb. unfold py_div, Qcdiv.
  apply Qcmult_pos_pos; [|apply Qcinv_pos]; rewrite <- Z2Qc_inj_0.
  - by apply (proj1 (Z2Qc_inj_lt 0 a)).
  - by apply (proj1 (Z2Qc_inj_lt 0 b)).
Qed.

Lemma py_div_zero (b : Z) : py_div 0 b = Qc_of_Z 0.
Proof. unfold py_div, Qcdiv. rewrite Z2Qc_inj_0. apply Qcmult_0_l. Qed.

Lemma py_div_nonneg (a b : Z) : 0 <= a -> 0 < b -> (0 <= py_div a b)%Qc.
Proof.
  intros Ha Hb. destruct (decide (a = 0)) as [->|Hne].
  - rewrite py_div_zero, Z2Qc_inj_0. apply Qcle_refl.
  - apply Qclt_le_weak, py_div_pos; lia.
Qed.

Section ShapeFacts.

Variable to_datetime : bool -> string -> option Z.

(** The three outcomes of the required-pace block. *)
Lemma required_pace_shape (reg_target : Z) (dates : list string)
    (counts : list Z) (average : option Qc) (end_dt : option (option Z)) :
  let r := required_pace to_datetime reg_target dates counts average end_dt in
  r = (None, None, None) \/
  (exists total days_remaining,
      0 < days_remaining /\ reg_target <> 0 /\
      r = (Some (py_div (Z.max 0 (reg_target - total)) days_remaining),
           Some total, Some days_remaining)) \/
  (exists total a, average = Some a /\ r = (Some a, Some total, Some 0)).
Proof.
  unfold required_pace.
  destruct end_dt as [end_dt|]; [|by left].
  destruct dates as [|d ds]; [by left|].
  destruct counts as [|c cs]; [by left|].
  destruct (reg_target =? 0) eqn:Htgt; [by left|].
  apply Z.eqb_neq in Htgt.
  destruct (existsb id _); [|by left].
  destruct (normalize <$> end_dt) as [e|]; [|by left].
  destruct (py_max _ ≫= to_datetime false) as [last|]; [|by left].
  destruct (0 <? delta_days e (normalize last)) eqn:Hd.
  - right; left. apply Z.ltb_lt in Hd. by eexists _, _.
  - destruct average as [a|]; [|by left]. right; right. by eexists _, _.
Qed.

Lemma sheet_days_bound (reg_target : Z) (start_val end_val : option string) (d : Z) :
  (sheet_window to_datetime reg_target start_val end_val).1.2 = Some d -> 1 <= d.
Proof.
  unfold sheet_window. destruct (reg_target =? 0); [done|].
  destruct start_val as [sv|], end_val as [ev|]; try done.
  destruct (to_datetime true sv), (to_datetime true ev); simpl; try done.
  intros [= <-]. lia.
Qed.

Lemma chart_span_bound (reg_target : Z) (dates : list string)
    (average : option Qc) (sheet_days : option Z) (s : Z) :
  (chart_span to_datetime reg_target dates average sheet_days).2 = Some s -> 1 <= s.
Proof.
  unfold chart_span. destruct (reg_target =? 0); [done|].
  destruct (py_min dates) as [lo|], (py_max dates) as [hi|]; try done.
  destruct (to_datetime false lo), (to_datetime false hi); simpl; try done.
  intros [= <-]. lia.
Qed.

(** X15. The fields of the required pace hang together: the required
    average, the total so far and the days remaining are present or absent
    together; the days remaining are never negative; with days remaining
    the required average is the target minus the total, floored at 0,
    divided by them; with none it is the full-period average. *)
Theorem forecast_required_fields (reg_target : Z) (start_val end_val : option string)
    (dates : list string) (counts : list Z) :
  let f := pace_forecast to_datetime reg_target start_val end_val dates counts in
  (required_daily_avg f = None <-> total_so_far_used f = None) /\
  (required_daily_avg f = None <-> days_remaining_used f = None) /\
  (forall days_remaining total,
      days_remaining_used f = Some days_remaining ->
      total_so_far_used f = Some total ->
      0 <= days_remaining /\
      (0 < days_remaining ->
       required_daily_avg f
       = Some (py_div (Z.max 0 (reg_target - total)) days_remaining)) /\
      (days_remaining = 0 ->
       required_daily_avg f = average_daily f /\ average_daily f <> None)).
Proof.
  intros f.
  destruct (pace_forecast_fields to_datetime reg_target start_val end_val
              dates counts) as (_ & Havg & _ & Hreq & Htot & Hleft).
  fold f in Havg, Hreq, Htot, Hleft.
  rewrite Hreq, Htot, Hleft, Havg.
  destruct (required_pace_shape reg_target dates counts
              (chart_span to_datetime reg_target dates
                 (sheet_window to_datetime reg_target start_val end_val).1.1
                 (sheet_window to_datetime reg_target start_val end_val).1.2).1
              (sheet_window to_datetime reg_target start_val end_val).2)
    as [->|[(total & dr & Hdr & _ & ->)|(total & a & Ha & ->)]]; simpl.
  - split; [done|]. split; [done|]. by intros dr' total' [=].
  - split; [by split|]. split; [by split|].
    intros dr' total' [= <-] [= <-]. split; [lia|]. split; [done|]. lia.
  - split; [by split|]. split; [by split|].
    intros dr' total' [= <-] [= <-]. split; [lia|]. split; [lia|].
    intros _. by rewrite Ha.
Qed.

(** X16. Day counts are at least 1: the inclusive day count of the sheet
    window and the span of the chart, whenever they are computed. *)
Theorem forecast_day_counts (reg_target : Z) (start_val end_val : option string)
    (dates : list string) (counts : list Z) :
  let f := pace_forecast to_datetime reg_target start_val end_val dates counts in
  (forall d, days_from_sheet f = Some d -> 1 <= d) /\
  (forall s, span_days f = Some s -> 1 <= s).
Proof.
  intros f.
  destruct (pace_forecast_fields to_datetime reg_target start_val end_val
              dates counts) as (Hdays & _ & Hspan & _).
  fold f in Hdays, Hspan. rewrite Hdays, Hspan. split.
  - intros d. apply sheet_days_bound.
  - intros s. apply chart_span_bound.
Qed.

Lemma chart_span_positive (reg_target : Z) (dates : list string)
    (average : option Qc) (sheet_days : option Z) (a : Qc) :
  0 < reg_target ->
  (forall a0, average = Some a0 -> (0 < a0)%Qc) ->
  (chart_span to_datetime reg_target dates average sheet_days).1 = Some a ->
  (0 < a)%Qc.
Proof.
  intros Hpos Havg. unfold chart_span.
  destruct (reg_target =? 0); [apply Havg|].
  destruct (py_min dates) as [lo|], (py_max dates) as [hi|]; try apply Havg.
  destruct (to_datetime false lo), (to_datetime false hi); try apply Havg.
  cbn [fst].
  destruct (match average with
            | Some _ => match sheet_days with
                        | Some d => d <=? 1
                        | None => false
                        end
            | None => true
            end); [|apply Havg].
  intros [= <-]. apply py_div_pos; lia.
Qed.

Lemma sheet_window_positive (reg_target : Z) (start_val end_val : option string)
    (a : Qc) :
  0 < reg_target ->
  (sheet_window to_datetime reg_target start_val end_val).1.1 = Some a ->
  (0 < a)%Qc.
Proof.
  intros Hpos. unfold sheet_window. destruct (reg_target =? 0); [done|].
  destruct start_val as [sv|], end_val as [ev|]; try done.
  destruct (to_datetime true sv), (to_datetime true ev); simpl; try done.
  destruct (1 <? _); [|done]. intros [= <-]. apply py_div_pos; lia.
Qed.

(** X17. With a positive target the full-period average, when there is
    one, is positive, and the required average, when there is one, is not
    negative. *)
Theorem forecast_signs (reg_target : Z) (start_val end_val : option string)
    (dates : list string) (counts : list Z) :
  0 < reg_target ->
  let f := pace_forecast to_datetime reg_target start_val end_val dates counts in
  (forall a, average_daily f = Some a -> (0 < a)%Qc) /\
  (forall r, required_daily_avg f = Some r -> (0 <= r)%Qc).
Proof.
  intros Hpos f.
  destruct (pace_forecast_fields to_datetime reg_target start_val end_val
              dates counts) as (_ & Havg & _ & Hreq & _).
  fold f in Havg, Hreq.
  assert (Hpositive : forall a, average_daily f = Some a -> (0 < a)%Qc).
  { intros a. rewrite Havg. apply chart_span_positive; [done|].
    intros a0. by apply sheet_window_positive. }
  split; [exact Hpositive|]. intros r. rewrite Hreq.
  destruct (required_pace_shape reg_target dates counts
              (chart_span to_datetime reg_target dates
                 (sheet_window to_datetime reg_target start_val end_val).1.1
                 (sheet_window to_datetime reg_target start_val end_val).1.2).1
              (sheet_window to_datetime reg_target start_val end_val).2)
    as [->|[(total & dr & Hdr & _ & ->)|(total & a & Ha & ->)]]; simpl.
  - done.
  - intros [= <-]. apply py_div_nonneg; lia.
  - intros [= <-]. apply Qclt_le_weak, Hpositive. by rewrite Havg.
Qed.

(** X18. Once the total so far has reached the target, and days remain,
    the required average is 0. *)
Theorem forecast_target_reached (reg_target : Z) (start_val end_val : option string)
    (dates : list string) (counts : list Z) (days_remaining total : Z) :
  let f := pace_forecast to_datetime reg_target start_val end_val dates counts in
  days_remaining_used f = Some days_remaining ->
  total_so_far_used f = Some total ->
  0 < days_remaining ->
  reg_target <= total ->
  required_daily_avg f = Some (Qc_of_Z 0).
Proof.
  intros f.
  destruct (pace_forecast_fields to_datetime reg_target start_val end_val
              dates counts) as (_ & _ & _ & Hreq & Htot & Hleft).
  fold f in Hreq, Htot, Hleft. rewrite Hreq, Htot, Hleft.
  destruct (required_pace_shape reg_target dates counts
              (chart_span to_datetime reg_target dates
                 (sheet_window to_datetime reg_target start_val end_val).1.1
                 (sheet_window to_datetime reg_target start_val end_val).1.2).1
              (sheet_window to_datetime reg_target start_val end_val).2)
    as [->|[(total' & dr & Hdr & _ & ->)|(total' & a & Ha & ->)]]; simpl.
  - done.
  - intros [= <-] [= <-] _ Hreached.
    rewrite Z.max_l by lia. by rewrite py_div_zero.
  - intros [= <-]. lia.
Qed.

(** X19. Without an end cell, without a start cell, or with an end cell
    that does not read as a date, there is no required average. *)
Theorem forecast_needs_end_date (reg_target : Z) (start_val end_val : option string)
    (dates : list string) (counts : list Z) :
  start_val = None \/ end_val = None \/
  (exists ev, end_val = Some ev /\ to_datetime true ev = None) ->
  let f := pace_forecast to_datetime reg_target start_val end_val dates counts in
  required_daily_avg f = None /\ total_so_far_used f = None /\
  days_remaining_used f = None.
Proof.
  intros Hend f.
  destruct (pace_forecast_fields to_datetime reg_target start_val end_val
              dates counts) as (_ & _ & _ & Hreq & Htot & Hleft).
  fold f in Hreq, Htot, Hleft. rewrite Hreq, Htot, Hleft.
  assert (Hw : (sheet_window to_datetime reg_target start_val end_val).2 = None \/
               (sheet_window to_datetime reg_target start_val end_val).2 = Some None).
  { unfold sheet_window. destruct (reg_target =? 0); [by left|].
    destruct Hend as [->|[->|(ev & -> & Hev)]].
    - by left.
    - destruct start_val; by left.
    - destruct start_val as [sv|]; [|by left]. rewrite Hev. right.
      by destruct (to_datetime true sv). }
  unfold required_pace.
  destruct Hw as [->| ->]; [done|].
  destruct dates as [|d ds]; [done|]. destruct counts as [|c cs]; [done|].
  destruct (reg_target =? 0); [done|].
  assert (Hmask : forall l, existsb id (in_range to_datetime None <$> l) = false).
  { induction l as [|x l IH]; [done|]. simpl. unfold in_range at 1.
    by destruct (normalize <$> to_datetime false x). }
  cbn [fmap option_fmap option_map]. by rewrite Hmask.
Qed.

End ShapeFacts.

Lemma forecast_signs_witness :
  let f := pace_forecast DateText.to_datetime 4600
             (Some "08-01-2026") (Some "22-02-2026")
             ["2026-01-08"; "2026-02-01"] [1200; 1100] in
  0 < 4600 /\
  average_daily f = Some (py_div 4600 46) /\
  (0 < py_div 4600 46)%Qc.
Proof.
  intros f. split; [reflexivity|].
  assert (Ha : average_daily f = Some (py_div 4600 46)) by reflexivity.
  split; [exact Ha|].
  exact (proj1 (forecast_signs DateText.to_datetime 4600
                  (Some "08-01-2026") (Some "22-02-2026")
                  ["2026-01-08"; "2026-02-01"] [1200; 1100] eq_refl) _ Ha).
Defined.

Lemma forecast_target_reached_witness :
  let f := pace_forecast DateText.to_datetime 2000
             (Some "08-01-2026") (Some "22-02-2026")
             ["2026-01-08"; "2026-02-01"] [1200; 1100] in
  days_remaining_used f = Some 21 /\
  total_so_far_used f = Some 2300 /\
  0 < 21 /\ 2000 <= 2300 /\
  required_daily_avg f = Some (Qc_of_Z 0).
Proof.
  intros f.
  assert (Hd : days_remaining_used f = Some 21) by reflexivity.
  assert (Ht : total_so_far_used f = Some 2300) by reflexivity.
  split; [exact Hd|]. split; [exact Ht|]. split; [reflexivity|].
  split; [discriminate|].
  exact (forecast_target_reached DateText.to_datetime 2000
           (Some "08-01-2026") (Some "22-02-2026")
           ["2026-01-08"; "2026-02-01"] [1200; 1100] 21 2300
           Hd Ht eq_refl ltac:(discriminate)).
Defined.

Lemma forecast_needs_end_date_witness :
  let f := pace_forecast DateText.to_datetime 4600
             (Some "08-01-2026") (Some "to be announced")
             ["2026-01-08"; "2026-02-01"] [1200; 1100] in
  (Some "08-01-2026" = None \/ Some "to be announced" = None \/
   (exists ev, Some "to be announced" = Some ev /\
               DateText.to_datetime true ev = None)) /\
  required_daily_avg f = None /\ total_so_far_used f = None /\
  days_remaining_used f = None.
Proof.
  intros f.
  assert (H : Some "08-01-2026" = None \/ Some "to be announced" = None \/
              (exists ev, Some "to be announced" = Some ev /\
                          DateText.to_datetime true ev = None)).
  { right; right. by exists "to be announced". }
  split; [exact H|].
  exact (forecast_needs_end_date DateText.to_datetime 4600
           (Some "08-01-2026") (Some "to be announced")
           ["2026-01-08"; "2026-02-01"] [1200; 1100] H).
Defined.

(** ** KPI sums *)

Section KpiFacts.

Variable column_total : list pyval -> res Z.

Lemma aggregate_column_finite (df : gmap string (list pyval))
    (result : gmap string Z) (col : string) :
  totals_finite column_total df [col] = true ->
  aggregate_column column_total df result col
  = Ok (<[col := column_kpi column_total df col]> result).
Proof.
  unfold totals_finite, aggregate_column, column_kpi. simpl.
  destruct (df !! col) as [cells|]; [|done].
  by destruct (column_total cells) as [n|[]].
Qed.

Lemma aggregate_columns_lookup (df : gmap string (list pyval))
    (columns : list string) (result : gmap string Z) :
  totals_finite column_total df columns = true ->
  exists kpis,
    foldM (aggregate_column column_total df) result columns = Ok kpis /\
    forall col, kpis !! col =
      if decide (col ∈ columns) then Some (column_kpi column_total df col)
      else result !! col.
Proof.
  revert result. induction columns as [|c columns IH]; intros result Hfin.
  - exists result. split; [done|]. intros col.
    destruct (decide (col ∈ [])) as [Hin|]; [|done]. by apply elem_of_nil in Hin.
  - cbn [totals_finite forallb] in Hfin. apply andb_prop in Hfin as [Hc Hrest].
    rewrite foldM_cons, aggregate_column_finite
      by (unfold totals_finite; simpl; by rewrite Hc).
    destruct (IH (<[c := column_kpi column_total df c]> result) Hrest)
      as (kpis & Hrun & Hlook).
    exists kpis. split; [exact Hrun|]. intros col. rewrite Hlook, lookup_insert.
    repeat case_decide; subst; try done;
      exfalso;
      repeat match goal with
             | H : _ ∈ _ :: _ |- _ => apply elem_of_cons in H as [?|?]
             | H : _ ∉ _ :: _ |- _ => apply not_elem_of_cons in H as [? ?]
             end; try congruence; try done.
Qed.

(** X20. When no requested column has an overflowing total,
    [aggregate_numeric_columns] returns a map with exactly the requested
    columns; a column the sheet lacks, or whose total raises [TypeError] or
    [ValueError], is recorded as 0, any other as its total. *)
Theorem aggregate_numeric_columns_kpis (df : gmap string (list pyval))
    (columns : list string) :
  totals_finite column_total df columns = true ->
  exists kpis,
    aggregate_numeric_columns column_total df columns = Ok kpis /\
    dom kpis = list_to_set columns /\
    (forall col, col ∈ columns ->
                 kpis !! col = Some (column_kpi column_total df col)) /\
    (forall col, col ∈ columns -> df !! col = None -> kpis !! col = Some 0).
Proof.
  intros Hfin. unfold aggregate_numeric_columns.
  destruct (aggregate_columns_lookup df columns ∅ Hfin) as (kpis & Hrun & Hlook).
  exists kpis. split; [exact Hrun|].
  assert (Hin : forall col, col ∈ columns ->
                            kpis !! col = Some (column_kpi column_total df col)).
  { intros col Hcol. rewrite Hlook. by case_decide. }
  split; [|split; [exact Hin|]].
  - apply set_eq. intros col.
    rewrite elem_of_dom, elem_of_list_to_set, Hlook, lookup_empty.
    case_decide; split; intros H'; try done; try (by eexists);
      try (by destruct H').
  - intros col Hcol Hmissing. rewrite (Hin col Hcol).
    unfold column_kpi. by rewrite Hmissing.
Qed.

End KpiFacts.

Lemma aggregate_numeric_columns_kpis_witness :
  let df : gmap string (list pyval) :=
    <["Registration Count" := [VInt 120; VInt 80]]>
      (<["Page Visits" := [VInt 900; VStr ""]]> ∅) in
  let columns := ["Registration Count"; "Submission Count"; "Teams Count";
                  "Page Visits"] in
  totals_finite whole_number_total df columns = true /\
  exists kpis,
    aggregate_numeric_columns whole_number_total df columns = Ok kpis /\
    kpis !! "Registration Count" = Some 200 /\
    kpis !! "Teams Count" = Some 0.
Proof.
  intros df columns. split; [reflexivity|].
  destruct (aggregate_numeric_columns_kpis whole_number_total df columns eq_refl)
    as (kpis & Hrun & _ & Hin & Hmissing).
  exists kpis. split; [exact Hrun|]. split.
  - rewrite (Hin "Registration Count") by (apply list_elem_of_In; simpl; tauto).
    reflexivity.
  - apply Hmissing; [apply list_elem_of_In; simpl; tauto|reflexivity].
Defined.

(** ** Columns of the registration window *)

Lemma lower_char_idem (c : ascii) : lower_char (lower_char c) = lower_char c.
Proof. by destruct c as [[] [] [] [] [] [] [] []]. Qed.

Lemma lower_idem (s : string) : lower (lower s) = lower s.
Proof.
  unfold lower. rewrite list_ascii_of_string_of_list_ascii.
  rewrite <- list_fmap_compose. f_equal.
  apply list_fmap_ext. intros _ c _. apply lower_char_idem.
Qed.

Lemma column_matches_lower (keywords : list string) (c : string) :
  column_matches (lower <$> keywords) c = column_matches keywords c.
Proof.
  unfold column_matches. rewrite <- list_fmap_compose. f_equal.
  apply list_fmap_ext. intros _ k _. apply lower_idem.
Qed.

Lemma find_column_find (columns keywords : list string) :
  _find_column columns keywords = List.find (column_matches keywords) columns.
Proof. reflexivity. Qed.

(** X21. [_find_column] returns a column of the sheet whose name, stripped
    and lowered, holds every keyword; it returns nothing exactly when no
    column does; and the case in which the keywords are written does not
    matter. *)
Theorem find_column_spec (columns keywords : list string) :
  (forall c, _find_column columns keywords = Some c ->
             c ∈ columns /\ column_matches keywords c = true) /\
  (_find_column columns keywords = None <->
   forall c, c ∈ columns -> column_matches keywords c = false) /\
  _find_column columns (lower <$> keywords) = _find_column columns keywords.
Proof.
  rewrite !find_column_find. split; [|split].
  - intros c Hfind. apply find_some in Hfind as [Hin Hm].
    split; [by apply list_elem_of_In|done].
  - split.
    + intros Hnone c Hc. apply (find_none _ _ Hnone). by apply list_elem_of_In.
    + intros Hall. induction columns as [|c columns IH]; [done|]. simpl.
      rewrite (Hall c) by apply list_elem_of_here.
      apply IH. intros c' Hc'. apply Hall. by apply list_elem_of_further.
  - induction columns as [|c columns IH]; [done|]. simpl.
    by rewrite column_matches_lower, IH.
Qed.

Lemma keep_column_in (columns : list string) (col : option string) (c : string) :
  keep_column columns col = Some c -> c ∈ columns.
Proof.
  destruct col as [c0|]; [|done]. simpl.
  destruct (negb (String.eqb c0 "") && has_column columns c0)%bool eqn:E; [|done].
  intros [= <-]. apply andb_prop in E as [_ Hin].
  by apply bool_decide_eq_true in Hin.
Qed.

Lemma keep_column_exact (columns : list string) (c : string) :
  String.eqb c "" = false -> c ∈ columns ->
  keep_column columns (Some c) = Some c.
Proof.
  intros Hne Hin. unfold keep_column, has_column.
  by rewrite Hne, (bool_decide_eq_true_2 _ Hin).
Qed.

(** X22. The columns the registration window is read from are columns of
    the sheet, and a column with the exact name is the one taken. *)
Theorem window_columns_in_sheet (columns : list string) :
  (forall c, (window_columns columns).1 = Some c -> c ∈ columns) /\
  (forall c, (window_columns columns).2 = Some c -> c ∈ columns) /\
  (REG_START_COL ∈ columns -> (window_columns columns).1 = Some REG_START_COL) /\
  (REG_END_COL ∈ columns -> (window_columns columns).2 = Some REG_END_COL).
Proof.
  unfold window_columns.
  destruct (has_column columns REG_START_COL) eqn:Hs;
    destruct (has_column columns REG_END_COL) eqn:He; cbn [andb negb fst snd].
  - apply bool_decide_eq_true in Hs, He.
    repeat split; try done; by intros c [= <-].
  - apply bool_decide_eq_true in Hs. apply bool_decide_eq_false in He.
    change (String.eqb REG_START_COL "") with false. cbn [fst snd].
    rewrite (keep_column_exact columns REG_START_COL eq_refl Hs).
    repeat split; try done.
    + by intros c [= <-].
    + apply keep_column_in.
  - apply bool_decide_eq_false in Hs. apply bool_decide_eq_true in He.
    rewrite (keep_column_exact columns REG_END_COL eq_refl He).
    repeat split; try done.
    + apply keep_column_in.
    + by intros c [= <-].
  - apply bool_decide_eq_false in Hs, He.
    repeat split; try done; apply keep_column_in.
Qed.

(** ** The event selector *)

Lemma is_in_true (x : string) (l : list string) : is_in x l = true <-> x ∈ l.
Proof. unfold is_in. apply bool_decide_eq_true. Qed.

Lemma filter_elem_of {A} (f : A -> bool) (l : list A) (x : A) :
  x ∈ List.filter f l <-> x ∈ l /\ f x = true.
Proof. rewrite !list_elem_of_In. apply filter_In. Qed.

Lemma filter_length_bound {A} (f : A -> bool) (l : list A) :
  (length (List.filter f l) <= length l)%nat.
Proof. induction l as [|x l IH]; simpl; [done|]. destruct (f x); simpl; lia. Qed.

Lemma filter_all {A} (f : A -> bool) (l : list A) :
  (forall x, x ∈ l -> f x = true) -> List.filter f l = l.
Proof.
  induction l as [|x l IH]; intros Hall; simpl; [done|].
  rewrite (Hall x) by apply list_elem_of_here.
  rewrite IH; [done|]. intros y Hy. apply Hall. by apply list_elem_of_further.
Qed.

Lemma filter_idem {A} (f : A -> bool) (l : list A) :
  List.filter f (List.filter f l) = List.filter f l.
Proof. apply filter_all. intros x Hx. by apply filter_elem_of in Hx as [_ ?]. Qed.

Lemma pinned_tiles_in (options : list string) (st : selector) (x : string) :
  x ∈ pinned_tiles options st <-> x ∈ options /\ x ∈ pinned_initiatives st.
Proof. unfold pinned_tiles. by rewrite filter_elem_of, is_in_true. Qed.

Lemma other_tiles_in (options : list string) (st : selector) (x : string) :
  x ∈ other_tiles options st <-> x ∈ options /\ x ∉ pinned_initiatives st.
Proof.
  unfold other_tiles. rewrite filter_elem_of, negb_true_iff.
  unfold is_in. by rewrite bool_decide_eq_false.
Qed.

Lemma sync_selected_in (options : list string) (st : selector) (x : string) :
  x ∈ selected_initiatives (sync options st) -> x ∈ options.
Proof. simpl. rewrite filter_elem_of, is_in_true. tauto. Qed.

Lemma sync_pinned_in (options : list string) (st : selector) (x : string) :
  x ∈ pinned_initiatives (sync options st) -> x ∈ options.
Proof. simpl. rewrite filter_elem_of, is_in_true. tauto. Qed.

Lemma toggle_length (opt : string) (st : selector) :
  (length (selected_initiatives (toggle opt st)) <= 1)%nat.
Proof. simpl. destruct (is_in opt _); simpl; lia. Qed.

Lemma render_selected (options : list string) (b : button) (st : selector) :
  ((length (selected_initiatives st) <= 1)%nat ->
   (length (selected_initiatives (render options b st)) <= 1)%nat) /\
  (forall x, x ∈ selected_initiatives (render options b st) -> x ∈ options).
Proof.
  unfold render.
  pose proof (filter_length_bound (fun x => is_in x options)
                (selected_initiatives st)) as Hlen.
  pose proof (sync_selected_in options st) as Hin.
  assert (Htoggle : forall opt, opt ∈ options ->
            forall x, x ∈ selected_initiatives (toggle opt (sync options st)) ->
                      x ∈ options).
  { intros opt Hopt x. cbn [toggle selected_initiatives].
    destruct (is_in opt _); [by intros ?%elem_of_nil|].
    by intros ->%list_elem_of_singleton. }
  destruct b as [| |opt|opt|opt|opt]; cbn [press].
  - split.
    + intros _. simpl. destruct options; simpl; lia.
    + simpl. destruct options as [|first rest]; [by intros x ?%elem_of_nil|].
      intros x ->%list_elem_of_singleton. apply list_elem_of_here.
  - split; [simpl; lia|]. by intros x ?%elem_of_nil.
  - destruct (is_in opt (pinned_tiles options (sync options st))) eqn:E.
    + split; [intros _; apply toggle_length|].
      apply Htoggle. apply is_in_true, pinned_tiles_in in E. tauto.
    + split; [simpl in *; lia|exact Hin].
  - destruct (is_in opt (other_tiles options (sync options st))) eqn:E.
    + split; [intros _; apply toggle_length|].
      apply Htoggle. apply is_in_true, other_tiles_in in E. tauto.
    + split; [simpl in *; lia|exact Hin].
  - destruct (is_in opt (pinned_tiles options (sync options st)));
      (split; [simpl in *; lia|exact Hin]).
  - destruct (is_in opt (other_tiles options (sync options st)));
      [destruct (negb (is_in opt (pinned_initiatives (sync options st))))|];
      (split; [simpl in *; lia|exact Hin]).
Qed.

(** X23. One event at a time: from a selection of at most one event, and
    so from the empty selection a session starts with, every run of the
    sidebar leaves at most one event selected, and an event it leaves
    selected is an event of the sheet. *)
Theorem selector_single_selection (steps : list (list string * button))
    (st : selector) :
  (length (selected_initiatives st) <= 1)%nat ->
  (length (selected_initiatives (run steps st)) <= 1)%nat /\
  (forall options b x,
      x ∈ selected_initiatives (render options b (run steps st)) -> x ∈ options).
Proof.
  intros Hone. split.
  - revert st Hone. unfold run.
    induction steps as [|[options b] steps IH]; intros st Hone; [done|].
    simpl. apply IH. by apply render_selected.
  - intros options b. apply render_selected.
Qed.

Lemma selector_single_selection_witness :
  let st := {| selected_initiatives := [];
               pinned_initiatives := ["Hack A"; "Gone"] |} in
  let steps := [(["Hack A"; "Hack B"], OtherTile "Hack B");
                (["Hack A"; "Hack B"], Pin "Hack B");
                (["Hack A"; "Hack B"], PinnedTile "Hack A")] in
  (length (selected_initiatives st) <= 1)%nat /\
  run steps st = {| selected_initiatives := ["Hack A"];
                    pinned_initiatives := ["Hack A"; "Hack B"] |} /\
  (length (selected_initiatives (run steps st)) <= 1)%nat.
Proof.
  intros st steps.
  assert (H : (length (selected_initiatives st) <= 1)%nat) by (simpl; lia).
  split; [exact H|]. split; [reflexivity|].
  exact (proj1 (selector_single_selection steps st H)).
Defined.

Lemma NoDup_list_filter {A} (f : A -> bool) (l : list A) :
  NoDup l -> NoDup (List.filter f l).
Proof.
  induction l as [|x l IH]; intros Hnd; simpl; [done|].
  apply NoDup_cons in Hnd as [Hx Hl]. destruct (f x); [|by apply IH].
  apply NoDup_cons. split; [|by apply IH].
  intros Hin. apply filter_elem_of in Hin as [Hin _]. done.
Qed.

Lemma render_pinned (options : list string) (b : button) (st : selector) :
  (NoDup (pinned_initiatives st) ->
   NoDup (pinned_initiatives (render options b st))) /\
  (forall x, x ∈ pinned_initiatives (render options b st) -> x ∈ options).
Proof.
  unfold render.
  pose proof (sync_pinned_in options st) as Hin.
  assert (Hnd : NoDup (pinned_initiatives st) ->
                NoDup (pinned_initiatives (sync options st))).
  { intros H. simpl. by apply NoDup_list_filter. }
  destruct b as [| |opt|opt|opt|opt]; cbn [press]; try by split.
  - by destruct (is_in opt (pinned_tiles options (sync options st)));
      cbn [toggle pinned_initiatives].
  - by destruct (is_in opt (other_tiles options (sync options st)));
      cbn [toggle pinned_initiatives].
  - destruct (is_in opt (pinned_tiles options (sync options st))); [|by split].
    cbn [pinned_initiatives]. split.
    + intros H. by apply NoDup_list_filter, Hnd.
    + intros x Hx. apply filter_elem_of in Hx as [Hx _]. by apply Hin.
  - destruct (is_in opt (other_tiles options (sync options st))) eqn:E; [|by split].
    apply is_in_true, other_tiles_in in E as [Hopt Hfree].
    destruct (negb (is_in opt (pinned_initiatives (sync options st)))); [|by split].
    cbn [pinned_initiatives]. split.
    + intros H. apply NoDup_app. split; [by apply Hnd|]. split.
      * intros x Hx ->%list_elem_of_singleton. done.
      * apply NoDup_singleton.
    + intros x [Hx| ->%list_elem_of_singleton]%elem_of_app; [by apply Hin|done].
Qed.

(** X24. No event is pinned twice: if the pinned list starts without
    repetition, every run of the sidebar keeps it so, and an event it
    leaves pinned is an event of the sheet. *)
Theorem selector_pins_distinct (steps : list (list string * button))
    (st : selector) :
  NoDup (pinned_initiatives st) ->
  NoDup (pinned_initiatives (run steps st)) /\
  (forall options b x,
      x ∈ pinned_initiatives (render options b (run steps st)) -> x ∈ options).
Proof.
  intros Hnd. split.
  - revert st Hnd. unfold run.
    induction steps as [|[options b] steps IH]; intros st Hnd; [done|].
    simpl. apply IH. by apply render_pinned.
  - intros options b. apply render_pinned.
Qed.

Lemma selector_pins_distinct_witness :
  let st := {| selected_initiatives := [];
               pinned_initiatives := ["Hack A"; "Gone"] |} in
  let steps := [(["Hack A"; "Hack B"], Pin "Hack B");
                (["Hack A"; "Hack B"], Pin "Hack B");
                (["Hack A"; "Hack B"], Unpin "Hack A")] in
  NoDup (pinned_initiatives st) /\
  pinned_initiatives (run steps st) = ["Hack B"] /\
  NoDup (pinned_initiatives (run steps st)).
Proof.
  intros st steps.
  assert (H : NoDup (pinned_initiatives st)).
  { apply (bool_decide_unpack _). vm_compute. exact I. }
  split; [exact H|]. split; [reflexivity|].
  exact (proj1 (selector_pins_distinct steps st H)).
Defined.

Lemma filter_remove_last (l : list string) (opt : string) :
  opt ∉ l ->
  List.filter (fun x => negb (String.eqb x opt)) (l ++ [opt]) = l.
Proof.
  intros Hfree. rewrite List.filter_app. simpl.
  rewrite String.eqb_refl. simpl. rewrite app_nil_r.
  apply filter_all. intros x Hx. apply negb_true_iff, String.eqb_neq.
  by intros ->.
Qed.

(** X25. Pinning an event of the sheet that is not pinned and unpinning
    it again gives back the state the page had synchronised. *)
Theorem pin_unpin_round_trip (options : list string) (opt : string)
    (st : selector) :
  opt ∈ options ->
  opt ∉ pinned_initiatives st ->
  render options (Unpin opt) (render options (Pin opt) st) = sync options st.
Proof.
  intros Hopt Hfree.
  set (s1 := sync options st).
  assert (Hfree1 : opt ∉ pinned_initiatives s1).
  { unfold s1. simpl. rewrite filter_elem_of. tauto. }
  assert (Hpin : render options (Pin opt) st
                 = {| selected_initiatives := selected_initiatives s1;
                      pinned_initiatives := pinned_initiatives s1 ++ [opt] |}).
  { unfold render. fold s1. cbn [press].
    rewrite (proj2 (is_in_true opt (other_tiles options s1)))
      by (apply other_tiles_in; tauto).
    unfold is_in at 1. by rewrite (bool_decide_eq_false_2 _ Hfree1). }
  rewrite Hpin. unfold render.
  set (s2 := sync options _).
  assert (Hs2 : s2 = {| selected_initiatives := selected_initiatives s1;
                        pinned_initiatives := pinned_initiatives s1 ++ [opt] |}).
  { unfold s2, sync. cbn [selected_initiatives pinned_initiatives]. f_equal.
    - unfold s1. simpl. apply filter_idem.
    - apply filter_all. intros x Hx. apply is_in_true.
      apply elem_of_app in Hx as [Hx| ->%list_elem_of_singleton]; [|done].
      by apply (sync_pinned_in options st). }
  rewrite Hs2. cbn [press].
  rewrite (proj2 (is_in_true opt (pinned_tiles options _))).
  - cbn [selected_initiatives pinned_initiatives].
    rewrite (filter_remove_last _ _ Hfree1). by destruct s1.
  - apply pinned_tiles_in. split; [done|]. simpl.
    apply elem_of_app. right. apply list_elem_of_here.
Qed.

Lemma pin_unpin_round_trip_witness :
  let st := {| selected_initiatives := ["Hack B"];
               pinned_initiatives := ["Hack A"; "Gone"] |} in
  ("Hack B" ∈ ["Hack A"; "Hack B"]) /\
  ("Hack B" ∉ pinned_initiatives st) /\
  render ["Hack A"; "Hack B"] (Unpin "Hack B")
    (render ["Hack A"; "Hack B"] (Pin "Hack B") st)
  = {| selected_initiatives := ["Hack B"]; pinned_initiatives := ["Hack A"] |}.
Proof.
  intros st.
  assert (H1 : "Hack B" ∈ ["Hack A"; "Hack B"])
    by (apply (bool_decide_unpack _); vm_compute; exact I).
  assert (H2 : "Hack B" ∉ pinned_initiatives st)
    by (apply (bool_decide_unpack _); vm_compute; exact I).
  split; [exact H1|]. split; [exact H2|].
  exact (pin_unpin_round_trip ["Hack A"; "Hack B"] "Hack B" st H1 H2).
Defined.

Lemma filter_partition_Permutation {A} (f : A -> bool) (l : list A) :
  List.filter f l ++ List.filter (fun x => negb (f x)) l ≡ₚ l.
Proof.
  induction l as [|x l IH]; [done|]. simpl. destruct (f x); simpl.
  - by rewrite IH.
  - rewrite <- Permutation_middle. by rewrite IH.
Qed.

(** X26. Every event of the sheet has exactly one tile: the pinned tiles
    and the other tiles together are the events of the sheet, each as
    often as the sheet lists it, and no event is in both lists. *)
Theorem tiles_partition (options : list string) (st : selector) :
  (pinned_tiles options st ++ other_tiles options st ≡ₚ options) /\
  (forall x, x ∈ pinned_tiles options st -> x ∈ other_tiles options st -> False).
Proof.
  split.
  - apply (filter_partition_Permutation
             (fun x => is_in x (pinned_initiatives st)) options).
  - intros x [_ Hp]%pinned_tiles_in [_ Ho]%other_tiles_in. done.
Qed.

(** ** The bars of a distribution *)

Lemma insert_desc_Permutation (x : string * Z) (l : list (string * Z)) :
  insert_desc x l ≡ₚ x :: l.
Proof.
  induction l as [|y l IH]; simpl; [done|].
  destruct (y.2 <=? x.2); [done|]. rewrite IH. apply perm_swap.
Qed.

Lemma sorted_by_count_Permutation (items : list (string * Z)) :
  sorted_by_count items ≡ₚ items.
Proof.
  unfold sorted_by_count. induction items as [|x items IH]; simpl; [done|].
  by rewrite insert_desc_Permutation, IH.
Qed.

Lemma insert_desc_sorted (x : string * Z) (l : list (string * Z)) :
  StronglySorted (fun a b : string * Z => b.2 <= a.2) l ->
  StronglySorted (fun a b : string * Z => b.2 <= a.2) (insert_desc x l).
Proof.
  induction 1 as [|y l Hs IH Hall]; simpl; [repeat constructor|].
  destruct (y.2 <=? x.2) eqn:E.
  - apply Z.leb_le in E. constructor; [by constructor|].
    constructor; [done|]. eapply Forall_impl; [exact Hall|].
    intros z Hz. simpl in *. lia.
  - apply Z.leb_gt in E. constructor; [exact IH|].
    rewrite insert_desc_Permutation. constructor; [simpl; lia|exact Hall].
Qed.

Lemma sorted_by_count_sorted (items : list (string * Z)) :
  StronglySorted (fun a b : string * Z => b.2 <= a.2) (sorted_by_count items).
Proof.
  unfold sorted_by_count. induction items as [|x items IH]; simpl.
  - constructor.
  - by apply insert_desc_sorted.
Qed.

(** X27. A bar chart shows the relabelled entries of the largest counts:
    at most 15 bars (all of them when there are no more than 15), in order
    of non-increasing count, and no entry left out has a larger count than
    an entry shown. *)
Theorem bar_entries_top (items : list (string * Z)) :
  exists shown hidden,
    (shown ++ hidden ≡ₚ items) /\
    bar_entries items
    = (fun kv : string * Z => (normalize_chart_label (Some kv.1), kv.2)) <$> shown /\
    length (bar_entries items) = Nat.min 15 (length items) /\
    StronglySorted (fun a b : Z => b <= a) (bar_entries items).*2 /\
    (forall x y, x ∈ hidden -> y ∈ shown -> x.2 <= y.2).
Proof.
  exists (take 15 (sorted_by_count items)), (drop 15 (sorted_by_count items)).
  pose proof (sorted_by_count_sorted items) as Hsorted.
  rewrite <- (take_drop 15 (sorted_by_count items)) in Hsorted.
  apply StronglySorted_app in Hsorted as (Hcross & Hshown & _).
  split; [by rewrite take_drop, sorted_by_count_Permutation|].
  split; [reflexivity|]. split; [|split].
  - unfold bar_entries.
    by rewrite length_fmap, length_take, (Permutation_length
                                           (sorted_by_count_Permutation items)).
  - unfold bar_entries. rewrite <- list_fmap_compose.
    by apply (StronglySorted_fmap _ (fun a b : string * Z => b.2 <= a.2)).
  - intros x y Hx Hy. by apply (Hcross y x).
Qed.

(** ** Blanks and case *)

(** X28. The blanks around the text of a cell do not change what
    [safe_json_loads] makes of it. *)
Theorem safe_json_loads_strip (json_loads : string -> option pyval) (s : string) :
  safe_json_loads json_loads (VStr (strip s)) = safe_json_loads json_loads (VStr s).
Proof. unfold safe_json_loads. by rewrite strip_idem. Qed.

Lemma lower_char_space (c : ascii) : py_isspace (lower_char c) = py_isspace c.
Proof. by destruct c as [[] [] [] [] [] [] [] []]. Qed.

Lemma lstrip_lower (l : list ascii) :
  lstrip (lower_char <$> l) = lower_char <$> lstrip l.
Proof.
  induction l as [|c l IH]; [done|]. rewrite fmap_cons. simpl.
  rewrite lower_char_space. by destruct (py_isspace c).
Qed.

Lemma rev_fmap {A B} (f : A -> B) (l : list A) : rev (f <$> l) = f <$> rev l.
Proof.
  induction l as [|x l IH]; [done|]. rewrite fmap_cons. simpl.
  by rewrite IH, fmap_app.
Qed.

Lemma strip_lower (s : string) : strip (lower s) = lower (strip s).
Proof.
  unfold strip, lower. rewrite !list_ascii_of_string_of_list_ascii. f_equal.
  by rewrite lstrip_lower, rev_fmap, lstrip_lower, rev_fmap.
Qed.

(** X29. The user name the session keeps after a login (the name stripped
    and lowered) is a user whose role is the role the login returned. *)
Theorem login_session_role (sha256_hex : string -> string)
    (username password role : string) :
  verify_login sha256_hex username password = (true, Some role) ->
  get_role sha256_hex (lower (strip username)) = Some role.
Proof.
  unfold verify_login, get_role.
  rewrite strip_lower, strip_idem, lower_idem.
  destruct (String.eqb username "" || String.eqb password "")%bool; [done|].
  destruct (USER_STORE sha256_hex !! lower (strip username)) as [entry|]; [|done].
  destruct (String.eqb (entry_password_hash entry) _); [|done].
  by intros [= <-].
Qed.

Lemma login_session_role_witness :
  verify_login plain_digest " Viewer" "viewer123" = (true, Some "viewer") /\
  lower (strip " Viewer") = "viewer" /\
  get_role plain_digest (lower (strip " Viewer")) = Some "viewer".
Proof.
  split; [reflexivity|]. split; [reflexivity|].
  exact (login_session_role plain_digest " Viewer" "viewer123" "viewer" eq_refl).
Defined.
